(** * Triplets_New: checkpoint resume, training driver and EndoForm heads

    A shallow embedding of [src/utils.py], [Pamain.py] and the head of
    [src/models/EndoForm.py].

    - Python values, exceptions and the mutable world (object heap, files,
      output trace) are explicit; every function of the scripts is a
      computation in a state-and-exception monad over that world.
    - Calls into torch, accelerate and transformers, and into the
      repository's [src.eval] and [src.models.NewPA], are fields of the
      [Externals] class.
    - The network is embedded twice: on tensor shapes (every layer is a
      partial function on shapes, failing where torch raises), and, for
      [AttentionClassifier], on values over an abstract scalar type. *)

From Stdlib Require Import QArith ZArith Lia ZifyNat.
From stdpp Require Import gmap strings list pretty.

Local Close Scope Q_scope.
Local Open Scope Z_scope.
Local Open Scope nat_scope.

Set Warnings "-register-all".

(* ===================================================================== *)
(** * Python values *)
(* ===================================================================== *)

(** The values of a Python [float] (and of one element of a float tensor):
    comparison is exact, so finite values are kept as rationals. *)
Inductive pyfloat :=
| FNaN
| FInf (neg : bool)
| FFin (q : Q).

(** [x < y] on floats: false as soon as one side is NaN. *)
Definition flt (x y : pyfloat) : bool :=
  match x, y with
  | FNaN, _ | _, FNaN => false
  | FInf true, FInf true => false
  | FInf true, _ => true
  | _, FInf true => false
  | FInf false, _ => false
  | _, FInf false => true
  | FFin p, FFin q => match Qcompare p q with Lt => true | _ => false end
  end.

(** [x == y] on floats. *)
Definition feq (x y : pyfloat) : bool :=
  match x, y with
  | FInf a, FInf b => Bool.eqb a b
  | FFin p, FFin q => Qeq_bool p q
  | _, _ => false
  end.

(** A float tensor (also a numpy scalar, with shape [[]]): its shape and
    its elements in row-major order. *)
Record tensor := Tensor { t_shape : list nat; t_data : list pyfloat }.

Definition loc := positive.

Inductive pyval :=
| PyNone
| PyBool (b : bool)
| PyInt (n : Z)
| PyFloat (x : pyfloat)
| PyStr (s : string)
| PyTensor (t : tensor)
| PyList (vs : list pyval)
| PyDict (kvs : list (string * pyval))
| PyRef (l : loc).

(** Dictionaries keep their insertion order; a key occurs once. *)
Fixpoint assoc {V : Type} (k : string) (kvs : list (string * V)) : option V :=
  match kvs with
  | [] => None
  | (k', v) :: rest => if String.eqb k k' then Some v else assoc k rest
  end.

(** Exceptions, by class.  [KeyboardInterrupt] and [SystemExit] derive from
    [BaseException] only: [except Exception] lets them through. *)
Inductive exn :=
| KeyError (key : string)
| TypeError (what : string)
| AttributeError (attr : string)
| NameError (name : string)
| ValueError (what : string)
| RuntimeError (what : string)
| IndexError (what : string)
| FileNotFoundError (path : string)
| OtherException (what : string)
| KeyboardInterrupt
| SystemExit (code : Z).

Definition is_Exception (e : exn) : bool :=
  match e with
  | KeyboardInterrupt | SystemExit _ => false
  | _ => true
  end.

Inductive res (A : Type) :=
| Ok (a : A)
| Raise (e : exn).
Arguments Ok {A} a.
Arguments Raise {A} e.

(** ** Operators of the language on values *)

(** [bool] is a subclass of [int]. *)
Definition py_index (v : pyval) : option Z :=
  match v with
  | PyInt n => Some n
  | PyBool b => Some (Z.b2z b)
  | _ => None
  end.

(** [d[k]] *)
Definition py_getitem (d : pyval) (k : string) : res pyval :=
  match d with
  | PyDict kvs =>
      match assoc k kvs with
      | Some v => Ok v
      | None => Raise (KeyError k)
      end
  | PyTensor _ => Raise (IndexError "invalid index")
  | PyList _ | PyStr _ => Raise (TypeError "indices must be integers")
  | _ => Raise (TypeError "object is not subscriptable")
  end.

(** [t.item()] of a tensor: defined for exactly one element. *)
Definition tensor_item (t : tensor) : res pyfloat :=
  match t_data t with
  | [x] => Ok x
  | _ => Raise (RuntimeError "a Tensor with several elements cannot be converted to Scalar")
  end.

(** [v.item()]: tensors and numpy scalars have it, built-in numbers do not. *)
Definition py_item (v : pyval) : res pyfloat :=
  match v with
  | PyTensor t => tensor_item t
  | _ => Raise (AttributeError "item")
  end.

(** Truth value of a one-element tensor of comparison results. *)
Definition tensor_bool (bs : list bool) : res bool :=
  match bs with
  | [b] => Ok b
  | _ => Raise (RuntimeError "Boolean value of Tensor with more than one value is ambiguous")
  end.

(** [if x < v:] for a float [x]. *)
Definition py_float_lt (x : pyfloat) (v : pyval) : res bool :=
  match v with
  | PyFloat y => Ok (flt x y)
  | PyInt n => Ok (flt x (FFin (inject_Z n)))
  | PyBool b => Ok (flt x (FFin (inject_Z (Z.b2z b))))
  | PyTensor t => tensor_bool (map (flt x) (t_data t))
  | _ => Raise (TypeError "'<' not supported")
  end.

(** [v == True] as a condition. *)
Definition py_eq_True (v : pyval) : res bool :=
  match v with
  | PyBool b => Ok b
  | PyInt n => Ok (Z.eqb n 1)
  | PyFloat x => Ok (feq x (FFin 1%Q))
  | PyTensor t => tensor_bool (map (fun x => feq x (FFin 1%Q)) (t_data t))
  | _ => Ok false
  end.

(** [v != True] as a condition. *)
Definition py_ne_True (v : pyval) : res bool :=
  match v with
  | PyBool b => Ok (negb b)
  | PyInt n => Ok (negb (Z.eqb n 1))
  | PyFloat x => Ok (negb (feq x (FFin 1%Q)))
  | PyTensor t => tensor_bool (map (fun x => negb (feq x (FFin 1%Q))) (t_data t))
  | _ => Ok true
  end.

(** [if v:] *)
Definition py_truthy (v : pyval) : res bool :=
  match v with
  | PyNone => Ok false
  | PyBool b => Ok b
  | PyInt n => Ok (negb (Z.eqb n 0))
  | PyFloat x => Ok (negb (feq x (FFin 0%Q)))
  | PyStr s => Ok (negb (String.eqb s ""))
  | PyTensor t => tensor_bool (map (fun x => negb (feq x (FFin 0%Q))) (t_data t))
  | PyList vs => Ok (match vs with [] => false | _ => true end)
  | PyDict kvs => Ok (match kvs with [] => false | _ => true end)
  | PyRef _ => Ok true
  end.

(** [range(a, b)] *)
Definition py_range (a b : pyval) : res (list Z) :=
  match py_index a, py_index b with
  | Some lo, Some hi => Ok (map (fun i => (lo + Z.of_nat i)%Z) (seq 0 (Z.to_nat (hi - lo))))
  | _, _ => Raise (TypeError "object cannot be interpreted as an integer")
  end.

(* ===================================================================== *)
(** * The world: objects, files, output *)
(* ===================================================================== *)

(** Objects with mutable state: an [nn.Module] with its state dict (an
    ordered dictionary of tensors), and optimizers and schedulers with the
    state their library keeps. *)
Inductive obj :=
| ObjModule (state : list (string * tensor))
| ObjStateful (state : pyval).

(** What [torch.load] finds at a path: a pickled value, or bytes on which
    it raises. *)
Inductive file :=
| Stored (v : pyval)
| Unreadable (e : exn).

Inductive event (T : Type) :=
| EvPrint (text : string) (args : list pyval)
| EvPrintExn (e : exn)
| EvModelTrain
| EvForward (img txt : T)
| EvBackward (loss : T)
| EvOptimizerStep
| EvZeroGrad
| EvLog (entries : list (string * pyfloat)) (step : pyval)
| EvLogMetrics (metrics : pyval) (step : pyval)
| EvSchedulerStep (epoch : Z)
| EvPAVal (train : bool) (step : pyval)
| EvPrepare
| EvSaveState (output_dir : string)
| EvTorchSave (path : string) (v : pyval).
Arguments EvPrint {T} text args.
Arguments EvPrintExn {T} e.
Arguments EvModelTrain {T}.
Arguments EvForward {T} img txt.
Arguments EvBackward {T} loss.
Arguments EvOptimizerStep {T}.
Arguments EvZeroGrad {T}.
Arguments EvLog {T} entries step.
Arguments EvLogMetrics {T} metrics step.
Arguments EvSchedulerStep {T} epoch.
Arguments EvPAVal {T} train step.
Arguments EvPrepare {T}.
Arguments EvSaveState {T} output_dir.
Arguments EvTorchSave {T} path v.

Record world (T : Type) := World {
  cwd : string;                    (* os.getcwd() *)
  heap : gmap loc obj;
  disk : gmap string file;
  web : gmap string file;          (* what torch.hub downloads *)
  trace : list (event T)           (* oldest first *)
}.
Arguments World {T} cwd heap disk web trace.
Arguments cwd {T} w.
Arguments heap {T} w.
Arguments disk {T} w.
Arguments web {T} w.
Arguments trace {T} w.

(** A training batch, as the loader yields it:
    [(img, txt, (y1, y2, y3, y4))]. *)
Record batch (T : Type) := Batch {
  b_img : T; b_txt : T; b_y1 : T; b_y2 : T; b_y3 : T; b_y4 : T
}.
Arguments Batch {T} b_img b_txt b_y1 b_y2 b_y3 b_y4.
Arguments b_img {T} b.
Arguments b_txt {T} b.
Arguments b_y1 {T} b.
Arguments b_y2 {T} b.
Arguments b_y3 {T} b.
Arguments b_y4 {T} b.

(** The libraries and the modules outside the sources at hand.  [T] is the
    type of the tensors that flow through the training step. *)
Class Externals (T : Type) := {
  (** float addition of 1, rounded *)
  ext_fadd1 : pyfloat -> pyfloat;
  (** [load_state_dict] of an optimizer or scheduler: from its state and
      the loaded value, its state afterwards and what it raised *)
  ext_stateful_load : pyval -> pyval -> pyval * option exn;
  (** [model(img, txt)]: the tuple the model returns, or what it raises *)
  ext_model_call : gmap loc obj -> pyval -> T -> T -> res (list T);
  ext_squeeze : T -> T;
  ext_float : T -> T;
  ext_CrossEntropyLoss : T -> T -> T;
  ext_BCEWithLogitsLoss : T -> T -> T;
  ext_add : T -> T -> T;
  ext_item : T -> pyfloat;
  (** [PA_val(config, model, loader, activation, step, train)] of
      [src.eval]: the pair [(metrics, step)] it returns, or what it raises *)
  ext_PA_val : gmap loc obj -> pyval -> list (batch T) -> pyval -> bool -> res (pyval * pyval);
  (** the effect of a library call on the objects *)
  ext_effect : event T -> gmap loc obj -> gmap loc obj
}.

(** ** The monad of the scripts: state and exceptions *)

Definition M (T A : Type) : Type := world T -> world T * res A.

Definition ret {T A} (a : A) : M T A := fun w => (w, Ok a).

Definition bind {T A B} (m : M T A) (k : A -> M T B) : M T B :=
  fun w => match m w with
           | (w', Ok a) => k a w'
           | (w', Raise e) => (w', Raise e)
           end.

Definition raise {T A} (e : exn) : M T A := fun w => (w, Raise e).

Definition lift {T A} (r : res A) : M T A := fun w => (w, r).

(** [try: body  except Exception as e: handler e] *)
Definition try_except {T A} (body : M T A) (handler : exn -> M T A) : M T A :=
  fun w => match body w with
           | (w', Raise e) => if is_Exception e then handler e w' else (w', Raise e)
           | r => r
           end.

Declare Scope py_scope.
Delimit Scope py_scope with py.
Notation "x <- m ;; k" := (bind m (fun x => k))
  (at level 100, m at next level, right associativity) : py_scope.
Notation "m ;;; k" := (bind m (fun _ => k))
  (at level 100, right associativity) : py_scope.
Local Open Scope py_scope.

Definition get_world {T} : M T (world T) := fun w => (w, Ok w).

(** An observable action, recorded in the trace. *)
Definition emit {T} (ev : event T) : M T unit :=
  fun w => (World (cwd w) (heap w) (disk w) (web w) (trace w ++ [ev]), Ok tt).

(** A library call that acts on the objects. *)
Definition call_ext {T} `{Externals T} (ev : event T) : M T unit :=
  fun w => (World (cwd w) (ext_effect ev (heap w)) (disk w) (web w) (trace w ++ [ev]), Ok tt).

Definition set_obj {T} (l : loc) (o : obj) : M T unit :=
  fun w => (World (cwd w) (<[l := o]> (heap w)) (disk w) (web w) (trace w), Ok tt).

(** [accelerator.print(text.format(args))] *)
Definition accelerator_print {T} (text : string) (args : list pyval) : M T unit :=
  emit (EvPrint text args).

(** [accelerator.print(e)] *)
Definition accelerator_print_exn {T} (e : exn) : M T unit :=
  emit (EvPrintExn e).

Definition read_file (fs : gmap string file) (path : string) : res pyval :=
  match fs !! path with
  | Some (Stored v) => Ok v
  | Some (Unreadable e) => Raise e
  | None => Raise (FileNotFoundError path)
  end.

(** [torch.load(path, map_location=...)] *)
Definition torch_load {T} (path : string) : M T pyval :=
  fun w => (w, read_file (disk w) path).

(** [torch.hub.load_state_dict_from_url(url, ...)] *)
Definition hub_load_state_dict_from_url {T} (url : string) : M T pyval :=
  fun w => (w, read_file (web w) url).

(** [torch.save(v, path)] *)
Definition torch_save {T} (v : pyval) (path : string) : M T unit :=
  fun w => (World (cwd w) (heap w) (<[path := Stored v]> (disk w)) (web w)
                  (trace w ++ [EvTorchSave path v]), Ok tt).

(** [v + 1] *)
Definition py_add1 {T} `{Externals T} (v : pyval) : res pyval :=
  match v with
  | PyInt n => Ok (PyInt (n + 1))
  | PyBool b => Ok (PyInt (Z.b2z b + 1))
  | PyFloat x => Ok (PyFloat (ext_fadd1 x))
  | PyTensor t => Ok (PyTensor (Tensor (t_shape t) (map ext_fadd1 (t_data t))))
  | _ => Raise (TypeError "unsupported operand type(s) for +")
  end.

(** ** [nn.Module.load_state_dict(state_dict)], strict

    torch walks the module's own entries and copies every tensor of the
    given dictionary that has the entry's name and shape; it collects an
    error for an entry that is missing, is not a tensor or has another
    shape, and for every key the module does not have.  Only after the
    copies does it raise [RuntimeError] when an error was collected. *)

Definition shape_eqb (s1 s2 : list nat) : bool := bool_decide (s1 = s2).

Definition load_entry (sd : list (string * pyval)) (entry : string * tensor)
  : (string * tensor) * bool :=
  let '(k, cur) := entry in
  match assoc k sd with
  | Some (PyTensor t) =>
      if shape_eqb (t_shape t) (t_shape cur) then ((k, t), true) else ((k, cur), false)
  | _ => ((k, cur), false)
  end.

Definition has_key {V : Type} (kvs : list (string * V)) (k : string) : bool :=
  match assoc k kvs with Some _ => true | None => false end.

Definition module_load_state_dict (state : list (string * tensor)) (v : pyval)
  : list (string * tensor) * option exn :=
  match v with
  | PyDict sd =>
      let loaded := map (load_entry sd) state in
      let all_copied := forallb snd loaded in
      let none_unexpected := forallb (has_key state) (map fst sd) in
      (map fst loaded,
       if all_copied && none_unexpected then None
       else Some (RuntimeError "Error(s) in loading state_dict"))
  | _ => (state, Some (TypeError "Expected state_dict to be dict-like"))
  end.

(** [target.load_state_dict]: the attribute lookup. *)
Definition get_load_state_dict {T} (target : pyval) : M T (loc * obj) :=
  fun w => match target with
           | PyRef l =>
               match heap w !! l with
               | Some o => (w, Ok (l, o))
               | None => (w, Raise (AttributeError "load_state_dict"))
               end
           | _ => (w, Raise (AttributeError "load_state_dict"))
           end.

(** The bound method applied to the loaded value. *)
Definition apply_load_state_dict {T} `{Externals T} (lo : loc * obj) (v : pyval) : M T unit :=
  let '(l, o) := lo in
  match o with
  | ObjModule state =>
      let '(state', err) := module_load_state_dict state v in
      set_obj l (ObjModule state') ;;;
      match err with Some e => raise e | None => ret tt end
  | ObjStateful st =>
      let '(st', err) := ext_stateful_load st v in
      set_obj l (ObjStateful st') ;;;
      match err with Some e => raise e | None => ret tt end
  end.

(* ===================================================================== *)
(** * src/utils.py *)
(* ===================================================================== *)

(** [load_model_dict(download_path)] *)
Definition load_model_dict {T} (download_path : string) : M T pyval :=
  if String.prefix "http" download_path
  then hub_load_state_dict_from_url download_path
  else torch_load download_path.

(** The body of the [try] of [load_pretrain_model]. *)
Definition load_pretrain_try {T} `{Externals T} (pretrain_path : string) (model : pyval)
  : M T pyval :=
  state_dict <- load_model_dict pretrain_path ;;
  meth <- get_load_state_dict model ;;
  apply_load_state_dict meth state_dict ;;;
  accelerator_print "Successfully loaded the training model！" [] ;;;
  ret model.

(** [load_pretrain_model(pretrain_path, model, accelerator)] *)
Definition load_pretrain_model {T} `{Externals T} (pretrain_path : string) (model : pyval)
  : M T pyval :=
  try_except
    (load_pretrain_try pretrain_path model)
    (fun e =>
     accelerator_print_exn e ;;;
     accelerator_print "Failed to load the training model！" [] ;;;
     ret model).

(** [load_param(base_path, param_dict, accelerator, type)]: the loop over
    [param_dict.keys()], [num] counting the entries done. *)
Fixpoint load_param_loop {T} `{Externals T} (base_path type : string)
    (entries : list (string * pyval)) (num : nat) : M T unit :=
  match entries with
  | [] => ret tt
  | (key, target) :: rest =>
      let add := if Nat.eqb num 0 then "" else "_" +:+ pretty num in
      meth <- get_load_state_dict target ;;
      v <- torch_load (base_path +:+ "/" +:+ type +:+ add +:+ ".bin") ;;
      apply_load_state_dict meth v ;;;
      load_param_loop base_path type rest (S num)
  end.

Definition load_param {T} `{Externals T} (base_path : string) (param_dict : pyval)
    (type : string) : M T pyval :=
  match param_dict with
  | PyDict entries => load_param_loop base_path type entries 0 ;;; ret param_dict
  | _ => raise (AttributeError "keys")
  end.

(** The eight values [resume_train_state] returns. *)
Record train_state := TrainState {
  ts_model : pyval;
  ts_optimizers : pyval;
  ts_schedulers : pyval;
  ts_starting_epoch : pyval;
  ts_train_step : pyval;
  ts_val_step : pyval;
  ts_best_score : pyval;
  ts_best_metrics : pyval
}.

(** [torch.nn.Parameter(torch.tensor([0.0]), requires_grad=False)] *)
Definition zero_score : pyval := PyTensor (Tensor [1] [FFin 0%Q]).

Definition is_list (v : pyval) : bool :=
  match v with PyList _ => true | _ => false end.

(** The five entries read from [epoch.pth.tar], [starting_epoch] being
    [epoch_checkpoint['epoch'] + 1]. *)
Record epoch_meta := EpochMeta {
  m_best_score : pyval;
  m_best_metrics : pyval;
  m_starting_epoch : pyval;
  m_train_step : pyval;
  m_val_step : pyval
}.

(** The first block of the [try] of [resume_train_state]: the metadata
    file and its entries. *)
Definition read_epoch_checkpoint {T} `{Externals T} (base_path : string) : M T epoch_meta :=
  epoch_checkpoint <- torch_load (base_path +:+ "/epoch.pth.tar") ;;
  best_score <- lift (py_getitem epoch_checkpoint "best_score") ;;
  best_metrics <- lift (py_getitem epoch_checkpoint "best_metrics") ;;
  epoch <- lift (py_getitem epoch_checkpoint "epoch") ;;
  starting_epoch <- lift (py_add1 epoch) ;;
  train_step <- lift (py_getitem epoch_checkpoint "train_step") ;;
  val_step <- lift (py_getitem epoch_checkpoint "val_step") ;;
  ret (EpochMeta best_score best_metrics starting_epoch train_step val_step).

(** The last block: the states of the optimizers and schedulers. *)
Definition load_optimizers_schedulers {T} `{Externals T} (base_path : string)
    (optimizers schedulers : pyval) : M T (pyval * pyval) :=
  if is_list optimizers then
    optimizers <- load_param base_path optimizers "optimizer" ;;
    schedulers <- load_param base_path schedulers "scheduler" ;;
    ret (optimizers, schedulers)
  else
    meth <- get_load_state_dict optimizers ;;
    v <- torch_load (base_path +:+ "/optimizer.bin") ;;
    apply_load_state_dict meth v ;;;
    meth <- get_load_state_dict schedulers ;;
    v <- torch_load (base_path +:+ "/scheduler.bin") ;;
    apply_load_state_dict meth v ;;;
    ret (optimizers, schedulers).

(** [f"{os.getcwd()}/model_store/{checkpoint}/checkpoint"] *)
Definition checkpoint_path {T} (w : world T) (checkpoint : string) : string :=
  cwd w +:+ "/model_store/" +:+ checkpoint +:+ "/checkpoint".

(** The body of the [try]. *)
Definition resume_try {T} `{Externals T} (model : pyval) (checkpoint : string)
    (optimizers schedulers : pyval) : M T train_state :=
  w <- get_world ;;
  let base_path := checkpoint_path w checkpoint in
  meta <- read_epoch_checkpoint base_path ;;
  model <- load_pretrain_model (base_path +:+ "/pytorch_model.bin") model ;;
  loaded <- load_optimizers_schedulers base_path optimizers schedulers ;;
  let '(optimizers, schedulers) := loaded in
  accelerator_print "Loading training state successfully! Start training from {}, Best score: {}"
    [m_starting_epoch meta; m_best_score meta] ;;;
  ret (TrainState model optimizers schedulers (m_starting_epoch meta) (m_train_step meta)
         (m_val_step meta) (m_best_score meta) (m_best_metrics meta)).

(** What the [except] branch returns with the objects. *)
Definition fresh_state (model optimizers schedulers : pyval) : train_state :=
  TrainState model optimizers schedulers (PyInt 0) (PyInt 0) (PyInt 0) zero_score (PyDict []).

(** [resume_train_state(model, checkpoint, optimizers, schedulers,
    accelerator)].  In the [except] branch the names [model], [optimizers]
    and [schedulers] hold what they were given: [load_pretrain_model] and
    [load_param] return their argument. *)
Definition resume_train_state {T} `{Externals T} (model : pyval) (checkpoint : string)
    (optimizers schedulers : pyval) : M T train_state :=
  try_except
    (resume_try model checkpoint optimizers schedulers)
    (fun e =>
     accelerator_print_exn e ;;;
     accelerator_print "Failed to load training state!" [] ;;;
     ret (fresh_state model optimizers schedulers)).

(** ** [add_tokens_tokenizer]

    A tokenizer of the transformers library, as far as the function uses
    it: the dictionary [tokenizer.vocab] and the method [add_tokens], which
    returns the number of tokens it added. *)
Class Tokenizer (Tok : Type) := {
  tok_vocab : Tok -> gmap string nat;
  tok_add_tokens : list string -> Tok -> Tok * nat
}.

(** The loop over [all_list]: [add] collects the words that are not keys of
    [tokenizer.vocab], [out] the lines printed. *)
Fixpoint missing_words {Tok} `{Tokenizer Tok} (tokenizer : Tok) (all_list : list string)
    (add out : list string) : list string * list string :=
  match all_list with
  | [] => (add, out)
  | word :: rest =>
      if bool_decide (is_Some (tok_vocab tokenizer !! word))
      then missing_words tokenizer rest add out
      else missing_words tokenizer rest (add ++ [word])
             (out ++ ["'" +:+ word +:+ "' is not in the BERT vocabulary."])
  end.

(** [add_tokens_tokenizer(tokenizer, all_list)]: the tokenizer after the
    call and the lines printed. *)
Definition add_tokens_tokenizer {Tok} `{Tokenizer Tok} (tokenizer : Tok)
    (all_list : list string) : Tok * list string :=
  let '(add, out) := missing_words tokenizer all_list [] [] in
  let '(tokenizer', num_added_toks) := tok_add_tokens add tokenizer in
  (tokenizer', out ++ ["Now we have added " +:+ pretty num_added_toks +:+ " tokens"]).

(** A tokenizer that is only its vocabulary: [add_tokens] gives every new
    token the next free id. *)
Definition add_token (v : gmap string nat * nat) (w : string) : gmap string nat * nat :=
  match v.1 !! w with
  | Some _ => v
  | None => (<[w := size v.1]> v.1, S v.2)
  end.

#[export] Instance vocab_tokenizer : Tokenizer (gmap string nat) := {
  tok_vocab := fun t => t;
  tok_add_tokens := fun ws t => fold_left add_token ws (t, 0)
}.

(* ===================================================================== *)
(** * Pamain.py *)
(* ===================================================================== *)

(** The entries of [config.yml] the script reads. *)
Record config := Config {
  trainer_num_epochs : pyval;
  trainer_val_training : pyval;
  trainer_resume_train : pyval;
  trainer_resume_test : pyval;
  trainer_is_train : pyval;
  trainer_dataset : string;
  finetune_checkpoint : string
}.

Inductive flow := Continue | Break.

(** [for i, x in enumerate(xs): body], where the body says whether it left
    the loop by [break]. *)
Fixpoint for_enumerate {T A St} (body : nat -> A -> St -> M T (St * flow))
    (i : nat) (xs : list A) (s : St) : M T St :=
  match xs with
  | [] => ret s
  | x :: rest =>
      r <- body i x s ;;
      match r.2 with
      | Break => ret r.1
      | Continue => for_enumerate body (S i) rest r.1
      end
  end.

Section Pamain.
Context {T : Type} `{Externals T}.

(** [a, b, c, d = outs] *)
Definition unpack4 (outs : list T) : res (T * T * T * T) :=
  match outs with
  | [a; b; c; d] => Ok (a, b, c, d)
  | _ => Raise (ValueError "wrong number of values to unpack")
  end.

(** [model(img, txt)] *)
Definition model_call (model : pyval) (img txt : T) : M T (list T) :=
  emit (EvForward img txt) ;;;
  w <- get_world ;;
  lift (ext_model_call (heap w) model img txt).

(** [PA_val(config, model, loader, activation, step=step, train=train)] *)
Definition PA_val (model : pyval) (loader : list (batch T)) (step : pyval) (train : bool)
  : M T (pyval * pyval) :=
  w <- get_world ;;
  call_ext (EvPAVal train step) ;;;
  lift (ext_PA_val (heap w) model loader step train).

(** The body of the batch loop of [train_one_epoch]. *)
Definition train_batch (cfg : config) (model : pyval) (len_loader : nat) (epoch : Z)
    (batch_idx : nat) (b : batch T) (step : pyval) : M T (pyval * flow) :=
  outs <- model_call model (b_img b) (ext_squeeze (b_txt b)) ;;
  outs <- lift (unpack4 outs) ;;
  let '(tool, target, verb, triplet) := outs in
  let tool_mask_loss := ext_CrossEntropyLoss tool (ext_float (b_y1 b)) in
  let target_mask_loss := ext_CrossEntropyLoss verb (ext_float (b_y2 b)) in
  let verb_mask_loss := ext_CrossEntropyLoss target (ext_float (b_y3 b)) in
  let loss_ivt := ext_BCEWithLogitsLoss triplet (ext_float (b_y4 b)) in
  let loss :=
    ext_add (ext_add (ext_add tool_mask_loss target_mask_loss) verb_mask_loss) loss_ivt in
  call_ext (EvBackward loss) ;;;
  call_ext EvOptimizerStep ;;;
  call_ext EvZeroGrad ;;;
  emit (EvLog [("Train/Total Loss", ext_item loss);
               ("Train/tool_mask_loss", ext_item tool_mask_loss);
               ("Train/target_mask_loss", ext_item target_mask_loss);
               ("Train/verb_mask_loss", ext_item verb_mask_loss);
               ("Train/loss_ivt", ext_item loss_ivt)] step) ;;;
  step <- lift (py_add1 step) ;;
  accelerator_print
    "Epoch [{}/{}][{}/{}] Losses => total:[{:.4f}] ivt: [{:.4f}] i: [{:.4f}] v: [{:.4f}] t: [{:.4f}]"
    [PyInt (epoch + 1); trainer_num_epochs cfg;
     PyInt (Z.of_nat batch_idx + 1); PyInt (Z.of_nat len_loader);
     PyFloat (ext_item loss); PyFloat (ext_item loss_ivt);
     PyFloat (ext_item tool_mask_loss); PyFloat (ext_item verb_mask_loss);
     PyFloat (ext_item target_mask_loss)] ;;;
  ret (step, Break).

(** The loss of a batch for the outputs [o1 .. o4] of the model, as
    [train_one_epoch] pairs them with the labels. *)
Definition batch_loss (b : batch T) (o1 o2 o3 o4 : T) : T :=
  ext_add
    (ext_add
       (ext_add (ext_CrossEntropyLoss o1 (ext_float (b_y1 b)))
                (ext_CrossEntropyLoss o3 (ext_float (b_y2 b))))
       (ext_CrossEntropyLoss o2 (ext_float (b_y3 b))))
    (ext_BCEWithLogitsLoss o4 (ext_float (b_y4 b))).

(** [train_one_epoch(config, model, activation, train_loader,
    loss_functions, optimizer, scheduler, accelerator, epoch, step)] *)
Definition train_one_epoch (cfg : config) (model : pyval) (train_loader : list (batch T))
    (epoch : Z) (step : pyval) : M T pyval :=
  call_ext EvModelTrain ;;;
  step <- for_enumerate (train_batch cfg model (length train_loader) epoch)
            0 train_loader step ;;
  call_ext (EvSchedulerStep epoch) ;;;
  val_training <- lift (py_eq_True (trainer_val_training cfg)) ;;
  (if val_training then
     r <- PA_val model train_loader (PyInt (-1)) true ;;
     emit (EvLogMetrics r.1 (PyInt epoch))
   else ret tt) ;;;
  ret step.

(** [val_one_epoch(config, model, val_loader, loss_functions, activation,
    epoch, step)] *)
Definition val_one_epoch (cfg : config) (model : pyval) (val_loader : list (batch T))
    (epoch : Z) (step : pyval) : M T (pyval * pyval * pyval) :=
  r <- PA_val model val_loader step false ;;
  let '(metrics, step) := r in
  i_score <- lift (py_getitem metrics "Val/I") ;;
  t_score <- lift (py_getitem metrics "Val/T") ;;
  v_score <- lift (py_getitem metrics "Val/V") ;;
  ivm_score <- lift (py_getitem metrics "Val/IVM") ;;
  itm_score <- lift (py_getitem metrics "Val/ITM") ;;
  ivt_score <- lift (py_getitem metrics "Val/IVT") ;;
  accelerator_print "[{}/{}] Val Metrics => ivt: [{}] i: [{}] v: [{}] t: [{}] iv: [{}] it: [{}] "
    [PyInt (epoch + 1); trainer_num_epochs cfg;
     ivt_score; i_score; v_score; t_score; ivm_score; itm_score] ;;;
  emit (EvLogMetrics metrics (PyInt epoch)) ;;;
  ret (ivt_score, metrics, step).

(** The variables of the script that the epoch loop assigns.  [epoch] is
    bound by the [for] statement only: it has no value before the first
    iteration. *)
Record vars := Vars {
  v_epoch : option Z;
  v_train_step : pyval;
  v_val_step : pyval;
  v_best_score : pyval;
  v_best_metrics : pyval
}.

(** [model.state_dict()] *)
Definition model_state_dict (model : pyval) : M T pyval :=
  w <- get_world ;;
  match model with
  | PyRef l =>
      match heap w !! l with
      | Some (ObjModule state) => ret (PyDict (map (fun kv => (kv.1, PyTensor kv.2)) state))
      | _ => raise (AttributeError "state_dict")
      end
  | _ => raise (AttributeError "state_dict")
  end.

(** [f"{os.getcwd()}/model_store/{config.finetune.checkpoint +
    config.trainer.dataset}"] *)
Definition model_store (cfg : config) (w : world T) : string :=
  cwd w +:+ "/model_store/" +:+ (finetune_checkpoint cfg +:+ trainer_dataset cfg).

(** The dictionary written to [epoch.pth.tar]. *)
Definition epoch_record (epoch : Z) (best_score best_metrics train_step val_step : pyval)
  : pyval :=
  PyDict [("epoch", PyInt epoch); ("best_score", best_score);
          ("best_metrics", best_metrics); ("train_step", train_step);
          ("val_step", val_step)].

(** One iteration of the epoch loop of the script. *)
Definition epoch_body (cfg : config) (model : pyval)
    (train_loader val_loader : list (batch T)) (epoch : Z) (v : vars) : M T vars :=
  (* train *)
  train_step <- train_one_epoch cfg model train_loader epoch (v_train_step v) ;;
  r <- val_one_epoch cfg model val_loader epoch (v_val_step v) ;;
  let '(score, metrics, val_step) := r in
  (* save best model *)
  best <- lift (py_item (v_best_score v)) ;;
  better <- lift (py_float_lt best score) ;;
  bests <-
    (if better then
       let best_score := score in
       let best_metrics := metrics in
       w <- get_world ;;
       call_ext (EvSaveState (model_store cfg w +:+ "/best/new/")) ;;;
       state_dict <- model_state_dict model ;;
       torch_save state_dict (model_store cfg w +:+ "/best/new/model.pth") ;;;
       torch_save (epoch_record epoch best_score best_metrics train_step val_step)
         (model_store cfg w +:+ "/best/epoch.pth.tar") ;;;
       ret (best_score, best_metrics)
     else ret (v_best_score v, v_best_metrics v)) ;;
  let '(best_score, best_metrics) := bests in
  (* print best score *)
  accelerator_print "Now best APscore: {}" [best_score] ;;;
  (* checkout *)
  accelerator_print "Checkout...." [] ;;;
  w <- get_world ;;
  call_ext (EvSaveState (model_store cfg w +:+ "/checkpoint")) ;;;
  torch_save (epoch_record epoch best_score best_metrics train_step val_step)
    (model_store cfg w +:+ "/checkpoint/epoch.pth.tar") ;;;
  accelerator_print "Checkout Over!" [] ;;;
  ret (Vars (Some epoch) train_step val_step best_score best_metrics).

(** [for epoch in range(...): epoch_body] *)
Fixpoint for_epochs (cfg : config) (model : pyval)
    (train_loader val_loader : list (batch T)) (epochs : list Z) (v : vars) : M T vars :=
  match epochs with
  | [] => ret v
  | epoch :: rest =>
      v <- epoch_body cfg model train_loader val_loader epoch v ;;
      for_epochs cfg model train_loader val_loader rest v
  end.

(** The training part of the script: [if config.trainer.is_train == True:
    if config.trainer.is_train: for epoch in range(start_num_epochs,
    config.trainer.num_epochs): ...] *)
Definition training (cfg : config) (model : pyval)
    (train_loader val_loader : list (batch T)) (start_num_epochs : pyval) (v : vars)
  : M T vars :=
  is_train <- lift (py_eq_True (trainer_is_train cfg)) ;;
  if is_train then
    is_train <- lift (py_truthy (trainer_is_train cfg)) ;;
    if is_train then
      epochs <- lift (py_range start_num_epochs (trainer_num_epochs cfg)) ;;
      for_epochs cfg model train_loader val_loader epochs v
    else ret v
  else ret v.

(** The validation part: [if config.trainer.is_train != True: best_score,
    best_metrics, val_step = val_one_epoch(..., epoch, val_step)] *)
Definition validation (cfg : config) (model : pyval) (val_loader : list (batch T))
    (v : vars) : M T vars :=
  not_train <- lift (py_ne_True (trainer_is_train cfg)) ;;
  if not_train then
    match v_epoch v with
    | None => raise (NameError "epoch")
    | Some epoch =>
        r <- val_one_epoch cfg model val_loader epoch (v_val_step v) ;;
        let '(best_score, best_metrics, val_step) := r in
        ret (Vars (v_epoch v) (v_train_step v) val_step best_score best_metrics)
    end
  else ret v.

(** The script from [# training setting] on.  The tokenizer, the loaders,
    the model, the optimizer and the scheduler are built before, by the
    libraries; the script receives them here. *)
Definition main (cfg : config) (model optimizer scheduler : pyval)
    (train_loader val_loader : list (batch T)) : M T unit :=
  (* training setting *)
  let train_step := PyInt 0 in
  let val_step := PyInt 0 in
  let start_num_epochs := PyInt 0 in
  let best_score := zero_score in
  let best_metrics := PyDict [] in
  (* resume *)
  resume_train <- lift (py_truthy (trainer_resume_train cfg)) ;;
  st <- (if resume_train then
           resume_train_state model (finetune_checkpoint cfg +:+ trainer_dataset cfg)
             optimizer scheduler
         else ret (TrainState model optimizer scheduler start_num_epochs train_step
                     val_step best_score best_metrics)) ;;
  resume_test <- lift (py_truthy (trainer_resume_test cfg)) ;;
  model <- (if resume_test then
              w <- get_world ;;
              load_pretrain_model (model_store cfg w +:+ "/best/new/pytorch_model.bin")
                (ts_model st)
            else ret (ts_model st)) ;;
  (* set in device *)
  call_ext EvPrepare ;;;
  (* training *)
  v <- training cfg model train_loader val_loader (ts_starting_epoch st)
         (Vars None (ts_train_step st) (ts_val_step st) (ts_best_score st)
            (ts_best_metrics st)) ;;
  (* val *)
  v <- validation cfg model val_loader v ;;
  accelerator_print "dice ivt score: {}" [v_best_score v] ;;;
  accelerator_print "other metrics : {}" [v_best_metrics v] ;;;
  raise (SystemExit 1).

End Pamain.

(* ===================================================================== *)
(** * src/models/EndoForm.py on tensor shapes *)
(* ===================================================================== *)

(** A tensor is abstracted by its shape; an operator of torch is a partial
    function on shapes, undefined where torch raises.  Activations, dropout,
    drop-path and softmax keep the shape and are left out.  ([view] is
    taken as [reshape]: every [view] of the file is applied to a tensor
    whose layout allows it.) *)
Module Shape.

Definition shape := list nat.

Definition check (b : bool) : option unit := if b then Some tt else None.

Definition numel (s : shape) : nat := fold_right Nat.mul 1 s.

Fixpoint eqb (s1 s2 : shape) : bool :=
  match s1, s2 with
  | [], [] => true
  | a :: s1', b :: s2' => Nat.eqb a b && eqb s1' s2'
  | _, _ => false
  end.

(** Product of the given sizes of a [reshape], and the number of [-1]. *)
Definition known (spec : list (option nat)) : nat :=
  fold_right (fun d acc => match d with Some n => n * acc | None => acc end) 1 spec.

Definition holes (spec : list (option nat)) : nat :=
  length (filter (fun d => bool_decide (d = None)) spec).

(** [x.reshape(spec)], [None] standing for [-1]. *)
Definition reshape (spec : list (option nat)) (s : shape) : option shape :=
  match holes spec with
  | 0 =>
      _ ← check (Nat.eqb (numel s) (known spec));
      Some (map (fun d => default 0 d) spec)
  | 1 =>
      _ ← check (Nat.ltb 0 (known spec) && Nat.eqb (numel s mod known spec) 0);
      Some (map (fun d => default (numel s / known spec) d) spec)
  | _ => None
  end.

(** [x.permute(dims)] *)
Definition permute (dims : list nat) (s : shape) : option shape :=
  _ ← check (bool_decide (dims ≡ₚ seq 0 (length s)));
  mapM (fun i => s !! i) dims.

(** [x.transpose(i, j)] *)
Definition transpose (i j : nat) (s : shape) : option shape :=
  a ← s !! i;
  b ← s !! j;
  Some (<[i := b]> (<[j := a]> s)).

(** [x.flatten(2)] *)
Definition flatten2 (s : shape) : option shape :=
  match s with
  | a :: b :: rest => Some [a; b; numel rest]
  | _ => None
  end.

(** Broadcasting of two shapes, from the last dimension. *)
Fixpoint broadcast_rev (r1 r2 : list nat) : option (list nat) :=
  match r1, r2 with
  | [], r | r, [] => Some r
  | a :: r1', b :: r2' =>
      rest ← broadcast_rev r1' r2';
      if Nat.eqb a b then Some (a :: rest)
      else if Nat.eqb a 1 then Some (b :: rest)
      else if Nat.eqb b 1 then Some (a :: rest)
      else None
  end.

(** The shape of [x + y] and of [x * y]. *)
Definition broadcast (s1 s2 : shape) : option shape :=
  reverse <$> broadcast_rev (reverse s1) (reverse s2).

(** [x @ y] for operands of at least two dimensions. *)
Definition matmul (s1 s2 : shape) : option shape :=
  match reverse s1, reverse s2 with
  | m :: n :: b1, p :: m' :: b2 =>
      _ ← check (Nat.eqb m m');
      b ← broadcast_rev b1 b2;
      Some (reverse b ++ [n; p])
  | _, _ => None
  end.

(** [nn.Linear(in_features, out_features)] *)
Definition Linear (in_features out_features : nat) (s : shape) : option shape :=
  match reverse s with
  | d :: r =>
      _ ← check (Nat.eqb d in_features);
      Some (reverse (out_features :: r))
  | [] => None
  end.

(** [nn.LayerNorm(dim)] *)
Definition LayerNorm (dim : nat) (s : shape) : option shape :=
  match reverse s with
  | d :: _ => _ ← check (Nat.eqb d dim); Some s
  | [] => None
  end.

(** Output size of a convolution along one axis. *)
Definition conv_out (n k stride pad : nat) : option nat :=
  _ ← check (Nat.leb k (n + 2 * pad) && Nat.ltb 0 n);
  Some ((n + 2 * pad - k) / stride + 1).

(** [nn.Conv2d(in_c, out_c, kernel_size=k, stride, padding=pad)]; groups
    and bias do not change the shape. *)
Definition Conv2d (in_c out_c k stride pad : nat) (s : shape) : option shape :=
  match s with
  | [b; c; h; w] =>
      _ ← check (Nat.eqb c in_c);
      h' ← conv_out h k stride pad;
      w' ← conv_out w k stride pad;
      Some [b; out_c; h'; w']
  | [c; h; w] =>
      _ ← check (Nat.eqb c in_c);
      h' ← conv_out h k stride pad;
      w' ← conv_out w k stride pad;
      Some [out_c; h'; w']
  | _ => None
  end.

(** [nn.BatchNorm2d(c)]: in training mode a channel needs more than one
    value. *)
Definition BatchNorm2d (training : bool) (num_features : nat) (s : shape) : option shape :=
  match s with
  | [b; c; h; w] =>
      _ ← check (Nat.eqb c num_features);
      _ ← check (negb (training && Nat.eqb (b * (h * w)) 1));
      Some s
  | _ => None
  end.

(** [nn.GroupNorm(num_groups, num_channels)] *)
Definition GroupNorm (num_groups num_channels : nat) (s : shape) : option shape :=
  match s with
  | b :: c :: spatial =>
      _ ← check (Nat.eqb c num_channels);
      _ ← check (negb (Nat.eqb (b * c / num_groups * numel spatial) 1));
      Some s
  | _ => None
  end.

(** [nn.MaxPool2d(kernel_size=2, stride=2)] *)
Definition MaxPool2d_2 (s : shape) : option shape :=
  match s with
  | [b; c; h; w] =>
      _ ← check (Nat.leb 2 h && Nat.leb 2 w);
      Some [b; c; (h - 2) / 2 + 1; (w - 2) / 2 + 1]
  | _ => None
  end.

(** [F.adaptive_avg_pool2d(x, (1, 1))] *)
Definition adaptive_avg_pool2d_1 (s : shape) : option shape :=
  match s with
  | [b; c; h; w] =>
      _ ← check (Nat.ltb 0 c && Nat.ltb 0 h && Nat.ltb 0 w);
      Some [b; c; 1; 1]
  | _ => None
  end.

(** [F.interpolate(x, size=size, mode='bilinear')] *)
Definition interpolate (size : list nat) (s : shape) : option shape :=
  match s, size with
  | [b; c; h; w], [h'; w'] =>
      _ ← check (Nat.ltb 0 h && Nat.ltb 0 w && Nat.ltb 0 h' && Nat.ltb 0 w');
      Some [b; c; h'; w']
  | _, _ => None
  end.

(** [torch.cat([x, y], dim=1)] *)
Definition cat1 (s1 s2 : shape) : option shape :=
  match s1, s2 with
  | b1 :: c1 :: r1, b2 :: c2 :: r2 =>
      _ ← check (Nat.eqb b1 b2 && eqb r1 r2);
      Some (b1 :: (c1 + c2) :: r1)
  | _, _ => None
  end.

(** [x_0, x_1 = x.chunk(2, dim=1)]: two chunks are needed. *)
Definition chunk2 (s : shape) : option (shape * shape) :=
  match s with
  | b :: c :: r =>
      _ ← check (Nat.leb 2 c);
      Some (b :: (c + 1) / 2 :: r, b :: (c - (c + 1) / 2) :: r)
  | _ => None
  end.

(** [x.size()[2:]] *)
Definition size_from2 (s : shape) : list nat := drop 2 s.

(** [x.squeeze(1)] *)
Definition squeeze1 (s : shape) : option shape :=
  match s with
  | a :: 1 :: r => Some (a :: r)
  | _ :: _ :: _ => Some s
  | _ => None
  end.

(** [x.repeat(r0, r1, r2)] of a tensor of at most three dimensions. *)
Definition repeat3 (r0 r1 r2 : nat) (s : shape) : option shape :=
  match s with
  | [a; b; c] => Some [r0 * a; r1 * b; r2 * c]
  | [b; c] => Some [r0; r1 * b; r2 * c]
  | [c] => Some [r0; r1; r2 * c]
  | [] => Some [r0; r1; r2]
  | _ => None
  end.

(** Repeated application of a shape-to-shape layer. *)
Fixpoint iterate (n : nat) (f : shape -> option shape) (s : shape) : option shape :=
  match n with
  | 0 => Some s
  | S n' => s' ← f s; iterate n' f s'
  end.

(** ** The backbone *)

(** [OverlapPatchEmbed(patch_size, stride, in_chans, embed_dim).forward] *)
Definition OverlapPatchEmbed (patch_size stride in_chans embed_dim : nat) (x : shape)
  : option (shape * nat * nat) :=
  x ← Conv2d in_chans embed_dim patch_size stride (patch_size / 2) x;
  match x with
  | [_; _; H; W] =>
      x ← flatten2 x;
      x ← transpose 1 2 x;
      x ← LayerNorm embed_dim x;
      Some (x, H, W)
  | _ => None
  end.

(** [DWConv(dim).forward(x, H, W)] *)
Definition DWConv (dim : nat) (x : shape) (H W : nat) : option shape :=
  match x with
  | [B; N; C] =>
      x ← transpose 1 2 x;
      x ← reshape [Some B; Some C; Some H; Some W] x;
      x ← Conv2d dim dim 3 1 1 x;
      x ← flatten2 x;
      transpose 1 2 x
  | _ => None
  end.

(** [Attention(dim, num_heads, sr_ratio).forward(x, H, W)] *)
Definition Attention (dim num_heads sr_ratio : nat) (x : shape) (H W : nat) : option shape :=
  match x with
  | [B; N; C] =>
      q ← Linear dim dim x;
      q ← reshape [Some B; Some N; Some num_heads; Some (C / num_heads)] q;
      q ← permute [0; 2; 1; 3] q;
      kv ← (if Nat.ltb 1 sr_ratio then
              x_ ← permute [0; 2; 1] x;
              x_ ← reshape [Some B; Some C; Some H; Some W] x_;
              x_ ← Conv2d dim dim sr_ratio sr_ratio 0 x_;
              x_ ← reshape [Some B; Some C; None] x_;
              x_ ← permute [0; 2; 1] x_;
              x_ ← LayerNorm dim x_;
              kv ← Linear dim (dim * 2) x_;
              kv ← reshape [Some B; None; Some 2; Some num_heads; Some (C / num_heads)] kv;
              permute [2; 0; 3; 1; 4] kv
            else
              kv ← Linear dim (dim * 2) x;
              kv ← reshape [Some B; None; Some 2; Some num_heads; Some (C / num_heads)] kv;
              permute [2; 0; 3; 1; 4] kv);
      match kv with
      | 2 :: k =>
          let v := k in
          kT ← transpose 2 3 k;
          attn ← matmul q kT;
          x ← matmul attn v;
          x ← transpose 1 2 x;
          x ← reshape [Some B; Some N; Some C] x;
          Linear dim dim x
      | _ => None
      end
  | _ => None
  end.

(** [Mlp(in_features, hidden_features).forward(x, H, W)] *)
Definition Mlp (in_features hidden_features : nat) (x : shape) (H W : nat) : option shape :=
  x ← Linear in_features hidden_features x;
  x ← DWConv hidden_features x H W;
  Linear hidden_features in_features x.

(** [Block(dim, num_heads, mlp_ratio, sr_ratio).forward(x, H, W)] *)
Definition Block (dim num_heads mlp_ratio sr_ratio : nat) (H W : nat) (x : shape)
  : option shape :=
  n ← LayerNorm dim x;
  a ← Attention dim num_heads sr_ratio n H W;
  x ← broadcast x a;
  n ← LayerNorm dim x;
  m ← Mlp dim (dim * mlp_ratio) n H W;
  broadcast x m.

(** One stage of [forward_features]: patch embedding, the blocks, the
    norm, and the reshape to an image. *)
Definition stage (patch_size stride in_chans dim num_heads mlp_ratio sr_ratio depth : nat)
    (B : nat) (x : shape) : option shape :=
  r ← OverlapPatchEmbed patch_size stride in_chans dim x;
  let '(x, H, W) := r in
  x ← iterate depth (Block dim num_heads mlp_ratio sr_ratio H W) x;
  x ← LayerNorm dim x;
  x ← reshape [Some B; Some H; Some W; None] x;
  permute [0; 3; 1; 2] x.

(** [pvt_v2_b2(in_chans, embed_dims).forward]: the four feature maps. *)
Definition pvt_v2_b2 (in_chans : nat) (embed_dims : nat * nat * nat * nat) (x : shape)
  : option (shape * shape * shape * shape) :=
  let '(d1, d2, d3, d4) := embed_dims in
  B ← x !! 0;
  c1 ← stage 7 4 in_chans d1 1 8 8 3 B x;
  c2 ← stage 3 2 d1 d2 2 8 4 4 B c1;
  c3 ← stage 3 2 d2 d3 5 4 2 6 B c2;
  c4 ← stage 3 2 d3 d4 8 4 1 3 B c3;
  Some (c1, c2, c3, c4).

(** ** The heads *)

(** [BasicConv2d(in_planes, out_planes, kernel_size, stride, padding).forward] *)
Definition BasicConv2d (training : bool) (in_planes out_planes kernel_size stride padding : nat)
    (x : shape) : option shape :=
  x ← Conv2d in_planes out_planes kernel_size stride padding x;
  BatchNorm2d training out_planes x.

(** [MLP(dim, mlp_ratio, act).forward] *)
Definition MLP (dim mlp_ratio : nat) (x : shape) : option shape :=
  x ← Conv2d dim (dim * mlp_ratio) 1 1 0 x;
  Conv2d (dim * mlp_ratio) dim 1 1 0 x.

(** [GobleAttention(in_dim, out_dim, kernel_size, mlp_ratio, act).forward] *)
Definition GobleAttention (training : bool) (in_dim out_dim kernel_size mlp_ratio : nat)
    (x : shape) : option shape :=
  x ← Conv2d in_dim out_dim 3 1 1 x;
  x ← GroupNorm (out_dim / 2) out_dim x;
  let identity := x in
  b ← Conv2d out_dim out_dim kernel_size 1 ((kernel_size - 1) / 2) x;
  b ← BatchNorm2d training out_dim b;
  a ← Conv2d out_dim out_dim 1 1 0 x;
  a ← BatchNorm2d training out_dim a;
  ba ← broadcast b a;
  x ← broadcast ba x;
  x ← MLP out_dim mlp_ratio x;
  broadcast x identity.

(** [LocalAttention(in_dim, out_dim).forward] *)
Definition LocalAttention (training : bool) (in_dim out_dim : nat) (x : shape)
  : option shape :=
  x ← BatchNorm2d training in_dim x;
  x ← Conv2d in_dim in_dim 1 1 0 x;
  x ← Conv2d in_dim in_dim 3 1 1 x;
  x ← BatchNorm2d training in_dim x;
  Conv2d in_dim out_dim 1 1 0 x.

(** [AttentionBlock(in_dim, out_dim, kernel_size, mlp_ratio, shallow).forward] *)
Definition AttentionBlock (training : bool) (in_dim out_dim kernel_size mlp_ratio : nat)
    (x : shape) : option shape :=
  xs ← chunk2 x;
  let '(x_0, x_1) := xs in
  x_0 ← GobleAttention training (in_dim / 2) out_dim kernel_size mlp_ratio x_0;
  x_1 ← LocalAttention training (in_dim / 2) out_dim x_1;
  x ← cat1 x_0 x_1;
  BasicConv2d training (out_dim * 2) out_dim 1 1 0 x.

(** [VerbClassifier(in_channels, verb_channels).forward] *)
Definition VerbClassifier (in_channels verb_channels : nat) (x : shape) : option shape :=
  x ← adaptive_avg_pool2d_1 x;
  n ← x !! 0;
  x ← reshape [Some n; None] x;
  Linear in_channels verb_channels x.

(** [CrossAttention(feature_dim).forward(x1, x2)] *)
Definition CrossAttention (feature_dim : nat) (x1 x2 : shape) : option shape :=
  query ← Conv2d feature_dim (feature_dim / 8) 1 1 0 x1;
  key ← Conv2d feature_dim (feature_dim / 8) 1 1 0 x2;
  value ← Conv2d feature_dim feature_dim 1 1 0 x2;
  q ← permute [0; 2; 3; 1] query;
  k ← permute [0; 2; 3; 1] key;
  k ← transpose 3 2 k;
  attention ← matmul q k;
  v ← permute [0; 2; 3; 1] value;
  out ← matmul attention v;
  out ← permute [0; 3; 1; 2] out;
  out ← broadcast [1] out;
  broadcast out x1.

(** The [shared_conv] of [SiameseNetworkWithCrossAttention]. *)
Definition shared_conv (input_channels : nat) (x : shape) : option shape :=
  x ← Conv2d input_channels 64 3 2 1 x;
  x ← MaxPool2d_2 x;
  x ← Conv2d 64 128 3 2 1 x;
  MaxPool2d_2 x.

(** [SiameseNetworkWithCrossAttention(input_channels, output_dim1,
    output_dim2).forward(img1, img2)] *)
Definition SiameseNetworkWithCrossAttention (input_channels output_dim1 output_dim2 : nat)
    (img1 img2 : shape) : option (shape * shape) :=
  shared_features1 ← shared_conv input_channels img1;
  shared_features2 ← shared_conv input_channels img2;
  attended_features1 ← CrossAttention 128 shared_features1 shared_features2;
  attended_features2 ← CrossAttention 128 shared_features2 shared_features1;
  pooled_features1 ← adaptive_avg_pool2d_1 attended_features1;
  pooled_features2 ← adaptive_avg_pool2d_1 attended_features2;
  p1 ← reshape [None; Some (128 * 1 * 1)] pooled_features1;
  class1_features ← Linear 128 output_dim1 p1;
  p2 ← reshape [None; Some (128 * 1 * 1)] pooled_features2;
  class2_features ← Linear 128 output_dim2 p2;
  Some (class1_features, class2_features).

(** [AttentionClassifier(query_dim, key_dim, value_dim, num_heads,
    num_class).forward((instrument, target, verb))] *)
Definition AttentionClassifier (query_dim key_dim value_dim num_heads num_class : nat)
    (instrument target verb : shape) : option shape :=
  let head_dim := key_dim / num_heads in
  i_num ← last instrument;
  t_num ← last target;
  v_num ← last verb;
  query ← repeat3 1 1 v_num instrument;
  query ← reshape [None; Some (i_num * v_num)] query;
  key ← repeat3 1 1 v_num target;
  key ← reshape [None; Some (t_num * v_num)] key;
  value ← repeat3 1 i_num 1 verb;
  value ← reshape [None; Some (v_num * i_num)] value;
  batch_size ← query !! 0;
  query ← Linear query_dim key_dim query;
  query ← reshape [Some batch_size; None; Some num_heads; Some head_dim] query;
  query ← transpose 1 2 query;
  key ← Linear key_dim key_dim key;
  key ← reshape [Some batch_size; None; Some num_heads; Some head_dim] key;
  key ← transpose 1 2 key;
  value ← Linear value_dim key_dim value;
  value ← reshape [Some batch_size; None; Some num_heads; Some head_dim] value;
  value ← transpose 1 2 value;
  kT ← transpose 2 3 key;
  scores ← matmul query kT;
  out ← matmul scores value;
  out ← transpose 1 2 out;
  out ← reshape [Some batch_size; None; Some (num_heads * head_dim)] out;
  out ← squeeze1 out;
  Linear key_dim num_class out.

(** The arguments of [EndoForm.__init__]. *)
Record EndoForm_args := {
  in_channels : nat;
  total_channels : nat;
  i_channels : nat;
  t_channels : nat;
  v_channels : nat;
  num_heads : nat;
  dims : nat * nat * nat * nat;
  out_dim : nat;
  kernel_size : nat;
  mlp_ratio : nat
}.

(** Their default values. *)
Definition EndoForm_defaults : EndoForm_args := {|
  in_channels := 3;
  total_channels := 100;
  i_channels := 6;
  t_channels := 15;
  v_channels := 10;
  num_heads := 10;
  dims := (64, 128, 320, 512);
  out_dim := 32;
  kernel_size := 3;
  mlp_ratio := 4
|}.

(** [EndoForm(...).forward(x)]: the four outputs, in the order of the
    [return] statement. *)
Definition EndoForm_forward (a : EndoForm_args) (training : bool) (x : shape)
  : option (shape * shape * shape * shape) :=
  let '(c1_in_channels, c2_in_channels, c3_in_channels, c4_in_channels) := dims a in
  pvt ← pvt_v2_b2 (in_channels a) (dims a) x;
  let '(c1, c2, c3, c4) := pvt in
  _c4 ← AttentionBlock training c4_in_channels (out_dim a) (kernel_size a) (mlp_ratio a) c4;
  _c4 ← interpolate (size_from2 c3) _c4;
  _c3 ← AttentionBlock training c3_in_channels (out_dim a) (kernel_size a) (mlp_ratio a) c3;
  _c2 ← AttentionBlock training c2_in_channels (out_dim a) (kernel_size a) (mlp_ratio a) c2;
  (* verb *)
  up4 ← interpolate (size_from2 c2) _c4;
  up3 ← interpolate (size_from2 c2) _c3;
  output ← cat1 up4 up3;
  output ← BasicConv2d training (out_dim a * 2) (out_dim a) 1 1 0 output;
  output ← Conv2d (out_dim a) (v_channels a) 1 1 0 output;
  verb_output ← VerbClassifier (v_channels a) (v_channels a) output;
  L_feature ← BasicConv2d training c1_in_channels (out_dim a) 3 1 1 c1;
  H_feature ← BasicConv2d training (out_dim a) (out_dim a) 1 1 0 _c2;
  H_feature ← interpolate (size_from2 L_feature) H_feature;
  it ← SiameseNetworkWithCrossAttention (out_dim a) (i_channels a) (t_channels a)
         L_feature H_feature;
  let '(instrument_output, target_output) := it in
  triplet_output ←
    AttentionClassifier (i_channels a * v_channels a) (t_channels a * v_channels a)
      (v_channels a * i_channels a) (num_heads a) (total_channels a)
      instrument_output target_output verb_output;
  Some (instrument_output, verb_output, target_output, triplet_output).

(** The size a patch embedding with kernel [p] leaves along one axis. *)
Definition down (p stride n : nat) : nat := (n + 2 * (p / 2) - p) / stride + 1.

(** The size [MaxPool2d(2, 2)] leaves, and the size [shared_conv] leaves. *)
Definition pooled (n : nat) : nat := (n - 2) / 2 + 1.

Definition shared_size (n : nat) : nat :=
  pooled ((pooled ((n + 2 * 1 - 3) / 2 + 1) + 2 * 1 - 3) / 2 + 1).

End Shape.

(* ===================================================================== *)
(** * [AttentionClassifier] on values *)
(* ===================================================================== *)

(** Tensors are nested lists in row-major order, the first dimension
    outermost.  The scalars, their arithmetic and [F.softmax] along one row
    belong to torch and are variables of the section. *)
Module Values.

Definition check (b : bool) : option unit := if b then Some tt else None.

Fixpoint chunks_fuel {A} (fuel k : nat) (l : list A) : list (list A) :=
  match fuel with
  | 0 => []
  | S fuel' =>
      match l with
      | [] => []
      | _ => take k l :: chunks_fuel fuel' k (drop k l)
      end
  end.

(** The consecutive pieces of length [k] of [l]. *)
Definition chunks {A} (k : nat) (l : list A) : list (list A) :=
  chunks_fuel (length l) k l.

(** [x.view(-1, k)] of the elements [flat] of [x]. *)
Definition view_last {A} (k : nat) (flat : list A) : option (list (list A)) :=
  _ ← check (Nat.ltb 0 k && Nat.eqb (length flat mod k) 0);
  Some (chunks k flat).

(** [x.repeat(1, 1, n)] of a matrix: three dimensions, every row [n] times
    in a row. *)
Definition repeat_last {A} (n : nat) (x : list (list A)) : list (list (list A)) :=
  [map (fun row => concat (replicate n row)) x].

(** [x.repeat(1, n, 1)] of a matrix: three dimensions, the rows of the
    matrix [n] times over. *)
Definition repeat_rows {A} (n : nat) (x : list (list A)) : list (list (list A)) :=
  [concat (replicate n x)].

(** [x.view(-1, k)] of a tensor of three dimensions. *)
Definition view_2d {A} (k : nat) (x : list (list (list A))) : option (list (list A)) :=
  view_last k (concat (concat x)).

(** Exchange of the two outer dimensions of [x], whose inner lists have
    [n] elements. *)
Definition transpose_outer {A} (n : nat) (x : list (list A)) : list (list A) :=
  map (fun j => omap (fun row => row !! j) x) (seq 0 n).

(** The widths and the three inputs of the projections:
    [query], [key] and [value] before [query_proj], [key_proj] and
    [value_proj]. *)
Definition qkv_inputs {A} (instrument target verb : list (list A))
  : option (list (list A) * list (list A) * list (list A)) :=
  i_num ← length <$> head instrument;
  t_num ← length <$> head target;
  v_num ← length <$> head verb;
  query ← view_2d (i_num * v_num) (repeat_last v_num instrument);
  key ← view_2d (t_num * v_num) (repeat_last v_num target);
  value ← view_2d (v_num * i_num) (repeat_rows i_num verb);
  Some (query, key, value).

Section AttentionClassifier.
Context {R : Type}.
Variables (Rzero : R) (Radd Rmul Rdiv : R -> R -> R).
Variable sqrt_nat : nat -> R.               (* math.sqrt(n) *)
Variable softmax : list R -> list R.        (* F.softmax of one row *)

(** [nn.Linear]: [weight] has one row per output feature. *)
Record Linear := {
  in_features : nat;
  weight : list (list R);
  bias : list R
}.

Definition dot (x y : list R) : R :=
  fold_left (fun acc p => Radd acc (Rmul p.1 p.2)) (zip x y) Rzero.

(** A linear layer on one row. *)
Definition linear (l : Linear) (x : list R) : option (list R) :=
  _ ← check (Nat.eqb (length x) (in_features l));
  Some (zip_with (fun w b => Radd (dot x w) b) (weight l) (bias l)).

(** [a @ b] of two matrices, [b] with [p] columns. *)
Definition matmul (p : nat) (a b : list (list R)) : list (list R) :=
  map (fun arow => map (dot arow) (transpose_outer p b)) a.

(** The modules and numbers [__init__] stores. *)
Record AttentionClassifier := {
  query_proj : Linear;
  key_proj : Linear;
  value_proj : Linear;
  num_heads : nat;
  head_dim : nat;
  mlp : Linear
}.

(** [proj(x)] on the rows of a matrix. *)
Definition project (proj : Linear) (x : list (list R)) : option (list (list R)) :=
  mapM (linear proj) x.

(** [x.view(batch_size, -1, num_heads, head_dim).transpose(1, 2)] of a
    matrix [x]: the elements are taken in row-major order, the [-1]
    stands for the number of positions, and the result has for every
    element of the batch its heads and for every head its positions.
    [batch_size] is the number of rows of the query, also where the key
    or the value is viewed. *)
Definition view_heads (m : AttentionClassifier) (batch_size : nat) (x : list (list R))
  : option (list (list (list (list R)))) :=
  let flat := concat x in
  let known := batch_size * (num_heads m * head_dim m) in
  _ ← check (Nat.ltb 0 known && Nat.eqb (length flat mod known) 0);
  let positions := length flat / known in
  Some (map (fun i =>
          map (fun h =>
            map (fun j =>
              take (head_dim m)
                (drop (((i * positions + j) * num_heads m + h) * head_dim m) flat))
              (seq 0 positions))
            (seq 0 (num_heads m)))
          (seq 0 batch_size)).

(** [proj(x).view(batch_size, -1, num_heads, head_dim).transpose(1, 2)] *)
Definition heads_of (m : AttentionClassifier) (proj : Linear) (batch_size : nat)
    (x : list (list R)) : option (list (list (list (list R)))) :=
  y ← project proj x;
  view_heads m batch_size y.

(** [torch.matmul(query, key.transpose(-2, -1)) / math.sqrt(head_dim)]
    for one head of one element of the batch. *)
Definition scores (m : AttentionClassifier) (q k : list (list R)) : list (list R) :=
  map (map (fun s => Rdiv s (sqrt_nat (head_dim m))))
      (matmul (length k) q (transpose_outer (head_dim m) k)).

(** One head of one element of the batch: scores, softmax along the keys,
    and the product with the value, which needs as many positions of the
    value as of the key. *)
Definition attend_head (m : AttentionClassifier) (q k v : list (list R))
  : option (list (list R)) :=
  _ ← check (Nat.eqb (length k) (length v));
  Some (matmul (head_dim m) (map softmax (scores m q k)) v).

(** One element of the batch, from its heads to its rows of
    [out.transpose(1, 2).contiguous().view(batch_size, -1,
    num_heads * head_dim)]. *)
Definition attend (m : AttentionClassifier)
    (qkv : list (list (list R)) * list (list (list R)) * list (list (list R)))
  : option (list (list R)) :=
  let '(query, key, value) := qkv in
  out ← mapM (fun x => attend_head m x.1.1 x.1.2 x.2) (zip (zip query key) value);
  let positions := length (default [] (head out)) in
  Some (map (fun position => concat position) (transpose_outer positions out)).

(** [self.mlp(out.squeeze(1))]: two dimensions when every element of the
    batch has one position, three otherwise. *)
Definition squeeze_mlp (m : AttentionClassifier) (out : list (list (list R)))
  : option (list (list R) + list (list (list R))) :=
  if forallb (fun x => Nat.eqb (length x) 1) out
  then inl <$> mapM (linear (mlp m)) (concat out)
  else inr <$> mapM (mapM (linear (mlp m))) out.

(** The scores of a forward pass, for every element of the batch and every
    head. *)
Definition forward_scores (m : AttentionClassifier) (instrument target verb : list (list R))
  : option (list (list (list (list R)))) :=
  qkv ← qkv_inputs instrument target verb;
  let '(query, key, value) := qkv in
  let batch_size := length query in
  query ← heads_of m (query_proj m) batch_size query;
  key ← heads_of m (key_proj m) batch_size key;
  Some (zip_with (zip_with (scores m)) query key).

(** [AttentionClassifier.forward((instrument, target, verb))]. *)
Definition forward (m : AttentionClassifier) (instrument target verb : list (list R))
  : option (list (list R) + list (list (list R))) :=
  qkv ← qkv_inputs instrument target verb;
  let '(query, key, value) := qkv in
  let batch_size := length query in
  query ← heads_of m (query_proj m) batch_size query;
  key ← heads_of m (key_proj m) batch_size key;
  value ← heads_of m (value_proj m) batch_size value;
  out ← mapM (attend m) (zip (zip query key) value);
  squeeze_mlp m out.

End AttentionClassifier.

End Values.

(* ===================================================================== *)
(** * A small instance of the externals, and sample worlds *)
(* ===================================================================== *)

(** Tensors of the training step are integers; losses are arithmetic on
    them; optimizers and schedulers take the loaded state as it is;
    [PA_val] reports an IVT score of 1/2 at step 0 and 1/4 afterwards. *)
Definition sample_metrics (ivt : Q) : pyval :=
  let z := PyTensor (Tensor [] [FFin 0%Q]) in
  PyDict [("Val/I", z); ("Val/T", z); ("Val/V", z); ("Val/IVM", z); ("Val/ITM", z);
          ("Val/IVT", PyTensor (Tensor [] [FFin ivt]))].

#[export] Instance sample_externals : Externals Z := {
  ext_fadd1 := fun x => match x with FFin q => FFin (q + 1)%Q | _ => x end;
  ext_stateful_load := fun _ v => (v, None);
  ext_model_call := fun _ _ img txt => Ok [img; txt; (img + txt)%Z; (img * txt)%Z];
  ext_squeeze := fun x => x;
  ext_float := fun x => x;
  ext_CrossEntropyLoss := fun x y => (x - y)%Z;
  ext_BCEWithLogitsLoss := fun x y => (x * y)%Z;
  ext_add := Z.add;
  ext_item := fun x => FFin (inject_Z x);
  ext_PA_val := fun _ _ _ step _ =>
    match step with
    | PyInt 0 => Ok (sample_metrics (1 # 2), PyInt 1)
    | PyInt n => Ok (sample_metrics (1 # 4), PyInt (n + 1))
    | _ => Raise (TypeError "step")
    end;
  ext_effect := fun _ h => h
}.

Definition t_a : tensor := Tensor [2] [FFin 1%Q; FFin 2%Q].
Definition t_a' : tensor := Tensor [2] [FFin 7%Q; FFin 8%Q].
Definition t_b : tensor := Tensor [1] [FFin 3%Q].
Definition t_b' : tensor := Tensor [1] [FFin 9%Q].

(** A model with two parameters at location 1, an optimizer at 2, a
    scheduler at 3. *)
Definition sample_heap : gmap loc obj :=
  <[1%positive := ObjModule [("a", t_a); ("b", t_b)]]>
  (<[2%positive := ObjStateful PyNone]>
  (<[3%positive := ObjStateful PyNone]> ∅)).

Definition sample_meta : pyval :=
  PyDict [("epoch", PyInt 3); ("best_score", PyTensor (Tensor [] [FFin (1 # 2)]));
          ("best_metrics", PyDict []); ("train_step", PyInt 4); ("val_step", PyInt 40)].

(** A checkpoint directory without [pytorch_model.bin]. *)
Definition disk_no_weights : gmap string file :=
  <["/w/model_store/ckT45/checkpoint/epoch.pth.tar" := Stored sample_meta]>
  (<["/w/model_store/ckT45/checkpoint/optimizer.bin" := Stored (PyInt 1)]>
  (<["/w/model_store/ckT45/checkpoint/scheduler.bin" := Stored (PyInt 2)]> ∅)).

(** A weight file with an entry the model has and one it does not have. *)
Definition disk_partial : gmap string file :=
  <["/w/best.bin" := Stored (PyDict [("a", PyTensor t_a'); ("c", PyTensor t_b')])]> ∅.

(** A weight file that fits the model. *)
Definition disk_fitting : gmap string file :=
  <["/w/best.bin" := Stored (PyDict [("b", PyTensor t_b'); ("a", PyTensor t_a')])]> ∅.

Definition sample_world (d : gmap string file) : world Z := World "/w" sample_heap d ∅ [].

Definition sample_batch (n : Z) : batch Z := Batch n (n + 1)%Z 1%Z 2%Z 3%Z 4%Z.

Definition sample_config (is_train : pyval) (num_epochs : Z) : config :=
  Config (PyInt num_epochs) (PyBool false) (PyBool false) (PyBool false) is_train "T45" "ck".

(* ===================================================================== *)
(** * Observations on worlds and traces *)
(* ===================================================================== *)

(** The world after two lines printed by an [except] branch. *)
Definition logged_failure {T} (w : world T) (e : exn) (text : string) : world T :=
  World (cwd w) (heap w) (disk w) (web w) (trace w ++ [EvPrintExn e; EvPrint text []]).

(** A computation run from a world with working directory [c] only
    appends events that satisfy [P] to the trace, and stays in [c]. *)
Definition appends {T A} (c : string) (P : event T -> Prop) (m : M T A) : Prop :=
  forall w, cwd w = c ->
    exists new, trace (m w).1 = trace w ++ new /\ Forall P new /\ cwd (m w).1 = c.

(** [config.finetune.checkpoint + config.trainer.dataset] under
    [model_store] of the directory [c]. *)
Definition store_of (cfg : config) (c : string) : string :=
  c +:+ "/model_store/" +:+ (finetune_checkpoint cfg +:+ trainer_dataset cfg).

Definition dict_keys (v : pyval) : option (list string) :=
  match v with
  | PyDict kvs => Some (map fst kvs)
  | _ => None
  end.

Definition epoch_fields : list string :=
  ["epoch"; "best_score"; "best_metrics"; "train_step"; "val_step"].

(** What the script may write with [torch.save]: the state dict of the
    best model, or a record of five fields to one of the two
    [epoch.pth.tar]. *)
Definition metadata_write {T} (store : string) (ev : event T) : Prop :=
  match ev with
  | EvTorchSave path v =>
      path = store +:+ "/best/new/model.pth"
      \/ ((path = store +:+ "/best/epoch.pth.tar"
           \/ path = store +:+ "/checkpoint/epoch.pth.tar")
          /\ (exists epoch best_score best_metrics train_step val_step,
                v = PyDict [("epoch", PyInt epoch); ("best_score", best_score);
                            ("best_metrics", best_metrics); ("train_step", train_step);
                            ("val_step", val_step)])
          /\ dict_keys v = Some epoch_fields)
  | _ => True
  end.

(** Events that write files. *)
Definition is_write {T} (ev : event T) : bool :=
  match ev with
  | EvSaveState _ | EvTorchSave _ _ => true
  | _ => false
  end.

(** The writes of the best model. *)
Definition best_write {T} (store : string) (ev : event T) : Prop :=
  match ev with
  | EvSaveState dir => dir = store +:+ "/best/new/"
  | EvTorchSave path _ =>
      path = store +:+ "/best/new/model.pth" \/ path = store +:+ "/best/epoch.pth.tar"
  | _ => False
  end.

(** The number a score stands for. *)
Definition score_value (v : pyval) : option pyfloat :=
  match v with
  | PyTensor t => match t_data t with [x] => Some x | _ => None end
  | PyFloat x => Some x
  | PyInt n => Some (FFin (inject_Z n))
  | PyBool b => Some (FFin (inject_Z (Z.b2z b)))
  | _ => None
  end.

(** [a] is [b], or stands for a number below that of [b]. *)
Definition score_le (a b : pyval) : Prop :=
  a = b \/ exists x y, score_value a = Some x /\ score_value b = Some y /\ flt x y = true.

Definition is_forward {T} (ev : event T) : bool :=
  match ev with EvForward _ _ => true | _ => false end.

Definition is_backward {T} (ev : event T) : bool :=
  match ev with EvBackward _ => true | _ => false end.

Definition is_optimizer_step {T} (ev : event T) : bool :=
  match ev with EvOptimizerStep => true | _ => false end.

(** How often events of a kind occur. *)
Definition count {T} (kind : event T -> bool) (evs : list (event T)) : nat :=
  length (filter (fun ev => kind ev = true) evs).

(* ===================================================================== *)
(** * More of src/utils.py *)
(* ===================================================================== *)

(** ** [get_params_groups] *)

(** A parameter of a model, as far as the function looks at it. *)
Record parameter := MkParameter {
  p_id : nat;
  p_requires_grad : bool;
  p_shape : list nat
}.

(** [s.endswith(suffix)] *)
Definition ends_with (s suffix : string) : bool :=
  Nat.leb (String.length suffix) (String.length s)
  && String.eqb (String.substring (String.length s - String.length suffix)
                   (String.length suffix) s) suffix.

(** The test that sends a parameter to the group without weight decay. *)
Definition no_decay (named : string * parameter) : bool :=
  ends_with named.1 ".bias" || Nat.eqb (length (p_shape named.2)) 1.

(** The loop over [model.named_parameters()]. *)
Fixpoint params_groups_loop (named_parameters : list (string * parameter))
    (regularized not_regularized : list parameter) : list parameter * list parameter :=
  match named_parameters with
  | [] => (regularized, not_regularized)
  | (name, param) :: rest =>
      if negb (p_requires_grad param) then
        params_groups_loop rest regularized not_regularized
      else if no_decay (name, param) then
        params_groups_loop rest regularized (not_regularized ++ [param])
      else
        params_groups_loop rest (regularized ++ [param]) not_regularized
  end.

(** A dictionary of the returned list: its parameters and, when given, its
    weight decay. *)
Record param_group := ParamGroup {
  g_params : list parameter;
  g_weight_decay : option pyfloat
}.

(** [get_params_groups(model)], on the named parameters of the model. *)
Definition get_params_groups (named_parameters : list (string * parameter))
  : list param_group :=
  let '(regularized, not_regularized) := params_groups_loop named_parameters [] [] in
  [ParamGroup regularized None; ParamGroup not_regularized (Some (FFin 0%Q))].

(** ** [Logger] *)

(** A text stream: what was written to it, and whether it was closed. *)
Record stream := Stream {
  s_written : list string;
  s_closed : bool
}.

(** [f.write(msg)]: a closed stream raises [ValueError]. *)
Definition stream_write (msg : string) (s : stream) : res stream :=
  if s_closed s then Raise (ValueError "I/O operation on closed file")
  else Ok (Stream (s_written s ++ [msg]) false).

(** [f.close()] *)
Definition stream_close (s : stream) : stream := Stream (s_written s) true.

Record Logger := MkLogger {
  console : stream;
  log_file : option stream
}.

(** [Logger(logdir)], given [sys.stdout] and the directories that exist:
    [os.makedirs] refuses a directory that is there. *)
Definition Logger_init (stdout : stream) (dirs : gset string) (logdir : option string)
  : res (Logger * gset string) :=
  match logdir with
  | Some d =>
      if bool_decide (d ∈ dirs) then Raise (OtherException "FileExistsError")
      else Ok (MkLogger stdout (Some (Stream [] false)), {[ d ]} ∪ dirs)
  | None => Ok (MkLogger stdout None, dirs)
  end.

(** [Logger.write(msg)]: the logger afterwards, and what was raised. *)
Definition Logger_write (msg : string) (l : Logger) : Logger * res unit :=
  match stream_write msg (console l) with
  | Raise e => (l, Raise e)
  | Ok c =>
      match log_file l with
      | None => (MkLogger c None, Ok tt)
      | Some f =>
          match stream_write msg f with
          | Raise e => (MkLogger c (Some f), Raise e)
          | Ok f' => (MkLogger c (Some f'), Ok tt)
          end
      end
  end.

(** [Logger.close()], also [__exit__] and [__del__]. *)
Definition Logger_close (l : Logger) : Logger :=
  MkLogger (stream_close (console l)) (stream_close <$> log_file l).

(** Messages written one after the other, up to the first that raises. *)
Fixpoint Logger_write_all (msgs : list string) (l : Logger) : Logger * res unit :=
  match msgs with
  | [] => (l, Ok tt)
  | msg :: rest =>
      match Logger_write msg l with
      | (l', Ok _) => Logger_write_all rest l'
      | (l', Raise e) => (l', Raise e)
      end
  end.

(** ** [get_weight_balancing] *)

(** The three lists of one entry of [switcher]. *)
Record weights := Weights {
  w_tool : list Q;
  w_verb : list Q;
  w_target : list Q
}.

Definition weights_cholect50 : weights := {|
  w_tool :=
    [0.08084519; 0.81435289; 0.10459284; 2.55976864; 1.630372490; 1.29528455];
  w_verb :=
    [0.31956735; 0.07252306; 0.08111481; 0.81137309; 1.302895320; 2.12264151;
     1.54109589; 8.86363636; 12.13692946; 0.40462028];
  w_target :=
    [0.06246232; 1.00000000; 0.34266478; 0.84750219; 14.80102041; 8.73795181;
     1.52845100; 5.74455446; 0.285756500; 12.72368421; 0.6250808; 3.85771277;
     6.95683453; 0.84923888; 0.40130032]
|}%Q.

Definition weights_cholect50_challenge : weights := {|
  w_tool :=
    [0.08495163; 0.88782288; 0.11259564; 2.61948830; 1.784866470; 1.144624170];
  w_verb :=
    [0.39862805; 0.06981640; 0.08332925; 0.81876204; 1.415868390; 2.269359150;
     1.28428410; 7.35822511; 18.67857143; 0.45704490];
  w_target :=
    [0.07333818; 0.87139287; 0.42853950; 1.00000000; 17.67281106; 13.94545455;
     1.44880997; 6.04889590; 0.326188650; 16.82017544; 0.63577586; 6.79964539;
     6.19547658; 0.96284208; 0.51559559]
|}%Q.

Definition weights_cholect45_crossval_1 : weights := {|
  w_tool :=
    [0.08165644; 0.91226868; 0.10674758; 2.85418156; 1.60554885; 1.10640067];
  w_verb :=
    [0.37870137; 0.06836869; 0.07931255; 0.84780024; 1.21880342; 2.52836879;
     1.30765704; 6.88888889; 17.07784431; 0.45241117];
  w_target :=
    [0.07149629; 1.0; 0.41013597; 0.90458015; 13.06299213; 12.06545455; 1.5213205;
     5.04255319; 0.35808332; 45.45205479; 0.67493897; 7.04458599; 9.14049587;
     0.97330595; 0.52633249]
|}%Q.

Definition weights_cholect45_crossval_2 : weights := {|
  w_tool :=
    [0.0854156; 0.89535362; 0.10995253; 2.74936869; 1.78264429; 1.13234529];
  w_verb :=
    [0.36346863; 0.06771776; 0.07893261; 0.82842725; 1.33892161; 2.13049748;
     1.26120359; 5.72674419; 19.7; 0.43189126];
  w_target :=
    [0.07530655; 0.97961957; 0.4325135; 0.99393438; 15.5387931; 14.5951417;
     1.53862569; 6.01836394; 0.35184462; 15.81140351; 0.709506; 5.79581994;
     8.08295964; 1.0; 0.52689272]
|}%Q.

Definition weights_cholect45_crossval_3 : weights := {|
  w_tool :=
    [0.0915228; 0.89714969; 0.12057004; 2.72128174; 1.94092281; 1.12948557];
  w_verb :=
    [0.43636862; 0.07558554; 0.0891017; 0.81820519; 1.53645582; 2.31924198;
     1.28565657; 6.49387755; 18.28735632; 0.48676763];
  w_target :=
    [0.06841828; 0.90980736; 0.38826607; 1.0; 14.3640553; 12.9875; 1.25939394;
     5.38341969; 0.29060227; 13.67105263; 0.59168565; 6.58985201; 5.72977941;
     0.86824513; 0.47682423]
|}%Q.

Definition weights_cholect45_crossval_4 : weights := {|
  w_tool :=
    [0.08222218; 0.85414117; 0.10948695; 2.50868784; 1.63235867; 1.20593318];
  w_verb :=
    [0.41154261; 0.0692142; 0.08427214; 0.79895288; 1.33625219; 2.2624166;
     1.35343681; 7.63; 17.84795322; 0.43970609];
  w_target :=
    [0.07536126; 0.85398445; 0.4085784; 0.95464422; 15.90497738; 18.5978836;
     1.55875831; 5.52672956; 0.33700863; 15.41666667; 0.74755423; 5.4921875;
     6.11304348; 1.0; 0.50641118]
|}%Q.

Definition weights_cholect45_crossval_5 : weights := {|
  w_tool :=
    [0.0804654; 0.92271157; 0.10489631; 2.52302243; 1.60074906; 1.09141982];
  w_verb :=
    [0.50710436; 0.06590258; 0.07981184; 0.81538866; 1.29267277; 2.20525568;
     1.29699248; 7.32311321; 25.45081967; 0.46733895];
  w_target :=
    [0.07119395; 0.87450495; 0.43043372; 0.86465981; 14.01984127; 23.7114094;
     1.47577277; 5.81085526; 0.32129865; 22.79354839; 0.63304067; 6.92745098;
     5.88833333; 1.0; 0.53175798]
|}%Q.

Definition weights_cholect50_crossval_1 : weights := {|
  w_tool :=
    [0.0828851; 0.8876; 0.10830995; 2.93907285; 1.63884786; 1.14499484];
  w_verb :=
    [0.29628942; 0.07366916; 0.08267971; 0.83155428; 1.25402434; 2.38358209;
     1.34938741; 7.56872038; 12.98373984; 0.41502079];
  w_target :=
    [0.06551745; 1.0; 0.36345711; 0.82434783; 13.06299213; 8.61818182; 1.4017744;
     4.62116992; 0.32822238; 45.45205479; 0.67343211; 4.13200498; 8.23325062;
     0.88527215; 0.43113306]
|}%Q.

Definition weights_cholect50_crossval_2 : weights := {|
  w_tool :=
    [0.08586283; 0.87716737; 0.11068887; 2.84210526; 1.81016949; 1.16283571];
  w_verb :=
    [0.30072757; 0.07275414; 0.08350168; 0.80694143; 1.39209979; 2.22754491;
     1.31448763; 6.38931298; 13.89211618; 0.39397505];
  w_target :=
    [0.07056703; 1.0; 0.39451115; 0.91977006; 15.86206897; 9.68421053; 1.44483706;
     5.44378698; 0.31858714; 16.14035088; 0.7238395; 4.20571429; 7.98264642;
     0.91360477; 0.43304307]
|}%Q.

Definition weights_cholect50_crossval_3 : weights := {|
  w_tool :=
    [0.09225068; 0.87856006; 0.12195811; 2.82669323; 1.97710987; 1.1603972];
  w_verb :=
    [0.34285159; 0.08049804; 0.0928239; 0.80685714; 1.56125608; 2.23984772;
     1.31471136; 7.08835341; 12.17241379; 0.43180428];
  w_target :=
    [0.06919395; 1.0; 0.37532866; 0.9830703; 15.78801843; 8.99212598; 1.27597765;
     5.36990596; 0.29177312; 15.02631579; 0.64935557; 5.08308605; 5.86643836;
     0.86580743; 0.41908257]
|}%Q.

Definition weights_cholect50_crossval_4 : weights := {|
  w_tool :=
    [0.08247885; 0.83095539; 0.11050268; 2.58193042; 1.64497676; 1.25538881];
  w_verb :=
    [0.31890981; 0.07380354; 0.08804592; 0.79094077; 1.35928144; 2.17017208;
     1.42947103; 8.34558824; 13.19767442; 0.40666428];
  w_target :=
    [0.07777646; 0.95894072; 0.41993829; 0.95592153; 17.85972851; 12.49050633;
     1.65701092; 5.74526929; 0.33763901; 17.31140351; 0.83747083; 3.95490982;
     6.57833333; 1.0; 0.47139615]
|}%Q.

Definition weights_cholect50_crossval_5 : weights := {|
  w_tool :=
    [0.07891691; 0.89878025; 0.10267677; 2.53805556; 1.60636428; 1.12691169];
  w_verb :=
    [0.36420961; 0.06825313; 0.08060635; 0.80956984; 1.30757221; 2.09375;
     1.33625848; 7.9009434; 14.1350211; 0.41429631];
  w_target :=
    [0.07300329; 0.97128713; 0.42084942; 0.8829883; 15.57142857; 19.42574257;
     1.56521739; 5.86547085; 0.32732733; 25.31612903; 0.70171674; 4.55220418;
     6.13125; 1.0; 0.48528321]
|}%Q.

Definition weights_randa : weights := {|
  w_tool :=
    [0.93487068; 0.94234964; 0.93487068; 1.18448115; 1.02368339; 0.97974447];
  w_verb :=
    [0.60002400; 0.60002400; 0.60002400; 0.61682467; 0.67082683; 0.80163207;
     0.70562823; 2.11208448; 2.69230769; 0.60062402];
  w_target :=
    [0.49752894; 0.52041527; 0.49752894; 0.51394739; 2.71899565; 1.75577963;
     0.58509403; 1.25228034; 0.49752894; 2.42993134; 0.49802647; 0.87266576;
     1.36074165; 0.50150917; 0.49802647]
|}%Q.

(** The attributes a node of the configuration may have, as far as the
    function reads them; [None] where the node has no attribute of the
    name.  The values are what the configuration file holds, of any
    type. *)
Record config_node := ConfigNode {
  dataset_variant : option pyval;
  kfold : option pyval;
  weight_randa : option pyval
}.

(** What the function reads of [config]: [config.trainer.dataset], the
    nodes [config.dataset.T45] and [config.dataset.T50] where they exist,
    and the attributes of the three names of [config] itself, which the
    function goes on with when the dataset is neither ['T45'] nor
    ['T50']. *)
Record balancing_config := BalancingConfig {
  bc_trainer_dataset : pyval;
  bc_T45 : option config_node;
  bc_T50 : option config_node;
  bc_top : config_node
}.

(** [node.name] *)
Definition getattr {A} (attribute : option A) (name : string) : res A :=
  match attribute with
  | Some a => Ok a
  | None => Raise (AttributeError name)
  end.

(** [v == s] for a string [s]: false for every value that is no string. *)
Definition py_eq_str (v : pyval) (s : string) : bool :=
  match v with
  | PyStr s' => String.eqb s' s
  | _ => false
  end.

(** [sub in s] for strings. *)
Fixpoint contains (sub s : string) : bool :=
  String.prefix sub s
  || match s with
     | EmptyString => false
     | String _ rest => contains sub rest
     end.

(** An entry of [switcher]: the three lists, or one such entry per fold. *)
Definition switcher (case : string) : option (weights + list (Z * weights)) :=
  if String.eqb case "cholect50" then Some (inl weights_cholect50)
  else if String.eqb case "cholect50-challenge" then Some (inl weights_cholect50_challenge)
  else if String.eqb case "cholect45-crossval" then
    Some (inr [(1%Z, weights_cholect45_crossval_1); (2%Z, weights_cholect45_crossval_2);
               (3%Z, weights_cholect45_crossval_3); (4%Z, weights_cholect45_crossval_4);
               (5%Z, weights_cholect45_crossval_5)])
  else if String.eqb case "cholect50-crossval" then
    Some (inr [(1%Z, weights_cholect50_crossval_1); (2%Z, weights_cholect50_crossval_2);
               (3%Z, weights_cholect50_crossval_3); (4%Z, weights_cholect50_crossval_4);
               (5%Z, weights_cholect50_crossval_5)])
  else None.

Fixpoint fold_lookup (k : Z) (folds : list (Z * weights)) : option weights :=
  match folds with
  | [] => None
  | (k', w) :: rest => if Z.eqb k k' then Some w else fold_lookup k rest
  end.

(** [sub in v] for a string [sub]: a substring of a string, an element of
    a list, a key of a dictionary; a tensor refuses a string, and the
    other values are not containers. *)
Definition py_contains_str (sub : string) (v : pyval) : res bool :=
  match v with
  | PyStr s => Ok (contains sub s)
  | PyList vs => Ok (existsb (fun x => py_eq_str x sub) vs)
  | PyDict kvs => Ok (has_key kvs sub)
  | PyTensor _ => Raise (RuntimeError "Tensor.__contains__ only supports Tensor or scalar")
  | _ => Raise (TypeError "argument is not iterable")
  end.

(** Lists and dictionaries cannot be keys of a dictionary. *)
Definition hashable (k : pyval) : bool :=
  match k with
  | PyList _ | PyDict _ => false
  | _ => true
  end.

(** The integer a key is equal to, if any: [1], [True] and [1.0] are the
    same key of a dictionary. *)
Definition key_int (k : pyval) : option Z :=
  match k with
  | PyInt n => Some n
  | PyBool b => Some (Z.b2z b)
  | PyFloat (FFin q) =>
      if Z.eqb (Qnum q mod Z.pos (Qden q)) 0 then Some (Qnum q / Z.pos (Qden q))%Z else None
  | _ => None
  end.

(** The key a [KeyError] is raised with, where it is an integer, a boolean,
    a string or [None]; the text of another key is left out. *)
Definition key_repr (k : pyval) : string :=
  match k with
  | PyInt n => pretty n
  | PyBool true => "True"
  | PyBool false => "False"
  | PyNone => "None"
  | PyStr s => s
  | _ => ""
  end.

(** [switcher.get(case)]: [None] for a key that is not in the table. *)
Definition switcher_get (case : pyval) : res (option (weights + list (Z * weights))) :=
  match case with
  | PyStr s => Ok (switcher s)
  | _ => if hashable case then Ok None else Raise (TypeError "unhashable type")
  end.

(** [entry[k]['tool']], and the same for ['verb'] and ['target'], for
    [entry = switcher.get(case)] and [k = config.kfold]. *)
Definition lookup_fold (entry : option (weights + list (Z * weights))) (k : pyval)
  : res weights :=
  match entry with
  | None => Raise (TypeError "'NoneType' object is not subscriptable")
  | Some entry =>
      if negb (hashable k) then Raise (TypeError "unhashable type")
      else
        match entry with
        | inl _ =>
            if py_eq_str k "tool" || py_eq_str k "verb" || py_eq_str k "target"
            then Raise (TypeError "list indices must be integers or slices, not str")
            else Raise (KeyError (key_repr k))
        | inr folds =>
            match key_int k with
            | Some n =>
                match fold_lookup n folds with
                | Some w => Ok w
                | None => Raise (KeyError (key_repr k))
                end
            | None => Raise (KeyError (key_repr k))
            end
        end
  end.

(** [entry['tool']], and the same for ['verb'] and ['target']. *)
Definition lookup_plain (entry : option (weights + list (Z * weights))) : res weights :=
  match entry with
  | None => Raise (TypeError "'NoneType' object is not subscriptable")
  | Some (inl w) => Ok w
  | Some (inr _) => Raise (KeyError "tool")
  end.

(** The node the function goes on with: [config.dataset.T45],
    [config.dataset.T50], or [config] itself. *)
Definition chosen_node (config : balancing_config) : res config_node :=
  if py_eq_str (bc_trainer_dataset config) "T45" then getattr (bc_T45 config) "T45"
  else if py_eq_str (bc_trainer_dataset config) "T50" then getattr (bc_T50 config) "T50"
  else Ok (bc_top config).

(** The lists of the table for a node: [case = config.dataset_variant],
    the test ['crossval' in config.dataset_variant], and the lookup, where
    [switcher.get(case)] is evaluated before [config.kfold]. *)
Definition table_weights (node : config_node) : res weights :=
  match getattr (dataset_variant node) "dataset_variant" with
  | Raise e => Raise e
  | Ok case =>
      match py_contains_str "crossval" case with
      | Raise e => Raise e
      | Ok true =>
          match switcher_get case with
          | Raise e => Raise e
          | Ok entry =>
              match getattr (kfold node) "kfold" with
              | Raise e => Raise e
              | Ok k => lookup_fold entry k
              end
          end
      | Ok false =>
          match switcher_get case with
          | Raise e => Raise e
          | Ok entry => lookup_plain entry
          end
      end
  end.

(** [get_weight_balancing(config)]: the node of the chosen dataset, the
    lists of the table, and the fixed lists in their place when
    [config.weight_randa == True]. *)
Definition get_weight_balancing (config : balancing_config)
  : res (list Q * list Q * list Q) :=
  match chosen_node config with
  | Raise e => Raise e
  | Ok node =>
      match table_weights node with
      | Raise e => Raise e
      | Ok w =>
          match getattr (weight_randa node) "weight_randa" with
          | Raise e => Raise e
          | Ok randa =>
              match py_eq_True randa with
              | Raise e => Raise e
              | Ok true =>
                  Ok (w_tool weights_randa, w_verb weights_randa, w_target weights_randa)
              | Ok false => Ok (w_tool w, w_verb w, w_target w)
              end
          end
      end
  end.

(** ** Further observations *)

(** The keys [val_one_epoch] reads from the metrics, in the order it reads
    them. *)
Definition val_keys : list string :=
  ["Val/I"; "Val/T"; "Val/V"; "Val/IVM"; "Val/ITM"; "Val/IVT"].

(** A matrix of [rows] rows of [columns] elements. *)
Definition has_shape {A} (rows columns : nat) (x : list (list A)) : Prop :=
  length x = rows /\ Forall (fun r => length r = columns) x.

(** Heads of one position each: for every element of the batch and every
    head, a single row. *)
Definition single_position {A} (num_heads batch_size : nat) (row : nat -> nat -> A)
  : list (list (list A)) :=
  map (fun i => map (fun h => [row i h]) (seq 0 num_heads)) (seq 0 batch_size).

(** A computation that leaves the files as they are. *)
Definition keeps_disk {T A} (m : M T A) : Prop :=
  forall w, disk (m w).1 = disk w.

(** A classifier of two heads of one feature, on integers. *)
Definition sample_classifier : Values.AttentionClassifier :=
  {| Values.query_proj := {| Values.in_features := 4;
                             Values.weight := [[1; 0; 2; 0]; [0; 1; 0; 3]]%Z;
                             Values.bias := [5; 7]%Z |};
     Values.key_proj := {| Values.in_features := 2;
                           Values.weight := [[1; 1]; [2; 0]]%Z;
                           Values.bias := [0; 1]%Z |};
     Values.value_proj := {| Values.in_features := 4;
                             Values.weight := [[1; 0; 0; 0]; [0; 0; 0; 1]]%Z;
                             Values.bias := [0; 0]%Z |};
     Values.num_heads := 2;
     Values.head_dim := 1;
     Values.mlp := {| Values.in_features := 2;
                      Values.weight := [[1; 1]; [1; 0]; [0; 1]]%Z;
                      Values.bias := [0; 0; 0]%Z |} |}.

(* ===================================================================== *)
(** * Properties of src/utils.py *)
(* ===================================================================== *)

Lemma try_except_caught {T A} (body : M T A) handler (w w' : world T) e :
  body w = (w', Raise e) -> is_Exception e = true ->
  try_except body handler w = handler e w'.
Proof. intros Hb He. unfold try_except. rewrite Hb, He. reflexivity. Qed.

Lemma try_except_ok {T A} (body : M T A) handler (w w' : world T) a :
  body w = (w', Ok a) -> try_except body handler w = (w', Ok a).
Proof. intros Hb. unfold try_except. rewrite Hb. reflexivity. Qed.

Lemma bind_ok {T A B} (m : M T A) (k : A -> M T B) (w w' : world T) a :
  m w = (w', Ok a) -> bind m k w = k a w'.
Proof. intros Hm. unfold bind. rewrite Hm. reflexivity. Qed.

Lemma bind_raise {T A B} (m : M T A) (k : A -> M T B) (w w' : world T) e :
  m w = (w', Raise e) -> bind m k w = (w', Raise e).
Proof. intros Hm. unfold bind. rewrite Hm. reflexivity. Qed.

Lemma print_trace {T} (w : world T) e text :
  trace (logged_failure w e text) = trace w ++ [EvPrintExn e; EvPrint text []].
Proof. reflexivity. Qed.

Lemma handler_result {T A} (w : world T) e text (a : A) :
  bind (accelerator_print_exn e)
       (fun _ => bind (accelerator_print text []) (fun _ => ret a)) w
  = (logged_failure w e text, Ok a).
Proof.
  unfold bind, accelerator_print_exn, accelerator_print, emit, ret, logged_failure.
  simpl. rewrite <- app_assoc. reflexivity.
Qed.

(** Reading a file leaves the world as it is. *)
Lemma load_model_dict_world {T} path (w : world T) : (load_model_dict path w).1 = w.
Proof. unfold load_model_dict. destruct (String.prefix _ _); reflexivity. Qed.

(** ** [load_state_dict] of a module that raises nothing *)

Lemma assoc_cons_eq {V} k (v : V) rest : assoc k ((k, v) :: rest) = Some v.
Proof. simpl. rewrite String.eqb_refl. reflexivity. Qed.

Lemma load_entry_key sd entry : (load_entry sd entry).1.1 = entry.1.
Proof.
  destruct entry as [k cur]. unfold load_entry.
  destruct (assoc k sd) as [[]|]; simpl; try reflexivity.
  destruct (shape_eqb _ _); reflexivity.
Qed.

Lemma load_entry_copied sd k cur :
  (load_entry sd (k, cur)).2 = true ->
  assoc k sd = Some (PyTensor (load_entry sd (k, cur)).1.2).
Proof.
  unfold load_entry.
  destruct (assoc k sd) as [[]|]; simpl; try discriminate.
  destruct (shape_eqb _ _); simpl; [reflexivity | discriminate].
Qed.

Lemma assoc_loaded sd state k :
  forallb snd (map (load_entry sd) state) = true ->
  match assoc k state with
  | Some _ => exists t, assoc k sd = Some (PyTensor t)
                     /\ assoc k (map fst (map (load_entry sd) state)) = Some t
  | None => assoc k (map fst (map (load_entry sd) state)) = None
  end.
Proof.
  induction state as [|[k' cur] state IH]; intros Hall; [reflexivity|].
  cbn [map forallb] in Hall. apply andb_prop in Hall as [Hc Hall].
  specialize (IH Hall). cbn [map assoc].
  pose proof (load_entry_key sd (k', cur)) as Hk. cbn [fst] in Hk.
  destruct (load_entry sd (k', cur)) as [[k'' t] ok] eqn:Hle.
  cbn [fst snd] in *. subst k''.
  destruct (String.eqb_spec k k') as [->|Hne].
  - exists t. split; [|reflexivity].
    pose proof (load_entry_copied sd k' cur) as Hcp. rewrite Hle in Hcp. auto.
  - exact IH.
Qed.

Lemma has_key_assoc {V} (kvs : list (string * V)) k :
  has_key kvs k = true -> exists v, assoc k kvs = Some v.
Proof. unfold has_key. destruct (assoc k kvs); [eauto | discriminate]. Qed.

Lemma assoc_in_keys {V} (kvs : list (string * V)) k v :
  assoc k kvs = Some v -> In k (map fst kvs).
Proof.
  induction kvs as [|[k' v'] kvs IH]; [discriminate|].
  simpl. destruct (String.eqb_spec k k') as [->|]; auto.
Qed.

(** When [load_state_dict] raises nothing, the module's state dict is the
    loaded one, key by key. *)
Lemma module_load_state_dict_loaded state sd state' :
  module_load_state_dict state (PyDict sd) = (state', None) ->
  forall k, assoc k sd = PyTensor <$> assoc k state'.
Proof.
  unfold module_load_state_dict. intros Heq k.
  destruct (forallb snd (map (load_entry sd) state)) eqn:Hall; [|discriminate].
  destruct (forallb (has_key state) (map fst sd)) eqn:Hkeys; [|discriminate].
  simpl in Heq. injection Heq as <-.
  pose proof (assoc_loaded sd state k Hall) as Hl.
  destruct (assoc k state) eqn:Hks.
  - destruct Hl as (t1 & -> & ->). reflexivity.
  - rewrite Hl. destruct (assoc k sd) eqn:Hsd; [|reflexivity].
    apply assoc_in_keys in Hsd.
    rewrite forallb_forall in Hkeys. apply Hkeys in Hsd.
    apply has_key_assoc in Hsd as [? Hsd]. congruence.
Qed.

(** ** [load_pretrain_model] *)

(** The function hands back the object it was given, whatever happened. *)
Lemma load_pretrain_model_returns_arg {T} `{Externals T} path model (w w' : world T) m :
  load_pretrain_model path model w = (w', Ok m) -> m = model.
Proof.
  unfold load_pretrain_model, try_except.
  destruct (load_pretrain_try path model w) as [w1 [a|e]] eqn:Htry.
  - intros [= <- <-]. revert Htry.
    unfold load_pretrain_try, bind.
    destruct (load_model_dict path w) as [? [?|?]]; [|discriminate].
    destruct (get_load_state_dict model _) as [? [?|?]]; [|discriminate].
    destruct (apply_load_state_dict _ _ _) as [? [?|?]]; [|discriminate].
    unfold accelerator_print, emit, ret. simpl. congruence.
  - destruct (is_Exception e); [|discriminate].
    rewrite handler_result. congruence.
Qed.

(** An exception of class [Exception] never leaves it. *)
Lemma load_pretrain_model_catches {T} `{Externals T} path model (w w' : world T) e :
  load_pretrain_model path model w = (w', Raise e) -> is_Exception e = false.
Proof.
  unfold load_pretrain_model, try_except.
  destruct (load_pretrain_try path model w) as [w1 [a|e']]; [discriminate|].
  destruct (is_Exception e') eqn:He.
  - rewrite handler_result. discriminate.
  - congruence.
Qed.

(** C6 (amended).  [load_pretrain_model]: an exception of class [Exception]
    raised while loading is caught and logged, and the function returns the
    model object it was given; when the failure is in reading the file,
    the world, and with it the parameters of the model, is what it was,
    up to the two lines printed; when loading succeeds, the state dict of
    the returned model is the loaded one. *)
Theorem load_pretrain_model_outcomes :
  forall T (E : Externals T) (path : string) (model : pyval) (w : world T),
    (forall w' e,
        load_pretrain_try path model w = (w', Raise e) -> is_Exception e = true ->
        load_pretrain_model path model w
        = (logged_failure w' e "Failed to load the training model！", Ok model))
    /\ (forall e,
        (load_model_dict path w).2 = Raise e -> is_Exception e = true ->
        load_pretrain_model path model w
        = (logged_failure w e "Failed to load the training model！", Ok model))
    /\ (forall l state sd state',
        (load_model_dict path w).2 = Ok (PyDict sd) ->
        model = PyRef l -> heap w !! l = Some (ObjModule state) ->
        module_load_state_dict state (PyDict sd) = (state', None) ->
        exists w',
          load_pretrain_model path model w = (w', Ok model)
          /\ heap w' !! l = Some (ObjModule state')
          /\ forall k, assoc k sd = PyTensor <$> assoc k state').
Proof.
  intros T E path model w. split; [|split].
  - intros w' e Htry He.
    unfold load_pretrain_model.
    rewrite (try_except_caught _ _ _ _ _ Htry He). apply handler_result.
  - intros e Hload He.
    pose proof (load_model_dict_world path w) as Hw.
    destruct (load_model_dict path w) as [w1 r] eqn:Hl. simpl in Hw, Hload. subst w1 r.
    unfold load_pretrain_model.
    rewrite (try_except_caught _ _ w w e); [apply handler_result | | exact He].
    unfold load_pretrain_try. apply bind_raise. exact Hl.
  - intros l state sd state' Hload -> Hheap Hmod.
    pose proof (load_model_dict_world path w) as Hw.
    destruct (load_model_dict path w) as [w1 r] eqn:Hl. simpl in Hw, Hload. subst w1 r.
    eexists. split; [|split].
    + unfold load_pretrain_model. apply try_except_ok.
      unfold load_pretrain_try.
      rewrite (bind_ok _ _ _ _ _ Hl).
      unfold bind at 1. unfold get_load_state_dict. rewrite Hheap.
      unfold apply_load_state_dict. rewrite Hmod.
      unfold bind, set_obj, ret, accelerator_print, emit. simpl. reflexivity.
    + simpl. apply lookup_insert_eq.
    + apply (module_load_state_dict_loaded state). exact Hmod.
Qed.

(** C6, an instance: reading "/w/best.bin" fails on an empty disk, the
    model keeps its parameters; and the file of [disk_fitting] is loaded. *)
Lemma load_pretrain_model_outcomes_witness :
  load_pretrain_model "/w/best.bin" (PyRef 1%positive) (sample_world ∅)
  = (logged_failure (sample_world ∅) (FileNotFoundError "/w/best.bin")
       "Failed to load the training model！", Ok (PyRef 1%positive))
  /\ exists w',
      load_pretrain_model "/w/best.bin" (PyRef 1%positive) (sample_world disk_fitting)
      = (w', Ok (PyRef 1%positive))
      /\ heap w' !! 1%positive = Some (ObjModule [("a", t_a'); ("b", t_b')])
      /\ forall k, assoc k [("b", PyTensor t_b'); ("a", PyTensor t_a')]
                   = PyTensor <$> assoc k [("a", t_a'); ("b", t_b')].
Proof.
  split.
  - apply (proj1 (proj2 (load_pretrain_model_outcomes Z _ "/w/best.bin" (PyRef 1%positive)
                           (sample_world ∅)))); reflexivity.
  - apply (proj2 (proj2 (load_pretrain_model_outcomes Z _ "/w/best.bin" (PyRef 1%positive)
                           (sample_world disk_fitting)))
             1%positive [("a", t_a); ("b", t_b)]); reflexivity.
Defined.

(** C6 as stated fails: with the file of [disk_partial], [load_state_dict]
    copies the entry ["a"] and then raises for the key ["c"]; the exception
    is caught, the model is returned, and its parameter ["a"] is no longer
    what it was. *)
Lemma load_pretrain_model_partial_load :
  let w := sample_world disk_partial in
  let r := load_pretrain_model "/w/best.bin" (PyRef 1%positive) w in
  (load_pretrain_try "/w/best.bin" (PyRef 1%positive) w).2
    = Raise (RuntimeError "Error(s) in loading state_dict")
  /\ r.2 = Ok (PyRef 1%positive)
  /\ heap w !! 1%positive = Some (ObjModule [("a", t_a); ("b", t_b)])
  /\ heap r.1 !! 1%positive = Some (ObjModule [("a", t_a'); ("b", t_b)])
  /\ heap r.1 !! 1%positive <> heap w !! 1%positive.
Proof.
  cbv zeta. repeat split; try (vm_compute; reflexivity).
  vm_compute. discriminate.
Qed.

(** ** [resume_train_state] *)

(** The failures that do reach the [except] of [resume_train_state]: when
    reading [epoch.pth.tar] or one of its five entries, or loading the
    state of the optimizers and schedulers, raises an exception of class
    [Exception], the function catches it, prints it and the failure line,
    and returns the model, optimizers and schedulers it was given with the
    fresh training state: epochs and steps 0, a zero best score and no best
    metrics. *)
Theorem resume_train_state_fallback :
  forall T (E : Externals T) (model : pyval) (checkpoint : string)
         (optimizers schedulers : pyval) (w w' : world T) (e : exn),
    is_Exception e = true ->
    (read_epoch_checkpoint (checkpoint_path w checkpoint) w = (w', Raise e)
     \/ exists meta w1 w2 m,
         read_epoch_checkpoint (checkpoint_path w checkpoint) w = (w1, Ok meta)
         /\ load_pretrain_model (checkpoint_path w checkpoint +:+ "/pytorch_model.bin")
              model w1 = (w2, Ok m)
         /\ load_optimizers_schedulers (checkpoint_path w checkpoint) optimizers schedulers w2
            = (w', Raise e)) ->
    resume_train_state model checkpoint optimizers schedulers w
    = (logged_failure w' e "Failed to load training state!",
       Ok (fresh_state model optimizers schedulers))
    /\ fresh_state model optimizers schedulers
       = TrainState model optimizers schedulers (PyInt 0) (PyInt 0) (PyInt 0)
           (PyTensor (Tensor [1] [FFin 0%Q])) (PyDict []).
Proof.
  intros T E model checkpoint optimizers schedulers w w' e He Hfail.
  split; [|reflexivity].
  unfold resume_train_state.
  rewrite (try_except_caught _ _ w w' e); [apply handler_result | | exact He].
  unfold resume_try. unfold bind at 1. unfold get_world.
  destruct Hfail as [Hread | (meta & w1 & w2 & m & Hread & Hmodel & Hopt)].
  - apply bind_raise. exact Hread.
  - rewrite (bind_ok _ _ _ _ _ Hread).
    rewrite (bind_ok _ _ _ _ _ Hmodel).
    apply bind_raise. exact Hopt.
Qed.

(** Two instances: no checkpoint at all, and a checkpoint whose optimizer
    state is missing. *)
Lemma resume_train_state_fallback_witness :
  resume_train_state (PyRef 1%positive) "ckT45" (PyRef 2%positive) (PyRef 3%positive)
    (sample_world ∅)
  = (logged_failure (sample_world ∅)
       (FileNotFoundError "/w/model_store/ckT45/checkpoint/epoch.pth.tar")
       "Failed to load training state!",
     Ok (fresh_state (PyRef 1%positive) (PyRef 2%positive) (PyRef 3%positive)))
  /\ (resume_train_state (PyRef 1%positive) "ckT45" (PyRef 2%positive) (PyRef 3%positive)
        (sample_world (delete "/w/model_store/ckT45/checkpoint/optimizer.bin"
                         disk_no_weights))).2
     = Ok (fresh_state (PyRef 1%positive) (PyRef 2%positive) (PyRef 3%positive)).
Proof.
  split.
  - apply (resume_train_state_fallback Z _ (PyRef 1%positive) "ckT45" (PyRef 2%positive)
             (PyRef 3%positive) (sample_world ∅)).
    + reflexivity.
    + left. reflexivity.
  - set (w := sample_world (delete _ disk_no_weights)).
    pose (w2 := (load_pretrain_model "/w/model_store/ckT45/checkpoint/pytorch_model.bin"
                   (PyRef 1%positive) w).1).
    refine (f_equal snd (proj1 (resume_train_state_fallback Z _ (PyRef 1%positive) "ckT45"
             (PyRef 2%positive) (PyRef 3%positive) w w2
             (FileNotFoundError "/w/model_store/ckT45/checkpoint/optimizer.bin") _ _))).
    + reflexivity.
    + right.
      exists (EpochMeta (PyTensor (Tensor [] [FFin (1 # 2)])) (PyDict []) (PyInt 4)
                (PyInt 4) (PyInt 40)), w, w2, (PyRef 1%positive).
      repeat split; vm_compute; reflexivity.
Defined.

(** In a checkpoint directory without [pytorch_model.bin] the load of the
    weights raises, [load_pretrain_model] itself catches and prints it, and
    [resume_train_state] returns the epoch, steps and best score of the
    metadata file. *)
Lemma resume_train_state_weights_failure :
  let w := sample_world disk_no_weights in
  let r := resume_train_state (PyRef 1%positive) "ckT45" (PyRef 2%positive)
             (PyRef 3%positive) w in
  (load_model_dict "/w/model_store/ckT45/checkpoint/pytorch_model.bin" w).2
    = Raise (FileNotFoundError "/w/model_store/ckT45/checkpoint/pytorch_model.bin")
  /\ r.2 = Ok (TrainState (PyRef 1%positive) (PyRef 2%positive) (PyRef 3%positive)
                 (PyInt 4) (PyInt 4) (PyInt 40)
                 (PyTensor (Tensor [] [FFin (1 # 2)])) (PyDict []))
  /\ r.2 <> Ok (fresh_state (PyRef 1%positive) (PyRef 2%positive) (PyRef 3%positive)).
Proof.
  cbv zeta. split; [|split]; [vm_compute; reflexivity .. |].
  vm_compute. discriminate.
Qed.

(** A list of optimizers is handed to [load_param], which asks it for
    [keys()]: the fallback is taken whatever the files hold. *)
Lemma resume_train_state_list_of_optimizers :
  (resume_train_state (PyRef 1%positive) "ckT45" (PyList [PyRef 2%positive])
     (PyList [PyRef 3%positive]) (sample_world disk_no_weights)).2
  = Ok (fresh_state (PyRef 1%positive) (PyList [PyRef 2%positive]) (PyList [PyRef 3%positive])).
Proof. vm_compute. reflexivity. Qed.

(** ** [add_tokens_tokenizer] *)

Lemma missing_words_spec {Tok} `{Tokenizer Tok} (tokenizer : Tok) all_list add out :
  (missing_words tokenizer all_list add out).1
  = add ++ filter (fun w => ¬ is_Some (tok_vocab tokenizer !! w)) all_list.
Proof.
  revert add out. induction all_list as [|word rest IH]; intros add out; simpl.
  - rewrite app_nil_r. reflexivity.
  - rewrite filter_cons. case_bool_decide as Hin.
    + rewrite decide_False by (intros Hn; exact (Hn Hin)). apply IH.
    + rewrite decide_True by exact Hin. rewrite IH, <- app_assoc. reflexivity.
Qed.

Section AddTokens.
Context {Tok : Type} `{Tokenizer Tok}.

(** What the library promises of [add_tokens]: afterwards the vocabulary
    has the keys it had and the given tokens, and no others. *)
Hypothesis add_tokens_vocab :
  forall (ws : list string) (t : Tok) (w : string),
    is_Some (tok_vocab (tok_add_tokens ws t).1 !! w)
    <-> is_Some (tok_vocab t !! w) \/ w ∈ ws.

(** C5.  [add_tokens_tokenizer] hands to [add_tokens] exactly the words of
    the list that are not keys of the vocabulary, in the order of the
    list, and returns the tokenizer after that call; then every word of
    the list is in the vocabulary, which has gained no other key. *)
Theorem add_tokens_tokenizer_adds_missing :
  forall (tokenizer : Tok) (all_list : list string),
    let add := filter (fun w => ¬ is_Some (tok_vocab tokenizer !! w)) all_list in
    let tokenizer' := (add_tokens_tokenizer tokenizer all_list).1 in
    tokenizer' = (tok_add_tokens add tokenizer).1
    /\ (forall w, w ∈ add <-> w ∈ all_list /\ ¬ is_Some (tok_vocab tokenizer !! w))
    /\ (forall w, w ∈ all_list -> is_Some (tok_vocab tokenizer' !! w))
    /\ (forall w, is_Some (tok_vocab tokenizer' !! w)
                  <-> is_Some (tok_vocab tokenizer !! w) \/ w ∈ all_list).
Proof.
  intros tokenizer all_list add tokenizer'.
  assert (Hadd : forall w, w ∈ add
                   <-> w ∈ all_list /\ ¬ is_Some (tok_vocab tokenizer !! w)).
  { intros w. unfold add. rewrite list_elem_of_filter. tauto. }
  assert (Heq : tokenizer' = (tok_add_tokens add tokenizer).1).
  { unfold tokenizer', add_tokens_tokenizer.
    pose proof (missing_words_spec tokenizer all_list [] []) as Hm.
    destruct (missing_words tokenizer all_list [] []) as [a o]. simpl in Hm. subst a.
    fold add. destruct (tok_add_tokens add tokenizer). reflexivity. }
  assert (Hvocab : forall w, is_Some (tok_vocab tokenizer' !! w)
                     <-> is_Some (tok_vocab tokenizer !! w) \/ w ∈ all_list).
  { intros w. rewrite Heq, add_tokens_vocab, Hadd.
    destruct (decide (is_Some (tok_vocab tokenizer !! w))); tauto. }
  split; [exact Heq|]. split; [exact Hadd|]. split; [|exact Hvocab].
  intros w Hw. apply Hvocab. right. exact Hw.
Qed.

End AddTokens.

(** The vocabulary-only tokenizer keeps that promise. *)
Lemma add_token_vocab (v : gmap string nat * nat) (x w : string) :
  is_Some ((add_token v x).1 !! w) <-> is_Some (v.1 !! w) \/ w = x.
Proof.
  unfold add_token. destruct (v.1 !! x) eqn:Hx; simpl.
  - split; [auto|]. intros [?| ->]; [assumption | eauto].
  - rewrite lookup_insert. case_decide as Hd.
    + subst. split; [auto | eauto].
    + split; [auto|]. intros [?|?]; [assumption | congruence].
Qed.

Lemma vocab_tokenizer_add_tokens (ws : list string) (t : gmap string nat) (w : string) :
  is_Some (tok_vocab (tok_add_tokens ws t).1 !! w) <-> is_Some (tok_vocab t !! w) \/ w ∈ ws.
Proof.
  simpl. generalize 0 as n. revert t.
  induction ws as [|x ws IH]; intros t n; simpl.
  - rewrite elem_of_nil. tauto.
  - destruct (add_token (t, n) x) as [t' n'] eqn:Ha.
    rewrite IH, elem_of_cons.
    pose proof (add_token_vocab (t, n) x w) as Hv. rewrite Ha in Hv. simpl in Hv.
    rewrite Hv. tauto.
Qed.

(** C5, an instance: of three words one is in the vocabulary already. *)
Lemma add_tokens_tokenizer_adds_missing_witness :
  let tokenizer : gmap string nat := {[ "hook" := 7 ]} in
  let all_list := ["grasper"; "hook"; "clipper"] in
  (add_tokens_tokenizer tokenizer all_list).1
  = (tok_add_tokens (filter (fun w => ¬ is_Some (tok_vocab tokenizer !! w)) all_list)
       tokenizer).1
  /\ forall w, w ∈ all_list ->
       is_Some (tok_vocab (add_tokens_tokenizer tokenizer all_list).1 !! w).
Proof.
  intros tokenizer all_list.
  pose proof (add_tokens_tokenizer_adds_missing vocab_tokenizer_add_tokens
                tokenizer all_list) as (H1 & _ & H3 & _).
  split; [exact H1 | exact H3].
Defined.

Example add_tokens_tokenizer_run :
  add_tokens_tokenizer (Tok := gmap string nat) {[ "hook" := 7 ]} ["grasper"; "hook"; "clipper"]
  = (<["clipper" := 2]> (<["grasper" := 1]> {[ "hook" := 7 ]}),
     ["'grasper' is not in the BERT vocabulary.";
      "'clipper' is not in the BERT vocabulary.";
      "Now we have added 2 tokens"]).
Proof. vm_compute. reflexivity. Qed.

(* ===================================================================== *)
(** * Properties of Pamain.py *)
(* ===================================================================== *)

(** ** What a computation appends to the trace *)

Section Appends.
Context {T : Type} `{Externals T}.
Variable c : string.
Variable P : event T -> Prop.

Lemma appends_ret {A} (a : A) : appends c P (ret a).
Proof. intros w Hc. exists []. rewrite app_nil_r. auto. Qed.

Lemma appends_raise {A} e : appends c P (@raise T A e).
Proof. intros w Hc. exists []. rewrite app_nil_r. auto. Qed.

Lemma appends_lift {A} (r : res A) : appends c P (lift r).
Proof. intros w Hc. exists []. rewrite app_nil_r. auto. Qed.

Lemma appends_torch_load path : appends c P (@torch_load T path).
Proof. intros w Hc. exists []. rewrite app_nil_r. auto. Qed.

Lemma appends_hub_load url : appends c P (@hub_load_state_dict_from_url T url).
Proof. intros w Hc. exists []. rewrite app_nil_r. auto. Qed.

Lemma appends_set_obj l o : appends c P (@set_obj T l o).
Proof. intros w Hc. exists []. simpl. rewrite app_nil_r. auto. Qed.

Lemma appends_get_load_state_dict target : appends c P (@get_load_state_dict T target).
Proof.
  intros w Hc. exists []. rewrite app_nil_r. unfold get_load_state_dict.
  destruct target; auto. destruct (heap w !! l); auto.
Qed.

Lemma appends_emit ev : P ev -> appends c P (emit ev).
Proof. intros HP w Hc. exists [ev]. simpl. auto. Qed.

Lemma appends_call_ext ev : P ev -> appends c P (call_ext ev).
Proof. intros HP w Hc. exists [ev]. simpl. auto. Qed.

Lemma appends_torch_save v path : P (EvTorchSave path v) -> appends c P (torch_save v path).
Proof. intros HP w Hc. exists [EvTorchSave path v]. simpl. auto. Qed.

Lemma appends_bind {A B} (m : M T A) (k : A -> M T B) :
  appends c P m -> (forall a, appends c P (k a)) -> appends c P (bind m k).
Proof.
  intros Hm Hk w Hc. unfold bind.
  destruct (Hm w Hc) as (new1 & Ht1 & HP1 & Hc1).
  destruct (m w) as [w1 [a|e]]; simpl in *.
  - destruct (Hk a w1 Hc1) as (new2 & Ht2 & HP2 & Hc2).
    exists (new1 ++ new2). rewrite Ht2, Ht1, app_assoc.
    split; [reflexivity|]. split; [apply Forall_app; auto | exact Hc2].
  - exists new1. auto.
Qed.

Lemma appends_get_world {B} (k : world T -> M T B) :
  (forall w, cwd w = c -> appends c P (k w)) -> appends c P (bind get_world k).
Proof. intros Hk w Hc. unfold bind, get_world. apply (Hk w Hc w Hc). Qed.

Lemma appends_try_except {A} (body : M T A) handler :
  appends c P body -> (forall e, appends c P (handler e)) ->
  appends c P (try_except body handler).
Proof.
  intros Hb Hh w Hc. unfold try_except.
  destruct (Hb w Hc) as (new1 & Ht1 & HP1 & Hc1).
  destruct (body w) as [w1 [a|e]]; simpl in *.
  - exists new1. auto.
  - destruct (is_Exception e).
    + destruct (Hh e w1 Hc1) as (new2 & Ht2 & HP2 & Hc2).
      exists (new1 ++ new2). rewrite Ht2, Ht1, app_assoc.
      split; [reflexivity|]. split; [apply Forall_app; auto | exact Hc2].
    + exists new1. auto.
Qed.

Lemma appends_for_enumerate {A St} (body : nat -> A -> St -> M T (St * flow)) i xs s :
  (forall i x s, appends c P (body i x s)) -> appends c P (for_enumerate body i xs s).
Proof.
  intros Hb. revert i s. induction xs as [|x xs IH]; intros i s; simpl.
  - apply appends_ret.
  - apply appends_bind; [apply Hb|]. intros [s' []]; simpl.
    + apply IH.
    + apply appends_ret.
Qed.

End Appends.

(** One step of a proof that a computation appends events of a kind. *)
Ltac appends_step :=
  lazymatch goal with
  | |- appends _ _ (bind get_world _) => apply appends_get_world; intros ? ?
  | |- appends _ _ (bind _ _) => apply appends_bind; [|intros ?]
  | |- appends _ _ (ret _) => apply appends_ret
  | |- appends _ _ (raise _) => apply appends_raise
  | |- appends _ _ (lift _) => apply appends_lift
  | |- appends _ _ (torch_load _) => apply appends_torch_load
  | |- appends _ _ (hub_load_state_dict_from_url _) => apply appends_hub_load
  | |- appends _ _ (set_obj _ _) => apply appends_set_obj
  | |- appends _ _ (get_load_state_dict _) => apply appends_get_load_state_dict
  | |- appends _ _ (emit _) => apply appends_emit
  | |- appends _ _ (accelerator_print _ _) => apply appends_emit
  | |- appends _ _ (accelerator_print_exn _) => apply appends_emit
  | |- appends _ _ (call_ext _) => apply appends_call_ext
  | |- appends _ _ (torch_save _ _) => apply appends_torch_save
  | |- appends _ _ (try_except _ _) => apply appends_try_except; [|intros ?]
  | |- appends _ _ (if ?b then _ else _) => destruct b
  | |- appends _ _ (match ?x with _ => _ end) => destruct x
  end.

Section PamainProperties.
Context {T : Type} `{Externals T}.

Lemma appends_apply_load_state_dict c P lo v :
  appends c P (apply_load_state_dict lo v).
Proof.
  unfold apply_load_state_dict. destruct lo as [l o]. destruct o.
  - destruct (module_load_state_dict state v) as [state' [e|]]; repeat appends_step.
  - destruct (ext_stateful_load state v) as [st' [e|]]; repeat appends_step.
Qed.

Lemma appends_load_pretrain_model c P path model :
  (forall e, P (EvPrintExn e)) -> (forall text args, P (EvPrint text args)) ->
  appends c P (load_pretrain_model path model).
Proof.
  intros He Hp. unfold load_pretrain_model, load_pretrain_try, load_model_dict.
  repeat first [apply appends_apply_load_state_dict | appends_step]; auto.
Qed.

Lemma appends_load_param_loop c P base type entries num :
  appends c P (load_param_loop base type entries num).
Proof.
  revert num. induction entries as [|[key target] entries IH]; intros num; simpl.
  - apply appends_ret.
  - repeat first [apply appends_apply_load_state_dict | apply IH | appends_step].
Qed.

Lemma appends_load_param c P base param_dict type :
  appends c P (load_param base param_dict type).
Proof.
  unfold load_param.
  destruct param_dict; repeat first [apply appends_load_param_loop | appends_step].
Qed.

Lemma appends_resume_train_state c P model checkpoint optimizers schedulers :
  (forall e, P (EvPrintExn e)) -> (forall text args, P (EvPrint text args)) ->
  appends c P (resume_train_state model checkpoint optimizers schedulers).
Proof.
  intros He Hp.
  unfold resume_train_state, resume_try, read_epoch_checkpoint, load_optimizers_schedulers.
  repeat first [apply appends_apply_load_state_dict | apply appends_load_param
               | apply appends_load_pretrain_model | appends_step]; auto.
Qed.

(** Training and validation write no file. *)
Lemma appends_train_one_epoch c P cfg model train_loader epoch step :
  (forall ev, is_write ev = false -> P ev) ->
  appends c P (train_one_epoch cfg model train_loader epoch step).
Proof.
  intros HP. unfold train_one_epoch.
  appends_step; [appends_step; auto|]. appends_step.
  { apply appends_for_enumerate. intros i x s.
    unfold train_batch, model_call.
    repeat (appends_step; auto). }
  unfold PA_val. repeat (appends_step; auto).
Qed.

Lemma appends_val_one_epoch c P cfg model val_loader epoch step :
  (forall ev, is_write ev = false -> P ev) ->
  appends c P (val_one_epoch cfg model val_loader epoch step).
Proof.
  intros HP. unfold val_one_epoch, PA_val. repeat (appends_step; auto).
Qed.

Lemma appends_model_state_dict c (P : event T -> Prop) model :
  appends c P (model_state_dict model).
Proof.
  unfold model_state_dict. repeat appends_step.
Qed.

Lemma metadata_write_epoch_record store path epoch bs bm ts vs :
  path = store +:+ "/best/epoch.pth.tar" \/ path = store +:+ "/checkpoint/epoch.pth.tar" ->
  @metadata_write T store (EvTorchSave path (epoch_record epoch bs bm ts vs)).
Proof. intros Hp. simpl. right. split; [exact Hp|]. split; [eauto 10 | reflexivity]. Qed.

Lemma metadata_write_other store (ev : event T) :
  (forall path v, ev <> EvTorchSave path v) -> metadata_write store ev.
Proof. intros Hne. destruct ev; simpl; auto. exfalso. eapply Hne. reflexivity. Qed.

Lemma appends_epoch_body c cfg model train_loader val_loader epoch v :
  appends c (metadata_write (store_of cfg c))
    (epoch_body cfg model train_loader val_loader epoch v).
Proof.
  assert (Hnw : forall ev : event T, is_write ev = false ->
                  metadata_write (store_of cfg c) ev).
  { intros ev Hev. destruct ev; simpl; auto. discriminate. }
  unfold epoch_body.
  appends_step; [apply appends_train_one_epoch; exact Hnw|].
  appends_step; [apply appends_val_one_epoch; exact Hnw|].
  destruct a0 as [[score metrics] val_step].
  do 2 (appends_step; [appends_step|]).
  appends_step.
  { destruct a1.
    - appends_step. appends_step; [appends_step; exact I|].
      appends_step; [apply appends_model_state_dict|].
      appends_step; [appends_step; simpl; left; unfold model_store, store_of; congruence|].
      appends_step; [|appends_step].
      appends_step. apply metadata_write_epoch_record. left.
      unfold model_store, store_of. congruence.
    - appends_step. }
  destruct a2 as [best_score best_metrics].
  do 2 (appends_step; [appends_step; exact I|]).
  appends_step. appends_step; [appends_step; exact I|].
  appends_step; [|appends_step; [appends_step; exact I | appends_step]].
  appends_step. apply metadata_write_epoch_record. right.
  unfold model_store, store_of. congruence.
Qed.

Lemma appends_for_epochs c cfg model train_loader val_loader epochs v :
  appends c (metadata_write (store_of cfg c))
    (for_epochs cfg model train_loader val_loader epochs v).
Proof.
  revert v. induction epochs as [|epoch epochs IH]; intros v; simpl.
  - apply appends_ret.
  - appends_step; [apply appends_epoch_body | apply IH].
Qed.

Lemma appends_main c cfg model optimizer scheduler train_loader val_loader :
  appends c (metadata_write (store_of cfg c))
    (main cfg model optimizer scheduler train_loader val_loader).
Proof.
  assert (Hnw : forall ev : event T, is_write ev = false ->
                  metadata_write (store_of cfg c) ev).
  { intros ev Hev. destruct ev; simpl; auto. discriminate. }
  unfold main, training, validation.
  repeat first
    [ apply appends_resume_train_state; [intros; exact I | intros; exact I]
    | apply appends_load_pretrain_model; [intros; exact I | intros; exact I]
    | apply appends_for_epochs
    | apply appends_val_one_epoch; exact Hnw
    | appends_step; try exact I ].
Qed.

End PamainProperties.

(** ** A failure of the weights in [resume_train_state] *)

Lemma appends_load_optimizers_schedulers {T} `{Externals T} c (P : event T -> Prop)
    base optimizers schedulers :
  appends c P (load_optimizers_schedulers base optimizers schedulers).
Proof.
  unfold load_optimizers_schedulers.
  repeat first [apply appends_apply_load_state_dict | apply appends_load_param
               | appends_step].
Qed.

(** C1.  A failure of the weights does not reach [resume_train_state]:
    when the metadata file is read, the [try] of [load_pretrain_model]
    raises an exception [e] of class [Exception] (the file
    [pytorch_model.bin] is missing, or does not fit the model) and the
    states of the optimizers and schedulers load, [load_pretrain_model]
    prints [e] and its failure line and returns normally, and
    [resume_train_state] prints that the training state was loaded and
    returns the starting epoch, the step counters, the best score and the
    best metrics of the metadata file, not the fresh state. *)
Theorem resume_train_state_swallows_weights_failure :
  forall T (E : Externals T) (model : pyval) (checkpoint : string)
         (optimizers schedulers : pyval) (w w1 w2 w3 : world T) (meta : epoch_meta)
         (e : exn),
    read_epoch_checkpoint (checkpoint_path w checkpoint) w = (w1, Ok meta) ->
    load_pretrain_try (checkpoint_path w checkpoint +:+ "/pytorch_model.bin") model w1
    = (w2, Raise e) ->
    is_Exception e = true ->
    load_optimizers_schedulers (checkpoint_path w checkpoint) optimizers schedulers
      (logged_failure w2 e "Failed to load the training model！")
    = (w3, Ok (optimizers, schedulers)) ->
    resume_train_state model checkpoint optimizers schedulers w
    = (World (cwd w3) (heap w3) (disk w3) (web w3)
         (trace w3 ++
          [EvPrint
             "Loading training state successfully! Start training from {}, Best score: {}"
             [m_starting_epoch meta; m_best_score meta]]),
       Ok (TrainState model optimizers schedulers (m_starting_epoch meta) (m_train_step meta)
             (m_val_step meta) (m_best_score meta) (m_best_metrics meta)))
    /\ exists before after,
         trace w3 = before ++ [EvPrintExn e; EvPrint "Failed to load the training model！" []]
                    ++ after.
Proof.
  intros T E model checkpoint optimizers schedulers w w1 w2 w3 meta e
    Hread Hweights He Hopt.
  assert (load_pretrain_model (checkpoint_path w checkpoint +:+ "/pytorch_model.bin") model w1
          = (logged_failure w2 e "Failed to load the training model！", Ok model)) as Hmodel.
  { unfold load_pretrain_model.
    rewrite (try_except_caught _ _ _ _ _ Hweights He). apply handler_result. }
  split.
  - unfold resume_train_state.
    apply try_except_ok. unfold resume_try. unfold bind at 1. unfold get_world.
    rewrite (bind_ok _ _ _ _ _ Hread).
    rewrite (bind_ok _ _ _ _ _ Hmodel).
    rewrite (bind_ok _ _ _ _ _ Hopt).
    reflexivity.
  - destruct (appends_load_optimizers_schedulers
                (cwd (logged_failure w2 e "Failed to load the training model！"))
                (fun _ => True) (checkpoint_path w checkpoint) optimizers schedulers
                (logged_failure w2 e "Failed to load the training model！") eq_refl)
      as (new & Htr & _ & _).
    rewrite Hopt in Htr. simpl in Htr.
    exists (trace w2), new. rewrite Htr, <- app_assoc. reflexivity.
Qed.

(** C1, the instance of a checkpoint directory that holds the metadata,
    the optimizer and the scheduler and no [pytorch_model.bin]: the run
    prints the failure of the weights and then the success of the whole,
    and resumes at epoch 4 with the parameters the model had. *)
Lemma resume_train_state_swallows_weights_failure_witness :
  let w := sample_world disk_no_weights in
  let r := resume_train_state (PyRef 1%positive) "ckT45" (PyRef 2%positive)
             (PyRef 3%positive) w in
  r.2 = Ok (TrainState (PyRef 1%positive) (PyRef 2%positive) (PyRef 3%positive)
              (PyInt 4) (PyInt 4) (PyInt 40)
              (PyTensor (Tensor [] [FFin (1 # 2)])) (PyDict []))
  /\ r.2 <> Ok (fresh_state (PyRef 1%positive) (PyRef 2%positive) (PyRef 3%positive))
  /\ trace r.1
     = [EvPrintExn (FileNotFoundError "/w/model_store/ckT45/checkpoint/pytorch_model.bin");
        EvPrint "Failed to load the training model！" [];
        EvPrint
          "Loading training state successfully! Start training from {}, Best score: {}"
          [PyInt 4; PyTensor (Tensor [] [FFin (1 # 2)])]]
  /\ heap r.1 !! 1%positive = heap w !! 1%positive.
Proof.
  cbv zeta.
  set (w := sample_world disk_no_weights).
  set (e := FileNotFoundError "/w/model_store/ckT45/checkpoint/pytorch_model.bin").
  set (w3 := (load_optimizers_schedulers (checkpoint_path w "ckT45") (PyRef 2%positive)
                (PyRef 3%positive)
                (logged_failure w e "Failed to load the training model！")).1).
  pose proof (proj1 (resume_train_state_swallows_weights_failure Z _ (PyRef 1%positive)
                "ckT45" (PyRef 2%positive) (PyRef 3%positive) w w w w3
                (EpochMeta (PyTensor (Tensor [] [FFin (1 # 2)])) (PyDict []) (PyInt 4)
                   (PyInt 4) (PyInt 40))
                e eq_refl eq_refl eq_refl eq_refl)) as Hrun.
  rewrite Hrun. cbn [fst snd trace heap].
  split; [reflexivity|]. split; [discriminate|]. split; reflexivity.
Defined.

(** ** The training step *)

Lemma bind_inv {T A B} (m : M T A) (k : A -> M T B) (w w' : world T) b :
  bind m k w = (w', Ok b) -> exists w1 a, m w = (w1, Ok a) /\ k a w1 = (w', Ok b).
Proof.
  unfold bind. destruct (m w) as [w1 [a|e]]; [eauto | discriminate].
Qed.

Section TrainingStep.
Context {T : Type} `{Externals T}.

(** C9.  For a batch on which the model returns the tuple
    [(o1, o2, o3, o4)], the loss handed to [accelerator.backward] is the sum,
    in this order, of the cross entropy of [o1] against [y1], of [o3]
    against [y2] (logged as target_mask_loss), of [o2] against [y3]
    (logged as verb_mask_loss) and of the binary cross entropy of [o4]
    against [y4]. *)
Theorem train_batch_loss_pairing :
  forall (cfg : config) (model : pyval) (len_loader : nat) (epoch : Z) (batch_idx : nat)
         (b : batch T) (step : pyval) (w : world T) (o1 o2 o3 o4 : T),
    ext_model_call (heap w) model (b_img b) (ext_squeeze (b_txt b)) = Ok [o1; o2; o3; o4] ->
    let tool_mask_loss := ext_CrossEntropyLoss o1 (ext_float (b_y1 b)) in
    let target_mask_loss := ext_CrossEntropyLoss o3 (ext_float (b_y2 b)) in
    let verb_mask_loss := ext_CrossEntropyLoss o2 (ext_float (b_y3 b)) in
    let loss_ivt := ext_BCEWithLogitsLoss o4 (ext_float (b_y4 b)) in
    let loss := ext_add (ext_add (ext_add tool_mask_loss target_mask_loss) verb_mask_loss)
                  loss_ivt in
    exists rest,
      trace (train_batch cfg model len_loader epoch batch_idx b step w).1
      = trace w ++
        EvForward (b_img b) (ext_squeeze (b_txt b)) ::
        EvBackward loss :: EvOptimizerStep :: EvZeroGrad ::
        EvLog [("Train/Total Loss", ext_item loss);
               ("Train/tool_mask_loss", ext_item tool_mask_loss);
               ("Train/target_mask_loss", ext_item target_mask_loss);
               ("Train/verb_mask_loss", ext_item verb_mask_loss);
               ("Train/loss_ivt", ext_item loss_ivt)] step :: rest.
Proof.
  intros cfg model len_loader epoch batch_idx b step w o1 o2 o3 o4 Hcall.
  cbv zeta.
  unfold train_batch, model_call, bind, emit, call_ext, get_world, lift, accelerator_print, ret.
  simpl. rewrite Hcall. simpl.
  destruct (py_add1 step); simpl; rewrite <- !app_assoc; simpl; eexists; reflexivity.
Qed.

Lemma count_app (kind : event T -> bool) (l1 l2 : list (event T)) :
  count kind (l1 ++ l2) = count kind l1 + count kind l2.
Proof. unfold count. rewrite filter_app, length_app. reflexivity. Qed.

(** The events of the batch loop on a loader that is not empty. *)
Lemma train_batch_run cfg model len_loader epoch batch_idx b step (w w' : world T) r :
  train_batch cfg model len_loader epoch batch_idx b step w = (w', Ok r) ->
  exists o1 o2 o3 o4 log text args step',
    r = (step', Break) /\ py_add1 step = Ok step'
    /\ heap w' = ext_effect EvZeroGrad
                   (ext_effect EvOptimizerStep
                      (ext_effect (EvBackward (batch_loss b o1 o2 o3 o4)) (heap w)))
    /\ cwd w' = cwd w
    /\ trace w' = trace w ++
         [EvForward (b_img b) (ext_squeeze (b_txt b));
          EvBackward (batch_loss b o1 o2 o3 o4); EvOptimizerStep; EvZeroGrad;
          EvLog log step; EvPrint text args].
Proof.
  unfold train_batch, model_call, bind, emit, call_ext, get_world, lift, accelerator_print, ret.
  simpl. intros Hrun.
  destruct (ext_model_call _ _ _ _) as [outs|] eqn:Hcall; [|discriminate].
  destruct outs as [|o1 [|o2 [|o3 [|o4 [|]]]]]; simpl in Hrun; try discriminate.
  destruct (py_add1 step) as [step'|] eqn:Hadd; simpl in Hrun; [|discriminate].
  injection Hrun as <- <-.
  exists o1, o2, o3, o4. do 4 eexists. simpl.
  repeat split. rewrite <- !app_assoc. simpl. reflexivity.
Qed.

(** What follows the batch loop: the scheduler, and, when
    [config.trainer.val_training == True], [PA_val] on the whole train
    loader and the log of its metrics. *)
Lemma train_one_epoch_tail cfg model (train_loader : list (batch T)) epoch step
    (w1 w' : world T) step' :
  ((call_ext (EvSchedulerStep epoch) ;;;
    val_training <- lift (py_eq_True (trainer_val_training cfg)) ;;
    (if val_training then
       r <- PA_val model train_loader (PyInt (-1)) true ;;
       emit (EvLogMetrics r.1 (PyInt epoch))
     else ret tt) ;;;
    ret step) : M T pyval) w1 = (w', Ok step') ->
  step' = step
  /\ exists tail,
      trace w' = trace w1 ++ EvSchedulerStep epoch :: tail
      /\ ((py_eq_True (trainer_val_training cfg) = Ok false /\ tail = [])
          \/ (py_eq_True (trainer_val_training cfg) = Ok true
              /\ exists metrics val_step,
                  ext_PA_val (ext_effect (EvSchedulerStep epoch) (heap w1)) model
                    train_loader (PyInt (-1)) true = Ok (metrics, val_step)
                  /\ tail = [EvPAVal true (PyInt (-1)); EvLogMetrics metrics (PyInt epoch)])).
Proof.
  intros Hrun.
  apply bind_inv in Hrun as (w3 & [] & Hw3 & Hrun).
  apply bind_inv in Hrun as (w4 & vt & Hvt & Hrun).
  apply bind_inv in Hrun as (w5 & [] & Hval & Hrun).
  cbn in Hrun. injection Hrun as <- <-.
  unfold call_ext in Hw3. injection Hw3 as <-.
  unfold lift in Hvt. injection Hvt as <- Hvt.
  split; [reflexivity|].
  destruct vt.
  - apply bind_inv in Hval as (w6 & [metrics val_step] & Hpa & Hlog).
    unfold PA_val in Hpa.
    apply bind_inv in Hpa as (w7 & w7' & Hg & Hpa). injection Hg as <- <-.
    apply bind_inv in Hpa as (w8 & [] & Hc & Hpa). injection Hc as <-.
    unfold lift in Hpa. injection Hpa as <- Hpa.
    unfold emit in Hlog. injection Hlog as <-.
    eexists. simpl. rewrite <- !app_assoc. simpl. split; [reflexivity|].
    right. split; [exact Hvt|]. eauto.
  - unfold ret in Hval. injection Hval as <-.
    eexists. simpl. split; [reflexivity|]. left. auto.
Qed.

(** C8 (amended).  On a train loader that is not empty, whatever follows
    its first batch, the batch loop of [train_one_epoch] runs once: an
    epoch that completes has called the model on the first batch, run one
    backward pass and one optimizer step, then the scheduler, and returns
    the step counter plus one.  Nothing else is done when
    [config.trainer.val_training] is not [True]; when it is, the epoch
    ends by handing the whole train loader to [PA_val] and logging its
    metrics.  On an empty loader there is no pass and no optimizer step,
    and the step counter is returned as it was.  The epoch completes, with
    [n + 1] for the counter [n], when the model returns four outputs on
    the first batch and [val_training] is off. *)
Theorem train_one_epoch_first_batch_only :
  forall (cfg : config) (model : pyval) (epoch : Z) (step : pyval) (w : world T),
    (forall b rest w' step',
        train_one_epoch cfg model (b :: rest) epoch step w = (w', Ok step') ->
        py_add1 step = Ok step'
        /\ exists o1 o2 o3 o4 log text args tail,
            trace w' = trace w ++
              [EvModelTrain; EvForward (b_img b) (ext_squeeze (b_txt b));
               EvBackward (batch_loss b o1 o2 o3 o4); EvOptimizerStep; EvZeroGrad;
               EvLog log step; EvPrint text args; EvSchedulerStep epoch] ++ tail
            /\ ((py_eq_True (trainer_val_training cfg) = Ok false /\ tail = [])
                \/ (py_eq_True (trainer_val_training cfg) = Ok true
                    /\ exists heap1 metrics val_step,
                        ext_PA_val heap1 model (b :: rest) (PyInt (-1)) true
                        = Ok (metrics, val_step)
                        /\ tail = [EvPAVal true (PyInt (-1));
                                   EvLogMetrics metrics (PyInt epoch)])))
    /\ (forall w' step',
        train_one_epoch cfg model [] epoch step w = (w', Ok step') ->
        step' = step
        /\ exists tail,
            trace w' = trace w ++ [EvModelTrain; EvSchedulerStep epoch] ++ tail
            /\ ((py_eq_True (trainer_val_training cfg) = Ok false /\ tail = [])
                \/ (py_eq_True (trainer_val_training cfg) = Ok true
                    /\ exists heap1 metrics val_step,
                        ext_PA_val heap1 model [] (PyInt (-1)) true
                        = Ok (metrics, val_step)
                        /\ tail = [EvPAVal true (PyInt (-1));
                                   EvLogMetrics metrics (PyInt epoch)])))
    /\ (forall b rest n o1 o2 o3 o4,
        step = PyInt n ->
        ext_model_call (ext_effect EvModelTrain (heap w)) model (b_img b)
          (ext_squeeze (b_txt b)) = Ok [o1; o2; o3; o4] ->
        py_eq_True (trainer_val_training cfg) = Ok false ->
        (train_one_epoch cfg model (b :: rest) epoch step w).2 = Ok (PyInt (n + 1))).
Proof.
  intros cfg model epoch step w. split; [|split].
  - intros b rest w' step' Hrun. unfold train_one_epoch in Hrun.
    apply bind_inv in Hrun as (w1 & [] & Hw1 & Hrun).
    apply bind_inv in Hrun as (w2 & s2 & Hloop & Hrun).
    cbn [for_enumerate] in Hloop.
    apply bind_inv in Hloop as (w2' & r & Hbatch & Hret).
    apply train_batch_run in Hbatch
      as (o1 & o2 & o3 & o4 & log & text & args & s' & -> & Hadd & _ & _ & Htr).
    cbn in Hret. injection Hret as <- <-.
    apply train_one_epoch_tail in Hrun as (-> & tail & Htail & Hcase).
    unfold call_ext in Hw1. injection Hw1 as <-.
    split; [exact Hadd|].
    exists o1, o2, o3, o4, log, text, args, tail.
    split; [rewrite Htail, Htr; simpl; rewrite <- !app_assoc; reflexivity|].
    destruct Hcase as [Hoff | (Hon & metrics & val_step & Hpa & ->)]; [left | right]; eauto 10.
  - intros w' step' Hrun. unfold train_one_epoch in Hrun.
    apply bind_inv in Hrun as (w1 & [] & Hw1 & Hrun).
    apply bind_inv in Hrun as (w2 & s2 & Hloop & Hrun).
    cbn [for_enumerate] in Hloop. injection Hloop as <- <-.
    apply train_one_epoch_tail in Hrun as (-> & tail & Htail & Hcase).
    unfold call_ext in Hw1. injection Hw1 as <-.
    split; [reflexivity|].
    exists tail.
    split; [rewrite Htail; simpl; rewrite <- !app_assoc; reflexivity|].
    destruct Hcase as [Hoff | (Hon & metrics & val_step & Hpa & ->)]; [left | right]; eauto 10.
  - intros b rest n o1 o2 o3 o4 -> Hcall Hvt.
    unfold train_one_epoch, for_enumerate, train_batch, model_call, bind, emit, call_ext,
      get_world, lift, accelerator_print, ret.
    simpl. rewrite Hcall. simpl. rewrite Hvt. reflexivity.
Qed.

End TrainingStep.

(** C9, an instance: the integers of [sample_externals], where the model
    returns [(img, txt, img + txt, img * txt)]. *)
Lemma train_batch_loss_pairing_witness :
  exists rest,
    trace (train_batch (sample_config (PyBool true) 2) (PyRef 1%positive) 2 0 0
             (sample_batch 1) (PyInt 0) (sample_world ∅)).1
    = [EvForward 1%Z 2%Z; EvBackward 8%Z; EvOptimizerStep; EvZeroGrad;
       EvLog [("Train/Total Loss", FFin (inject_Z 8));
              ("Train/tool_mask_loss", FFin (inject_Z 0));
              ("Train/target_mask_loss", FFin (inject_Z 1));
              ("Train/verb_mask_loss", FFin (inject_Z (-1)));
              ("Train/loss_ivt", FFin (inject_Z 8))] (PyInt 0)] ++ rest.
Proof.
  exact (train_batch_loss_pairing (sample_config (PyBool true) 2) (PyRef 1%positive) 2 0 0
           (sample_batch 1) (PyInt 0) (sample_world ∅) 1%Z 2%Z 3%Z 2%Z eq_refl).
Defined.

(** C8, an instance: a loader of two batches with [val_training] off; the
    epoch returns 6 for the counter 5 and its events are those of one
    step on the first batch and of the scheduler. *)
Lemma train_one_epoch_first_batch_only_witness :
  let r := train_one_epoch (sample_config (PyBool true) 2) (PyRef 1%positive)
             [sample_batch 1; sample_batch 2] 0 (PyInt 5) (sample_world ∅) in
  r.2 = Ok (PyInt (5 + 1))
  /\ exists o1 o2 o3 o4 log text args,
      trace r.1
      = [] ++ [EvModelTrain; EvForward 1%Z 2%Z;
               EvBackward (batch_loss (sample_batch 1) o1 o2 o3 o4); EvOptimizerStep;
               EvZeroGrad; EvLog log (PyInt 5); EvPrint text args; EvSchedulerStep 0] ++ [].
Proof.
  pose proof (train_one_epoch_first_batch_only (sample_config (PyBool true) 2)
                (PyRef 1%positive) 0 (PyInt 5) (sample_world ∅)) as (Hrun & _ & Hret).
  split.
  - exact (Hret (sample_batch 1) [sample_batch 2] 5%Z 1%Z 2%Z 3%Z 2%Z
             eq_refl eq_refl eq_refl).
  - destruct (train_one_epoch (sample_config (PyBool true) 2) (PyRef 1%positive)
                [sample_batch 1; sample_batch 2] 0 (PyInt 5) (sample_world ∅))
      as [w' [step'|e]] eqn:Heq; [|vm_compute in Heq; discriminate Heq].
    destruct (Hrun _ _ _ _ Heq)
      as (_ & o1 & o2 & o3 & o4 & log & text & args & tail & Htr & Hcase).
    exists o1, o2, o3, o4, log, text, args.
    destruct Hcase as [[_ ->] | [Hvt _]]; [exact Htr | discriminate Hvt].
Defined.

(** C8 as stated fails on an empty loader: no pass and no optimizer step is
    performed, and the step counter comes back as it was. *)
Lemma train_one_epoch_empty_loader :
  let r := train_one_epoch (sample_config (PyBool true) 2) (PyRef 1%positive) []
             0 (PyInt 5) (sample_world ∅) in
  r.2 = Ok (PyInt 5)
  /\ trace r.1 = [EvModelTrain; EvSchedulerStep 0]
  /\ count is_forward (trace r.1) = 0
  /\ count is_backward (trace r.1) = 0
  /\ count is_optimizer_step (trace r.1) = 0.
Proof. cbv zeta. repeat split; vm_compute; reflexivity. Qed.

(** ** The epoch loop *)

Lemma append_inj_l (s a b : string) : s +:+ a = s +:+ b -> a = b.
Proof. induction s as [|ch s IH]; simpl; [auto|]. intros [= Heq]. auto. Qed.

Lemma flt_trans x y z : flt x y = true -> flt y z = true -> flt x z = true.
Proof.
  destruct x as [|[]|p], y as [|[]|q], z as [|[]|r]; cbn [flt]; try discriminate; auto.
  destruct (Qcompare p q) eqn:Hpq; try discriminate.
  destruct (Qcompare q r) eqn:Hqr; try discriminate.
  intros _ _. apply Qlt_alt in Hpq, Hqr.
  pose proof (Qlt_trans _ _ _ Hpq Hqr) as Hpr.
  rewrite (proj1 (Qlt_alt p r) Hpr). reflexivity.
Qed.

Lemma score_le_trans a b c : score_le a b -> score_le b c -> score_le a c.
Proof.
  intros [->|(x & y & Hx & Hy & Hxy)] [->|(y' & z & Hy' & Hz & Hyz)]; auto.
  - left. reflexivity.
  - right. eauto.
  - right. eauto.
  - right. exists x, z. rewrite Hy in Hy'. injection Hy' as <-.
    eauto using flt_trans.
Qed.

(** The comparison of the script agrees with the numbers the scores stand
    for. *)
Lemma better_score_le best score x :
  py_item best = Ok x -> py_float_lt x score = Ok true -> score_le best score.
Proof.
  intros Hitem Hlt. right.
  destruct best; try discriminate. simpl in Hitem. unfold tensor_item in Hitem.
  destruct (t_data t) as [|x0 [|]] eqn:Ht; try discriminate. injection Hitem as ->.
  exists x. destruct score; try discriminate; simpl in Hlt |- *; rewrite ?Ht.
  - injection Hlt as Hlt. eauto.
  - injection Hlt as Hlt. eauto.
  - injection Hlt as Hlt. eauto.
  - destruct (t_data t0) as [|y [|]]; try discriminate.
    simpl in Hlt. injection Hlt as Hlt. eauto.
Qed.

Lemma app_last_two {A} (l : list A) a b c d e :
  l ++ [a; b; c; d; e] = (l ++ [a; b; c]) ++ [d; e].
Proof. rewrite <- app_assoc. reflexivity. Qed.

Section EpochLoop.
Context {T : Type} `{Externals T}.

(** What training and validation leave behind: the working directory, and
    a trace longer by events that write nothing. *)
Lemma train_val_trace cfg model train_loader val_loader epoch ts vs (w w1 w2 : world T) r1 r2 :
  train_one_epoch cfg model train_loader epoch ts w = (w1, r1) ->
  val_one_epoch cfg model val_loader epoch vs w1 = (w2, r2) ->
  cwd w2 = cwd w
  /\ exists new, trace w2 = trace w ++ new /\ Forall (fun ev => is_write ev = false) new.
Proof.
  intros Ht Hv.
  destruct (appends_train_one_epoch (cwd w) (fun ev => is_write ev = false)
              cfg model train_loader epoch ts (fun _ h => h) w eq_refl)
    as (new1 & Htr1 & Hn1 & Hc1).
  rewrite Ht in Htr1, Hc1. simpl in Htr1, Hc1.
  destruct (appends_val_one_epoch (cwd w) (fun ev => is_write ev = false)
              cfg model val_loader epoch vs (fun _ h => h) w1 Hc1)
    as (new2 & Htr2 & Hn2 & Hc2).
  rewrite Hv in Htr2, Hc2. simpl in Htr2, Hc2.
  split; [exact Hc2|]. exists (new1 ++ new2).
  rewrite Htr2, Htr1, app_assoc. split; [reflexivity | apply Forall_app; auto].
Qed.

(** One completed iteration of the epoch loop, step by step. *)
Lemma epoch_body_run cfg model train_loader val_loader epoch v (w w' : world T) v' :
  epoch_body cfg model train_loader val_loader epoch v w = (w', Ok v') ->
  exists w1 w2 train_step score metrics val_step best better state_dict,
    train_one_epoch cfg model train_loader epoch (v_train_step v) w = (w1, Ok train_step)
    /\ val_one_epoch cfg model val_loader epoch (v_val_step v) w1
       = (w2, Ok (score, metrics, val_step))
    /\ py_item (v_best_score v) = Ok best
    /\ py_float_lt best score = Ok better
    /\ v' = Vars (Some epoch) train_step val_step
              (if better then score else v_best_score v)
              (if better then metrics else v_best_metrics v)
    /\ trace w' = trace w2 ++
         (if better then
            [EvSaveState (model_store cfg w +:+ "/best/new/");
             EvTorchSave (model_store cfg w +:+ "/best/new/model.pth") state_dict;
             EvTorchSave (model_store cfg w +:+ "/best/epoch.pth.tar")
               (epoch_record epoch score metrics train_step val_step)]
          else []) ++
         [EvPrint "Now best APscore: {}" [v_best_score v'];
          EvPrint "Checkout...." [];
          EvSaveState (model_store cfg w +:+ "/checkpoint");
          EvTorchSave (model_store cfg w +:+ "/checkpoint/epoch.pth.tar")
            (epoch_record epoch (v_best_score v') (v_best_metrics v') train_step val_step);
          EvPrint "Checkout Over!" []].
Proof.
  intros Hrun. unfold epoch_body in Hrun.
  apply bind_inv in Hrun as (w1 & train_step & Htrain & Hrun).
  apply bind_inv in Hrun as (w2 & [[score metrics] val_step] & Hval & Hrun).
  destruct (train_val_trace _ _ _ _ _ _ _ _ _ _ _ _ Htrain Hval) as (Hcwd & _).
  apply bind_inv in Hrun as (w3 & best & Hbest & Hrun).
  unfold lift in Hbest. injection Hbest as <- Hbest.
  apply bind_inv in Hrun as (w3 & better & Hbetter & Hrun).
  unfold lift in Hbetter. injection Hbetter as <- Hbetter.
  apply bind_inv in Hrun as (w3 & [best_score best_metrics] & Hif & Hrun).
  destruct better.
  - apply bind_inv in Hif as (w4 & w4' & Hg & Hif). injection Hg as <- <-.
    apply bind_inv in Hif as (w5 & [] & Hsave & Hif). injection Hsave as <-.
    apply bind_inv in Hif as (w6 & state_dict & Hsd & Hif).
    assert (w6 = World (cwd w2) (ext_effect (EvSaveState (model_store cfg w2 +:+ "/best/new/"))
                                   (heap w2)) (disk w2) (web w2)
                   (trace w2 ++ [EvSaveState (model_store cfg w2 +:+ "/best/new/")])) as ->.
    { unfold model_state_dict, bind, get_world in Hsd.
      destruct model; try discriminate. simpl in Hsd.
      destruct (_ !! l) as [[]|]; try discriminate. injection Hsd as <- _. reflexivity. }
    unfold bind, torch_save, ret in Hif. simpl in Hif. injection Hif as <- <- <-.
    unfold bind, accelerator_print, emit, get_world, call_ext, torch_save, ret in Hrun.
    simpl in Hrun. injection Hrun as <- <-.
    exists w1, w2, train_step, score, metrics, val_step, best, true, state_dict.
    unfold model_store. simpl. rewrite ?Hcwd, <- ?app_assoc. simpl.
    repeat split; auto.
  - unfold ret in Hif. injection Hif as <- <- <-.
    unfold bind, accelerator_print, emit, get_world, call_ext, torch_save, ret in Hrun.
    simpl in Hrun. injection Hrun as <- <-.
    exists w1, w2, train_step, score, metrics, val_step, best, false, PyNone.
    unfold model_store. simpl. rewrite ?Hcwd, <- ?app_assoc. simpl.
    repeat split; auto.
Qed.

Lemma epoch_body_score_le cfg model train_loader val_loader epoch v (w w' : world T) v' :
  epoch_body cfg model train_loader val_loader epoch v w = (w', Ok v') ->
  score_le (v_best_score v) (v_best_score v').
Proof.
  intros Hrun. apply epoch_body_run in Hrun
    as (w1 & w2 & ts & score & metrics & vs & best & better & sd
        & _ & _ & Hbest & Hlt & -> & _).
  destruct better; simpl.
  - eapply better_score_le; eauto.
  - left. reflexivity.
Qed.

Lemma for_epochs_score_le cfg model train_loader val_loader epochs v (w w' : world T) v' :
  for_epochs cfg model train_loader val_loader epochs v w = (w', Ok v') ->
  score_le (v_best_score v) (v_best_score v').
Proof.
  revert v w. induction epochs as [|epoch epochs IH]; intros v w Hrun; simpl in Hrun.
  - injection Hrun as <- <-. left. reflexivity.
  - apply bind_inv in Hrun as (w1 & v1 & Hbody & Hrest).
    eapply score_le_trans; [eapply epoch_body_score_le; eauto | eapply IH; eauto].
Qed.

(** C3.  An iteration of the epoch loop that completes compares the score
    of its validation with the best score: when the score is strictly
    above, the best score and metrics become those of the epoch and the
    three files of the best model are written; otherwise both stay as they
    are and nothing is written under [best].  Over any number of epochs
    the best score never goes down. *)
Theorem best_score_tracking :
  forall (cfg : config) (model : pyval) (train_loader val_loader : list (batch T)),
    (forall epoch v (w w' : world T) v',
        epoch_body cfg model train_loader val_loader epoch v w = (w', Ok v') ->
        exists new w1 w2 train_step score metrics val_step best,
          trace w' = trace w ++ new
          /\ train_one_epoch cfg model train_loader epoch (v_train_step v) w
             = (w1, Ok train_step)
          /\ val_one_epoch cfg model val_loader epoch (v_val_step v) w1
             = (w2, Ok (score, metrics, val_step))
          /\ py_item (v_best_score v) = Ok best
          /\ ((py_float_lt best score = Ok true
               /\ v_best_score v' = score /\ v_best_metrics v' = metrics
               /\ In (EvSaveState (model_store cfg w +:+ "/best/new/")) new
               /\ (exists state_dict,
                      In (EvTorchSave (model_store cfg w +:+ "/best/new/model.pth") state_dict)
                         new)
               /\ In (EvTorchSave (model_store cfg w +:+ "/best/epoch.pth.tar")
                        (epoch_record epoch score metrics train_step val_step)) new)
              \/ (py_float_lt best score = Ok false
                  /\ v_best_score v' = v_best_score v
                  /\ v_best_metrics v' = v_best_metrics v
                  /\ Forall (fun ev => ~ best_write (model_store cfg w) ev) new)))
    /\ (forall epochs v (w w' : world T) v',
        for_epochs cfg model train_loader val_loader epochs v w = (w', Ok v') ->
        score_le (v_best_score v) (v_best_score v')).
Proof.
  intros cfg model train_loader val_loader. split.
  - intros epoch v w w' v' Hrun.
    apply epoch_body_run in Hrun
      as (w1 & w2 & ts & score & metrics & vs & best & better & sd
          & Htrain & Hval & Hbest & Hlt & -> & Htr).
    destruct (train_val_trace _ _ _ _ _ _ _ _ _ _ _ _ Htrain Hval)
      as (Hcwd & new0 & Htr0 & Hnw).
    rewrite Htr0, <- app_assoc in Htr.
    eexists. exists w1, w2, ts, score, metrics, vs, best.
    split; [exact Htr|]. do 3 (split; [assumption|]).
    destruct better; [left | right]; simpl.
    + split; [assumption|]. do 2 (split; [reflexivity|]).
      split; [|split; [exists sd|]]; apply in_or_app; right; simpl; auto 10.
    + split; [assumption|]. do 2 (split; [reflexivity|]).
      apply Forall_app. split.
      * eapply Forall_impl; [exact Hnw|]. intros ev Hev.
        destruct ev; simpl; auto; discriminate.
      * repeat constructor; simpl; auto.
        -- intros Heq. apply append_inj_l in Heq. discriminate.
        -- intros [Heq|Heq]; apply append_inj_l in Heq; discriminate.
  - intros epochs v w w' v'. apply for_epochs_score_le.
Qed.

(** C7.  Whatever the script does from a world [w], each [torch.save] it
    performs either stores the state dict of the best model, or stores, in
    one of the two files [epoch.pth.tar], a dictionary of exactly the five
    entries epoch, best_score, best_metrics, train_step and val_step, the
    epoch an integer.  In an iteration of the epoch loop that completes,
    every write of an [epoch.pth.tar], the one of the checkpoint, which is
    always made, and the one of the best model, holds under these five
    keys the index of the epoch and the best score, the best metrics and
    the two step counters the iteration ends with. *)
Theorem epoch_metadata_five_fields :
  forall (cfg : config) (model optimizer scheduler : pyval)
         (train_loader val_loader : list (batch T)) (w : world T),
    (exists new,
        trace (main cfg model optimizer scheduler train_loader val_loader w).1
        = trace w ++ new
        /\ Forall (metadata_write (model_store cfg w)) new)
    /\ (forall epoch v w' v',
        epoch_body cfg model train_loader val_loader epoch v w = (w', Ok v') ->
        let record :=
          PyDict [("epoch", PyInt epoch); ("best_score", v_best_score v');
                  ("best_metrics", v_best_metrics v'); ("train_step", v_train_step v');
                  ("val_step", v_val_step v')] in
        v_epoch v' = Some epoch
        /\ dict_keys record = Some ["epoch"; "best_score"; "best_metrics"; "train_step";
                                     "val_step"]
        /\ py_getitem record "epoch" = Ok (PyInt epoch)
        /\ py_getitem record "best_score" = Ok (v_best_score v')
        /\ py_getitem record "best_metrics" = Ok (v_best_metrics v')
        /\ py_getitem record "train_step" = Ok (v_train_step v')
        /\ py_getitem record "val_step" = Ok (v_val_step v')
        /\ exists new,
            trace w' = trace w ++ new
            /\ (exists before,
                   new = before ++
                     [EvTorchSave (model_store cfg w +:+ "/checkpoint/epoch.pth.tar") record;
                      EvPrint "Checkout Over!" []])
            /\ Forall (fun ev =>
                         forall path value,
                           ev = EvTorchSave path value ->
                           path = model_store cfg w +:+ "/best/new/model.pth"
                           \/ ((path = model_store cfg w +:+ "/best/epoch.pth.tar"
                                \/ path = model_store cfg w +:+ "/checkpoint/epoch.pth.tar")
                               /\ value = record)) new).
Proof.
  intros cfg model optimizer scheduler train_loader val_loader w. split.
  - destruct (appends_main (cwd w) cfg model optimizer scheduler train_loader val_loader
                w eq_refl) as (new & Htr & HP & _).
    exists new. split; [exact Htr | exact HP].
  - intros epoch v w' v' Hrun.
    apply epoch_body_run in Hrun
      as (w1 & w2 & ts & score & metrics & vs & best & better & sd
          & Htrain & Hval & _ & _ & -> & Htr).
    destruct (train_val_trace _ _ _ _ _ _ _ _ _ _ _ _ Htrain Hval)
      as (_ & new0 & Htr0 & Hnw).
    cbv zeta. cbn [v_epoch v_best_score v_best_metrics v_train_step v_val_step] in Htr |- *.
    split; [reflexivity|]. split; [reflexivity|].
    do 5 (split; [reflexivity|]).
    rewrite Htr0, <- app_assoc in Htr.
    eexists. split; [exact Htr|]. split.
    + eexists. rewrite !app_assoc. apply app_last_two.
    + apply Forall_app. split.
      * eapply Forall_impl; [exact Hnw|].
        intros ev Hev path value ->. discriminate Hev.
      * apply Forall_app. split.
        -- destruct better; [|constructor].
           apply Forall_cons. split; [intros path value [=]|].
           apply Forall_cons. split; [intros path value [= <- <-]; left; reflexivity|].
           apply Forall_cons. split; [|constructor].
           intros path value [= <- <-]. right. split; [left; reflexivity | reflexivity].
        -- apply Forall_cons. split; [intros path value [=]|].
           apply Forall_cons. split; [intros path value [=]|].
           apply Forall_cons. split; [intros path value [=]|].
           apply Forall_cons. split; [|apply Forall_cons; split; [intros ? ? [=]|constructor]].
           intros path value [= <- <-]. right. split; [right; reflexivity | reflexivity].
Qed.

(** ** The end of the script *)

(** Without training, [epoch] has no value when the validation asks for
    it. *)
Lemma validation_without_epoch cfg model val_loader ts vs bs bm (w : world T) :
  py_ne_True (trainer_is_train cfg) = Ok true ->
  validation cfg model val_loader (Vars None ts vs bs bm) w = (w, Raise (NameError "epoch")).
Proof. intros Hne. unfold validation, bind, lift. rewrite Hne. reflexivity. Qed.

Lemma training_skipped cfg model train_loader val_loader start v (w : world T) :
  py_eq_True (trainer_is_train cfg) = Ok false ->
  training cfg model train_loader val_loader start v w = (w, Ok v).
Proof. intros Heq. unfold training, bind, lift. rewrite Heq. reflexivity. Qed.

Lemma bind_always_raises {A B} (m : M T A) (k : A -> M T B) :
  (forall a w, exists e, (k a w).2 = Raise e) ->
  forall w, exists e, (bind m k w).2 = Raise e.
Proof. intros Hk w. unfold bind. destruct (m w) as [w1 [a|e]]; simpl; eauto. Qed.

(** The script never runs off its end: it leaves with an exception, and
    [sys.exit(1)] is its last statement. *)
Lemma main_raises cfg model optimizer scheduler train_loader val_loader (w : world T) :
  exists e, (main cfg model optimizer scheduler train_loader val_loader w).2 = Raise e.
Proof.
  revert w. unfold main.
  repeat (apply bind_always_raises; intros ?).
  intros w. exists (SystemExit 1). reflexivity.
Qed.

(** A validation-only run dies on the unbound name [epoch]: with
    [is_train] false and nothing to resume, the script prepares the objects
    and raises [NameError] before it reaches [sys.exit(1)]. *)
Theorem main_validation_only_name_error :
  forall (cfg : config) (model optimizer scheduler : pyval)
         (train_loader val_loader : list (batch T)) (w : world T),
    trainer_is_train cfg = PyBool false ->
    trainer_resume_train cfg = PyBool false ->
    trainer_resume_test cfg = PyBool false ->
    main cfg model optimizer scheduler train_loader val_loader w
    = (World (cwd w) (ext_effect EvPrepare (heap w)) (disk w) (web w) (trace w ++ [EvPrepare]),
       Raise (NameError "epoch")).
Proof.
  intros cfg model optimizer scheduler train_loader val_loader w Ht Hr1 Hr2.
  unfold main, training, validation, bind, lift, ret, call_ext, raise.
  rewrite Ht, Hr1, Hr2. reflexivity.
Qed.

End EpochLoop.

(* ===================================================================== *)
(** * Shapes through EndoForm *)
(* ===================================================================== *)

Module ShapeFacts.
Import Shape.

Lemma numel_app s1 s2 : numel (s1 ++ s2) = numel s1 * numel s2.
Proof. induction s1 as [|a s1 IH]; simpl; [lia|]. rewrite IH. lia. Qed.

Lemma known_some dims : known (map Some dims) = numel dims.
Proof. induction dims as [|a dims IH]; simpl; [reflexivity|]. rewrite IH. reflexivity. Qed.

Lemma holes_some dims : holes (map Some dims) = 0.
Proof. induction dims as [|a dims IH]; [reflexivity|]. exact IH. Qed.

Lemma known_hole pre post :
  known (map Some pre ++ None :: map Some post) = numel pre * numel post.
Proof.
  induction pre as [|a pre IH]; simpl.
  - rewrite known_some. lia.
  - rewrite IH. lia.
Qed.

Lemma holes_hole pre post : holes (map Some pre ++ None :: map Some post) = 1.
Proof.
  induction pre as [|a pre IH]; simpl.
  - unfold holes. simpl. f_equal. apply holes_some.
  - exact IH.
Qed.

Lemma map_default_some (d : nat) dims : map (fun x => default d x) (map Some dims) = dims.
Proof. induction dims as [|a dims IH]; simpl; [reflexivity|]. rewrite IH. reflexivity. Qed.

(** A [reshape] without [-1] needs the same number of elements. *)
Lemma reshape_exact dims s :
  numel s = numel dims -> reshape (map Some dims) s = Some dims.
Proof.
  intros Hn. unfold reshape. rewrite holes_some, known_some, Hn, Nat.eqb_refl. simpl.
  rewrite map_default_some. reflexivity.
Qed.

(** A [reshape] with one [-1]: the given sizes are positive and divide the
    number of elements. *)
Lemma reshape_hole pre post d s :
  0 < numel pre * numel post ->
  numel s = d * (numel pre * numel post) ->
  reshape (map Some pre ++ None :: map Some post) s = Some (pre ++ d :: post).
Proof.
  intros Hpos Hn. unfold reshape. rewrite holes_hole, known_hole, Hn.
  rewrite Nat.Div0.mod_mul, Nat.div_mul by lia.
  apply Nat.ltb_lt in Hpos. rewrite Hpos. simpl.
  rewrite map_app. simpl. rewrite !map_default_some. reflexivity.
Qed.

Lemma conv_out_ok n k stride pad :
  k <= n + 2 * pad -> 0 < n -> conv_out n k stride pad = Some ((n + 2 * pad - k) / stride + 1).
Proof.
  intros Hk Hn. unfold conv_out.
  apply Nat.leb_le in Hk. apply Nat.ltb_lt in Hn. rewrite Hk, Hn. reflexivity.
Qed.

Lemma Conv2d_ok in_c out_c k stride pad b h w :
  k <= h + 2 * pad -> k <= w + 2 * pad -> 0 < h -> 0 < w ->
  Conv2d in_c out_c k stride pad [b; in_c; h; w]
  = Some [b; out_c; (h + 2 * pad - k) / stride + 1; (w + 2 * pad - k) / stride + 1].
Proof.
  intros. unfold Conv2d. rewrite Nat.eqb_refl. simpl.
  rewrite !conv_out_ok by assumption. reflexivity.
Qed.

(** A convolution that keeps the size: kernel 1, or kernel 3 with padding 1. *)
Lemma Conv2d_same1 in_c out_c b h w :
  0 < h -> 0 < w -> Conv2d in_c out_c 1 1 0 [b; in_c; h; w] = Some [b; out_c; h; w].
Proof.
  intros. rewrite Conv2d_ok by lia. repeat f_equal; rewrite Nat.div_1_r; lia.
Qed.

Lemma Conv2d_same3 in_c out_c b h w :
  0 < h -> 0 < w -> Conv2d in_c out_c 3 1 1 [b; in_c; h; w] = Some [b; out_c; h; w].
Proof.
  intros. rewrite Conv2d_ok by lia. repeat f_equal; rewrite Nat.div_1_r; lia.
Qed.

Lemma Linear3_ok i o a b : Linear i o [a; b; i] = Some [a; b; o].
Proof. unfold Linear. simpl. rewrite Nat.eqb_refl. reflexivity. Qed.

Lemma Linear2_ok i o a : Linear i o [a; i] = Some [a; o].
Proof. unfold Linear. simpl. rewrite Nat.eqb_refl. reflexivity. Qed.

Lemma LayerNorm3_ok d a b : LayerNorm d [a; b; d] = Some [a; b; d].
Proof. unfold LayerNorm. simpl. rewrite Nat.eqb_refl. reflexivity. Qed.

Lemma broadcast_rev_same r : broadcast_rev r r = Some r.
Proof.
  induction r as [|a r IH]; [reflexivity|]. simpl. rewrite IH. simpl.
  rewrite Nat.eqb_refl. reflexivity.
Qed.

Lemma broadcast_same s : broadcast s s = Some s.
Proof. unfold broadcast. rewrite broadcast_rev_same. simpl. rewrite reverse_involutive. reflexivity. Qed.

Lemma matmul4_ok b h n m p : matmul [b; h; n; m] [b; h; m; p] = Some [b; h; n; p].
Proof.
  unfold matmul. simpl. rewrite Nat.eqb_refl. simpl. rewrite !Nat.eqb_refl. reflexivity.
Qed.

Lemma permute_021 a b c : permute [0; 2; 1] [a; b; c] = Some [a; c; b].
Proof. reflexivity. Qed.
Lemma permute_0213 a b c d : permute [0; 2; 1; 3] [a; b; c; d] = Some [a; c; b; d].
Proof. reflexivity. Qed.
Lemma permute_0312 a b c d : permute [0; 3; 1; 2] [a; b; c; d] = Some [a; d; b; c].
Proof. reflexivity. Qed.
Lemma permute_0231 a b c d : permute [0; 2; 3; 1] [a; b; c; d] = Some [a; c; d; b].
Proof. reflexivity. Qed.
Lemma permute_20314 a b c d e : permute [2; 0; 3; 1; 4] [a; b; c; d; e] = Some [c; a; d; b; e].
Proof. reflexivity. Qed.


Lemma bind_eq {A B} (m : option A) (f : A -> option B) (x : A) :
  m = Some x -> m ≫= f = f x.
Proof. intros ->. reflexivity. Qed.

(** One layer of a forward pass: the layer at the head of the goal returns
    what its lemma says; go on with the rest. *)
Ltac layer L := etransitivity; [apply bind_eq; apply L | cbv beta].
Ltac layer_by L tac := etransitivity; [apply bind_eq; apply L; tac | cbv beta].
Ltac computed := etransitivity; [apply bind_eq; reflexivity | cbv beta].

Lemma div_exact heads d : 0 < heads -> heads * d / heads = d.
Proof. intros. rewrite Nat.mul_comm. apply Nat.div_mul. lia. Qed.

Lemma Attention_ok dim heads d sr B H W :
  dim = heads * d -> 0 < B -> 0 < heads -> 0 < d -> 0 < H -> 0 < W ->
  (1 < sr -> sr <= H /\ sr <= W) ->
  Attention dim heads sr [B; H * W; dim] H W = Some [B; H * W; dim].
Proof.
  intros Hdim HB Hh Hd HH HW Hsr. unfold Attention.
  assert (Hdiv : dim / heads = d) by (subst dim; apply div_exact; assumption).
  rewrite Hdiv.
  layer Linear3_ok.
  layer_by (reshape_exact [B; H * W; heads; d]) ltac:(simpl; nia).
  layer permute_0213.
  assert (Hkv : forall n, (kv ← Linear dim (dim * 2) [B; n; dim];
                   kv ← reshape [Some B; None; Some 2; Some heads; Some d] kv;
                   permute [2; 0; 3; 1; 4] kv) = Some [2; B; heads; n; d]).
  { intros n. layer Linear3_ok.
    layer_by (reshape_hole [B] [2; heads; d] n) ltac:(simpl; nia).
    reflexivity. }
  assert (Hrest : forall n, (kT ← transpose 2 3 [B; heads; n; d];
                     attn ← matmul [B; heads; H * W; d] kT;
                     x ← matmul attn [B; heads; n; d];
                     x ← transpose 1 2 x;
                     x ← reshape [Some B; Some (H * W); Some dim] x;
                     Linear dim dim x) = Some [B; H * W; dim]).
  { intros n. computed. layer matmul4_ok. layer matmul4_ok. computed.
    layer_by (reshape_exact [B; H * W; dim]) ltac:(simpl; nia).
    apply Linear3_ok. }
  destruct (Nat.ltb 1 sr) eqn:Hlt.
  - apply Nat.ltb_lt in Hlt. destruct (Hsr Hlt) as [HsH HsW].
    etransitivity.
    { apply bind_eq.
      layer permute_021.
      layer_by (reshape_exact [B; dim; H; W]) ltac:(simpl; nia).
      layer_by Conv2d_ok lia.
      layer_by (reshape_hole [B; dim] []
                  (((H + 2 * 0 - sr) / sr + 1) * ((W + 2 * 0 - sr) / sr + 1)))
               ltac:(simpl; nia).
      simpl app. layer permute_021. layer LayerNorm3_ok.
      apply Hkv. }
    cbv beta iota. apply Hrest.
  - etransitivity; [apply bind_eq; apply Hkv | cbv beta iota; apply Hrest].
Qed.


Lemma DWConv_ok dim B H W :
  0 < H -> 0 < W -> DWConv dim [B; H * W; dim] H W = Some [B; H * W; dim].
Proof.
  intros HH HW. unfold DWConv.
  computed.
  layer_by (reshape_exact [B; dim; H; W]) ltac:(simpl; nia).
  layer_by Conv2d_same3 lia.
  computed. simpl. rewrite Nat.mul_1_r. reflexivity.
Qed.

Lemma Mlp_ok dim hidden B H W :
  0 < H -> 0 < W -> Mlp dim hidden [B; H * W; dim] H W = Some [B; H * W; dim].
Proof.
  intros HH HW. unfold Mlp.
  layer Linear3_ok. layer_by DWConv_ok lia. apply Linear3_ok.
Qed.

Lemma Block_ok dim heads d mlp_ratio sr B H W :
  dim = heads * d -> 0 < B -> 0 < heads -> 0 < d -> 0 < H -> 0 < W ->
  (1 < sr -> sr <= H /\ sr <= W) ->
  Block dim heads mlp_ratio sr H W [B; H * W; dim] = Some [B; H * W; dim].
Proof.
  intros. unfold Block.
  layer LayerNorm3_ok. layer_by (Attention_ok dim heads d) assumption.
  layer broadcast_same. layer LayerNorm3_ok. layer_by Mlp_ok lia.
  apply broadcast_same.
Qed.

Lemma iterate_fixed n f s : f s = Some s -> iterate n f s = Some s.
Proof. intros Hf. induction n as [|n IH]; simpl; [reflexivity|]. rewrite Hf. exact IH. Qed.

Lemma OverlapPatchEmbed_ok p stride in_chans dim B H W :
  p <= H + 2 * (p / 2) -> p <= W + 2 * (p / 2) -> 0 < H -> 0 < W ->
  OverlapPatchEmbed p stride in_chans dim [B; in_chans; H; W]
  = Some ([B; ((H + 2 * (p / 2) - p) / stride + 1) * ((W + 2 * (p / 2) - p) / stride + 1); dim],
          (H + 2 * (p / 2) - p) / stride + 1, (W + 2 * (p / 2) - p) / stride + 1).
Proof.
  intros. unfold OverlapPatchEmbed.
  layer_by Conv2d_ok lia. cbv iota.
  computed. computed. simpl numel. rewrite Nat.mul_1_r.
  layer LayerNorm3_ok. reflexivity.
Qed.

Lemma stage_ok p stride in_chans dim heads d mlp_ratio sr depth B H W :
  dim = heads * d -> 0 < B -> 0 < heads -> 0 < d ->
  p <= H + 2 * (p / 2) -> p <= W + 2 * (p / 2) -> 0 < H -> 0 < W ->
  (1 < sr -> sr <= (H + 2 * (p / 2) - p) / stride + 1
             /\ sr <= (W + 2 * (p / 2) - p) / stride + 1) ->
  stage p stride in_chans dim heads mlp_ratio sr depth B [B; in_chans; H; W]
  = Some [B; dim; (H + 2 * (p / 2) - p) / stride + 1; (W + 2 * (p / 2) - p) / stride + 1].
Proof.
  intros Hdim HB Hh Hd HpH HpW HH HW Hsr. unfold stage.
  layer_by OverlapPatchEmbed_ok lia. cbv iota.
  set (H' := (H + 2 * (p / 2) - p) / stride + 1) in *.
  set (W' := (W + 2 * (p / 2) - p) / stride + 1) in *.
  assert (0 < H') by (unfold H'; lia). assert (0 < W') by (unfold W'; lia).
  layer_by iterate_fixed ltac:(apply (Block_ok dim heads d); assumption).
  layer LayerNorm3_ok.
  layer_by (reshape_hole [B; H'; W'] [] dim) ltac:(simpl; nia).
  simpl app. apply permute_0312.
Qed.

Lemma pvt_v2_b2_ok B H W :
  0 < B -> 29 <= H -> 29 <= W ->
  pvt_v2_b2 3 (64, 128, 320, 512) [B; 3; H; W]
  = Some ([B; 64; down 7 4 H; down 7 4 W],
          [B; 128; down 3 2 (down 7 4 H); down 3 2 (down 7 4 W)],
          [B; 320; down 3 2 (down 3 2 (down 7 4 H)); down 3 2 (down 3 2 (down 7 4 W))],
          [B; 512; down 3 2 (down 3 2 (down 3 2 (down 7 4 H)));
                   down 3 2 (down 3 2 (down 3 2 (down 7 4 W)))]).
Proof.
  intros HB HH HW. unfold pvt_v2_b2. computed.
  unfold down.
  layer_by (stage_ok 7 4 3 64 1 64) ltac:(lia).
  layer_by (stage_ok 3 2 64 128 2 64) ltac:(lia).
  layer_by (stage_ok 3 2 128 320 5 64) ltac:(lia).
  layer_by (stage_ok 3 2 320 512 8 64) ltac:(lia).
  reflexivity.
Qed.


(** ** The heads *)

Lemma BatchNorm2d_ok training c b h w :
  b * (h * w) <> 1 -> BatchNorm2d training c [b; c; h; w] = Some [b; c; h; w].
Proof.
  intros Hn. unfold BatchNorm2d. rewrite Nat.eqb_refl.
  apply Nat.eqb_neq in Hn. rewrite Hn, andb_false_r. reflexivity.
Qed.

Lemma GroupNorm_ok groups c b h w :
  b * c / groups * (h * w) <> 1 -> GroupNorm groups c [b; c; h; w] = Some [b; c; h; w].
Proof.
  intros Hn. unfold GroupNorm. rewrite Nat.eqb_refl. simpl numel. rewrite Nat.mul_1_r.
  apply Nat.eqb_neq in Hn. rewrite Hn. reflexivity.
Qed.

Lemma BasicConv2d_same1 training in_planes out_planes b h w :
  0 < h -> 0 < w -> b * (h * w) <> 1 ->
  BasicConv2d training in_planes out_planes 1 1 0 [b; in_planes; h; w]
  = Some [b; out_planes; h; w].
Proof.
  intros. unfold BasicConv2d. layer_by Conv2d_same1 lia. apply BatchNorm2d_ok. assumption.
Qed.

Lemma BasicConv2d_same3 training in_planes out_planes b h w :
  0 < h -> 0 < w -> b * (h * w) <> 1 ->
  BasicConv2d training in_planes out_planes 3 1 1 [b; in_planes; h; w]
  = Some [b; out_planes; h; w].
Proof.
  intros. unfold BasicConv2d. layer_by Conv2d_same3 lia. apply BatchNorm2d_ok. assumption.
Qed.

Lemma MLP_ok dim ratio b h w :
  0 < h -> 0 < w -> MLP dim ratio [b; dim; h; w] = Some [b; dim; h; w].
Proof. intros. unfold MLP. layer_by Conv2d_same1 lia. apply Conv2d_same1; lia. Qed.

Lemma GobleAttention_ok training in_dim b h w :
  0 < b -> 0 < h -> 0 < w -> b * (h * w) <> 1 ->
  GobleAttention training in_dim 32 3 4 [b; in_dim; h; w] = Some [b; 32; h; w].
Proof.
  intros Hb Hh Hw Hn. unfold GobleAttention.
  layer_by Conv2d_same3 lia.
  layer_by GroupNorm_ok ltac:(change (32 / 2) with 16; nia).
  change ((3 - 1) / 2) with 1.
  layer_by Conv2d_same3 lia. layer_by BatchNorm2d_ok assumption.
  layer_by Conv2d_same1 lia. layer_by BatchNorm2d_ok assumption.
  layer broadcast_same. layer broadcast_same. layer_by MLP_ok lia.
  apply broadcast_same.
Qed.

Lemma LocalAttention_ok training in_dim out_dim b h w :
  0 < h -> 0 < w -> b * (h * w) <> 1 ->
  LocalAttention training in_dim out_dim [b; in_dim; h; w] = Some [b; out_dim; h; w].
Proof.
  intros. unfold LocalAttention.
  layer_by BatchNorm2d_ok assumption. layer_by Conv2d_same1 lia.
  layer_by Conv2d_same3 lia. layer_by BatchNorm2d_ok assumption.
  apply Conv2d_same1; lia.
Qed.

Lemma eqb_refl s : eqb s s = true.
Proof. induction s as [|a s IH]; [reflexivity|]. simpl. rewrite Nat.eqb_refl. exact IH. Qed.

Lemma cat1_ok b c1 c2 r : cat1 (b :: c1 :: r) (b :: c2 :: r) = Some (b :: (c1 + c2) :: r).
Proof. unfold cat1. rewrite Nat.eqb_refl, eqb_refl. reflexivity. Qed.

Lemma chunk2_even b c h w :
  0 < c -> chunk2 [b; 2 * c; h; w] = Some ([b; c; h; w], [b; c; h; w]).
Proof.
  intros Hc. unfold chunk2.
  assert (Hle : Nat.leb 2 (2 * c) = true) by (apply Nat.leb_le; lia).
  rewrite Hle. simpl check. cbn [mbind option_bind].
  replace ((2 * c + 1) / 2) with c by lia.
  replace (2 * c - c) with c by lia. reflexivity.
Qed.

Lemma AttentionBlock_ok training c b h w :
  0 < c -> 0 < b -> 0 < h -> 0 < w -> b * (h * w) <> 1 ->
  AttentionBlock training (2 * c) 32 3 4 [b; 2 * c; h; w] = Some [b; 32; h; w].
Proof.
  intros Hc Hb Hh Hw Hn. unfold AttentionBlock.
  layer_by chunk2_even assumption. cbv iota.
  replace (2 * c / 2) with c by lia.
  layer_by GobleAttention_ok assumption.
  layer_by LocalAttention_ok assumption.
  layer cat1_ok.
  apply (BasicConv2d_same1 training (32 * 2) 32); assumption.
Qed.

Lemma interpolate_ok b c h w h' w' :
  0 < h -> 0 < w -> 0 < h' -> 0 < w' ->
  interpolate [h'; w'] [b; c; h; w] = Some [b; c; h'; w'].
Proof.
  intros Hh Hw Hh' Hw'. unfold interpolate.
  apply Nat.ltb_lt in Hh, Hw, Hh', Hw'. rewrite Hh, Hw, Hh', Hw'. reflexivity.
Qed.

Lemma adaptive_avg_pool2d_1_ok b c h w :
  0 < c -> 0 < h -> 0 < w -> adaptive_avg_pool2d_1 [b; c; h; w] = Some [b; c; 1; 1].
Proof.
  intros Hc Hh Hw. unfold adaptive_avg_pool2d_1.
  apply Nat.ltb_lt in Hc, Hh, Hw. rewrite Hc, Hh, Hw. reflexivity.
Qed.

Lemma VerbClassifier_ok c out b h w :
  0 < b -> 0 < c -> 0 < h -> 0 < w ->
  VerbClassifier c out [b; c; h; w] = Some [b; out].
Proof.
  intros. unfold VerbClassifier.
  layer_by adaptive_avg_pool2d_1_ok assumption. computed.
  layer_by (reshape_hole [b] [] c) ltac:(simpl; nia).
  apply Linear2_ok.
Qed.

Lemma broadcast_scalar b c h w : broadcast [1] [b; c; h; w] = Some [b; c; h; w].
Proof.
  unfold broadcast. destruct w as [|[|w]]; reflexivity.
Qed.

Lemma CrossAttention_ok b h w :
  0 < h -> 0 < w ->
  CrossAttention 128 [b; 128; h; w] [b; 128; h; w] = Some [b; 128; h; w].
Proof.
  intros. unfold CrossAttention.
  layer_by Conv2d_same1 lia. layer_by Conv2d_same1 lia. layer_by Conv2d_same1 lia.
  layer permute_0231. layer permute_0231. computed.
  layer matmul4_ok. layer permute_0231. layer matmul4_ok. layer permute_0312.
  layer broadcast_scalar. apply broadcast_same.
Qed.

Lemma MaxPool2d_2_ok b c h w :
  2 <= h -> 2 <= w -> MaxPool2d_2 [b; c; h; w] = Some [b; c; (h - 2) / 2 + 1; (w - 2) / 2 + 1].
Proof.
  intros Hh Hw. unfold MaxPool2d_2.
  apply Nat.leb_le in Hh, Hw. rewrite Hh, Hw. reflexivity.
Qed.

Lemma shared_conv_ok in_c b h w :
  11 <= h -> 11 <= w ->
  shared_conv in_c [b; in_c; h; w] = Some [b; 128; shared_size h; shared_size w].
Proof.
  intros. unfold shared_conv, shared_size, pooled.
  layer_by Conv2d_ok lia. layer_by MaxPool2d_2_ok lia.
  layer_by Conv2d_ok lia. apply MaxPool2d_2_ok; lia.
Qed.

Lemma SiameseNetworkWithCrossAttention_ok in_c d1 d2 b h w :
  0 < b -> 11 <= h -> 11 <= w ->
  SiameseNetworkWithCrossAttention in_c d1 d2 [b; in_c; h; w] [b; in_c; h; w]
  = Some ([b; d1], [b; d2]).
Proof.
  intros Hb Hh Hw. unfold SiameseNetworkWithCrossAttention.
  layer_by shared_conv_ok lia. layer_by shared_conv_ok lia.
  assert (0 < shared_size h) by (unfold shared_size, pooled; lia).
  assert (0 < shared_size w) by (unfold shared_size, pooled; lia).
  layer_by CrossAttention_ok lia. layer_by CrossAttention_ok lia.
  layer_by adaptive_avg_pool2d_1_ok lia. layer_by adaptive_avg_pool2d_1_ok lia.
  layer_by (reshape_hole [] [128] b) ltac:(simpl; lia).
  simpl app. layer Linear2_ok.
  layer_by (reshape_hole [] [128] b) ltac:(simpl; lia).
  simpl app. layer Linear2_ok. reflexivity.
Qed.

Lemma AttentionClassifier_ok b :
  0 < b ->
  AttentionClassifier (6 * 10) (15 * 10) (10 * 6) 10 100 [b; 6] [b; 15] [b; 10]
  = Some [b; 100].
Proof.
  intros Hb. unfold AttentionClassifier.
  computed. computed. computed. computed.
  layer_by (reshape_hole [] [6 * 10] b) ltac:(simpl; lia).
  computed.
  layer_by (reshape_hole [] [15 * 10] b) ltac:(simpl; lia).
  computed.
  layer_by (reshape_hole [] [10 * 6] b) ltac:(simpl; lia).
  simpl app. computed.
  layer Linear2_ok.
  layer_by (reshape_hole [b] [10; 15] 1) ltac:(simpl; lia).
  simpl app. computed.
  layer Linear2_ok.
  layer_by (reshape_hole [b] [10; 15] 1) ltac:(simpl; lia).
  simpl app. computed.
  layer Linear2_ok.
  layer_by (reshape_hole [b] [10; 15] 1) ltac:(simpl; lia).
  simpl app. computed. computed.
  layer matmul4_ok. layer matmul4_ok. computed.
  layer_by (reshape_hole [b] [150] 1) ltac:(simpl; lia).
  simpl app. computed.
  apply Linear2_ok.
Qed.


(** C2 (amended).  On every input of shape (B, 3, H, W) with B >= 1 and
    H, W >= 41, in training and in evaluation mode, the forward pass of
    [EndoForm] with its default arguments returns four tensors, in the order
    instrument, verb, target, triplet, of shapes (B, 6), (B, 10), (B, 15)
    and (B, 100). *)
Theorem EndoForm_forward_shapes :
  forall (training : bool) (B H W : nat),
    0 < B -> 41 <= H -> 41 <= W ->
    EndoForm_forward EndoForm_defaults training [B; 3; H; W]
    = Some ([B; 6], [B; 10], [B; 15], [B; 100]).
Proof.
  intros training B H W HB HH HW.
  unfold EndoForm_forward, EndoForm_defaults.
  cbn [dims in_channels total_channels i_channels t_channels v_channels num_heads out_dim
       kernel_size mlp_ratio].
  layer_by pvt_v2_b2_ok lia. cbv iota.
  set (h1 := down 7 4 H). set (w1 := down 7 4 W).
  set (h2 := down 3 2 h1). set (w2 := down 3 2 w1).
  set (h3 := down 3 2 h2). set (w3 := down 3 2 w2).
  set (h4 := down 3 2 h3). set (w4 := down 3 2 w3).
  assert (11 <= h1 /\ 11 <= w1) as [Hh1 Hw1] by (unfold h1, w1, down; lia).
  assert (6 <= h2 /\ 6 <= w2) as [Hh2 Hw2] by (unfold h2, w2, down; lia).
  assert (3 <= h3 /\ 3 <= w3) as [Hh3 Hw3] by (unfold h3, w3, down; lia).
  assert (2 <= h4 /\ 2 <= w4) as [Hh4 Hw4] by (unfold h4, w4, down; lia).
  layer_by (AttentionBlock_ok training 256) ltac:(nia).
  change (size_from2 [B; 320; h3; w3]) with [h3; w3].
  layer_by interpolate_ok lia.
  layer_by (AttentionBlock_ok training 160) ltac:(nia).
  layer_by (AttentionBlock_ok training 64) ltac:(nia).
  change (size_from2 [B; 128; h2; w2]) with [h2; w2].
  layer_by interpolate_ok lia. layer_by interpolate_ok lia.
  layer cat1_ok.
  layer_by (BasicConv2d_same1 training (32 * 2) 32) ltac:(nia).
  layer_by Conv2d_same1 lia.
  layer_by VerbClassifier_ok lia.
  layer_by BasicConv2d_same3 ltac:(nia).
  layer_by BasicConv2d_same1 ltac:(nia).
  change (size_from2 [B; 32; h1; w1]) with [h1; w1].
  layer_by interpolate_ok lia.
  layer_by SiameseNetworkWithCrossAttention_ok lia. cbv iota.
  layer_by AttentionClassifier_ok lia.
  reflexivity.
Qed.

End ShapeFacts.

(** C2, an instance: the input of the test at the end of EndoForm.py. *)
Lemma EndoForm_forward_shapes_witness :
  Shape.EndoForm_forward Shape.EndoForm_defaults true [1; 3; 256; 448]
  = Some ([1; 6], [1; 10], [1; 15], [1; 100]).
Proof. apply ShapeFacts.EndoForm_forward_shapes; lia. Defined.

(** C2 as stated fails: the backbone accepts an image of 32 by 32 and
    returns its four feature maps, and the forward pass then fails, in
    evaluation mode at the second max-pool of the instrument and target
    head, which is handed a map of 1 by 1. *)
Lemma EndoForm_forward_small_input :
  Shape.pvt_v2_b2 3 (64, 128, 320, 512) [1; 3; 32; 32]
  = Some ([1; 64; 8; 8], [1; 128; 4; 4], [1; 320; 2; 2], [1; 512; 1; 1])
  /\ Shape.shared_conv 32 [1; 32; 8; 8] = None
  /\ Shape.EndoForm_forward Shape.EndoForm_defaults false [1; 3; 32; 32] = None
  /\ Shape.EndoForm_forward Shape.EndoForm_defaults true [1; 3; 32; 32] = None.
Proof. repeat split; vm_compute; reflexivity. Qed.

(** The bound is sharp: 41 by 41 passes, 40 by 41 does not. *)
Example EndoForm_forward_41 :
  Shape.EndoForm_forward Shape.EndoForm_defaults true [2; 3; 41; 41]
  = Some ([2; 6], [2; 10], [2; 15], [2; 100])
  /\ Shape.EndoForm_forward Shape.EndoForm_defaults true [2; 3; 40; 41] = None.
Proof. split; vm_compute; reflexivity. Qed.

(* ===================================================================== *)
(** * The inputs of the triplet classifier *)
(* ===================================================================== *)

(** For one example, the inputs of the three projections are the
    instrument and the target repeated ten times and the verb repeated six
    times. *)
Lemma qkv_inputs_single {A} (i t v : list A) :
  length i = 6 -> length t = 15 -> length v = 10 ->
  Values.qkv_inputs [i] [t] [v]
  = Some ([concat (replicate 10 i)], [concat (replicate 10 t)], [concat (replicate 6 v)]).
Proof.
  intros Hi Ht Hv.
  do 7 (destruct i as [|? i]; try discriminate). clear Hi.
  do 16 (destruct t as [|? t]; try discriminate). clear Ht.
  do 11 (destruct v as [|? v]; try discriminate). clear Hv.
  reflexivity.
Qed.

(** For two examples, [verb.repeat(1, i_num, 1)] lays the rows of the whole
    batch six times over, and [view(-1, 60)] cuts that into two rows which
    both alternate the verbs of the two examples. *)
Lemma qkv_inputs_pair {A} (i0 i1 t0 t1 v0 v1 : list A) :
  length i0 = 6 -> length i1 = 6 -> length t0 = 15 -> length t1 = 15 ->
  length v0 = 10 -> length v1 = 10 ->
  Values.qkv_inputs [i0; i1] [t0; t1] [v0; v1]
  = Some ([concat (replicate 10 i0); concat (replicate 10 i1)],
          [concat (replicate 10 t0); concat (replicate 10 t1)],
          [v0 ++ v1 ++ v0 ++ v1 ++ v0 ++ v1; v0 ++ v1 ++ v0 ++ v1 ++ v0 ++ v1]).
Proof.
  intros Hi0 Hi1 Ht0 Ht1 Hv0 Hv1.
  do 7 (destruct i0 as [|? i0]; try discriminate). clear Hi0.
  do 7 (destruct i1 as [|? i1]; try discriminate). clear Hi1.
  do 16 (destruct t0 as [|? t0]; try discriminate). clear Ht0.
  do 16 (destruct t1 as [|? t1]; try discriminate). clear Ht1.
  do 11 (destruct v0 as [|? v0]; try discriminate). clear Hv0.
  do 11 (destruct v1 as [|? v1]; try discriminate). clear Hv1.
  reflexivity.
Qed.

(** C4 at a batch of two examples: the rows handed to [value_proj] are not
    the verb of each example repeated, as the rows of the query and the key
    are for the instrument and the target, but the same mixture of both
    verbs for both examples. *)
Theorem AttentionClassifier_value_rows_mix_batch :
  let instrument := [[1; 2; 3; 4; 5; 6]; [7; 8; 9; 10; 11; 12]]%Z in
  let target := [[1; 2; 3; 4; 5; 6; 7; 8; 9; 10; 11; 12; 13; 14; 15];
                 [16; 17; 18; 19; 20; 21; 22; 23; 24; 25; 26; 27; 28; 29; 30]]%Z in
  let v0 := [100; 101; 102; 103; 104; 105; 106; 107; 108; 109]%Z in
  let v1 := [200; 201; 202; 203; 204; 205; 206; 207; 208; 209]%Z in
  exists query key value,
    Values.qkv_inputs instrument target [v0; v1] = Some (query, key, value)
    /\ query = map (fun row => concat (replicate 10 row)) instrument
    /\ key = map (fun row => concat (replicate 10 row)) target
    /\ value = [v0 ++ v1 ++ v0 ++ v1 ++ v0 ++ v1; v0 ++ v1 ++ v0 ++ v1 ++ v0 ++ v1]
    /\ value <> map (fun row => concat (replicate 6 row)) [v0; v1].
Proof.
  cbv zeta. do 3 eexists. split; [vm_compute; reflexivity|].
  repeat split; try reflexivity. vm_compute. discriminate.
Qed.

(* ===================================================================== *)
(** * Sample runs of the script *)
(* ===================================================================== *)

(** The variables before the first epoch of a fresh run. *)
Lemma sample_epoch_0 :
  exists w',
    epoch_body (sample_config (PyBool true) 2) (PyRef 1%positive)
      [sample_batch 1; sample_batch 2] [sample_batch 3] 0
      (Vars None (PyInt 0) (PyInt 0) zero_score (PyDict [])) (sample_world ∅)
    = (w', Ok (Vars (Some 0%Z) (PyInt 1) (PyInt 1)
                 (PyTensor (Tensor [] [FFin (1 # 2)])) (sample_metrics (1 # 2)))).
Proof. eexists. vm_compute. reflexivity. Qed.

Lemma sample_two_epochs :
  exists w',
    for_epochs (sample_config (PyBool true) 2) (PyRef 1%positive)
      [sample_batch 1; sample_batch 2] [sample_batch 3] [0; 1]%Z
      (Vars None (PyInt 0) (PyInt 0) zero_score (PyDict [])) (sample_world ∅)
    = (w', Ok (Vars (Some 1%Z) (PyInt 2) (PyInt 2)
                 (PyTensor (Tensor [] [FFin (1 # 2)])) (sample_metrics (1 # 2)))).
Proof. eexists. vm_compute. reflexivity. Qed.

(** C3, an instance: two epochs with the scores 1/2 and 1/4; the first
    raises the best score from 0 to 1/2, the second leaves it. *)
Lemma best_score_tracking_witness :
  score_le zero_score (PyTensor (Tensor [] [FFin (1 # 2)]))
  /\ exists best score,
      py_item zero_score = Ok best /\ py_float_lt best score = Ok true
      /\ score = PyTensor (Tensor [] [FFin (1 # 2)]).
Proof.
  pose proof (best_score_tracking (sample_config (PyBool true) 2) (PyRef 1%positive)
                [sample_batch 1; sample_batch 2] [sample_batch 3]) as [Hepoch Hloop].
  split.
  - destruct sample_two_epochs as [w' Hrun].
    exact (Hloop _ _ _ _ _ Hrun).
  - destruct sample_epoch_0 as [w' Hrun].
    destruct (Hepoch _ _ _ _ _ Hrun)
      as (new & w1 & w2 & ts & score & metrics & vs & best & _ & _ & _ & Hbest & Hcase).
    exists best, score. split; [exact Hbest|].
    destruct Hcase as [(Hlt & Hscore & _) | (_ & Hscore & _)].
    + split; [exact Hlt | symmetry; exact Hscore].
    + discriminate Hscore.
Defined.

(** C7, an instance: the run of two epochs of [sample_externals], and the
    file its first epoch leaves in the checkpoint directory. *)
Lemma epoch_metadata_five_fields_witness :
  let cfg := sample_config (PyBool true) 2 in
  let w := sample_world ∅ in
  (exists new,
      trace (main cfg (PyRef 1%positive) (PyRef 2%positive) (PyRef 3%positive)
               [sample_batch 1; sample_batch 2] [sample_batch 3] w).1
      = trace w ++ new
      /\ Forall (metadata_write (model_store cfg w)) new)
  /\ exists w' before,
      epoch_body cfg (PyRef 1%positive) [sample_batch 1; sample_batch 2] [sample_batch 3] 0
        (Vars None (PyInt 0) (PyInt 0) zero_score (PyDict [])) w
      = (w', Ok (Vars (Some 0%Z) (PyInt 1) (PyInt 1)
                   (PyTensor (Tensor [] [FFin (1 # 2)])) (sample_metrics (1 # 2))))
      /\ trace w'
         = trace w ++ before ++
           [EvTorchSave "/w/model_store/ckT45/checkpoint/epoch.pth.tar"
              (PyDict [("epoch", PyInt 0);
                       ("best_score", PyTensor (Tensor [] [FFin (1 # 2)]));
                       ("best_metrics", sample_metrics (1 # 2));
                       ("train_step", PyInt 1); ("val_step", PyInt 1)]);
            EvPrint "Checkout Over!" []].
Proof.
  cbv zeta.
  pose proof (epoch_metadata_five_fields (sample_config (PyBool true) 2)
                (PyRef 1%positive) (PyRef 2%positive) (PyRef 3%positive)
                [sample_batch 1; sample_batch 2] [sample_batch 3] (sample_world ∅))
    as [Hmain Hbody].
  split; [exact Hmain|].
  destruct sample_epoch_0 as [w' Hrun].
  destruct (Hbody _ _ _ _ Hrun)
    as (_ & _ & _ & _ & _ & _ & _ & new & Htr & (before & ->) & _).
  exists w', before. split; [exact Hrun | exact Htr].
Defined.

(** A run that trains for two epochs reaches [sys.exit(1)]. *)
Example main_training_exit :
  (main (sample_config (PyBool true) 2) (PyRef 1%positive) (PyRef 2%positive)
     (PyRef 3%positive) [sample_batch 1; sample_batch 2] [sample_batch 3]
     (sample_world ∅)).2
  = Raise (SystemExit 1).
Proof. vm_compute. reflexivity. Qed.

(** C10, the validation-only run of the sample configuration. *)
Lemma main_validation_only_name_error_witness :
  main (sample_config (PyBool false) 2) (PyRef 1%positive) (PyRef 2%positive)
    (PyRef 3%positive) [sample_batch 1; sample_batch 2] [sample_batch 3] (sample_world ∅)
  = (World "/w" sample_heap ∅ ∅ [EvPrepare], Raise (NameError "epoch")).
Proof.
  exact (main_validation_only_name_error (sample_config (PyBool false) 2)
           (PyRef 1%positive) (PyRef 2%positive) (PyRef 3%positive)
           [sample_batch 1; sample_batch 2] [sample_batch 3] (sample_world ∅)
           eq_refl eq_refl eq_refl).
Defined.

(* ===================================================================== *)
(** * Further properties of src/utils.py *)
(* ===================================================================== *)

(** ** Loading never lets an exception of class [Exception] out *)

(** X1.  [load_pretrain_model] always hands back the model it was given,
    and the only exceptions that leave it are those [except Exception] does
    not catch. *)
Theorem load_pretrain_model_total :
  forall T (E : Externals T) (path : string) (model : pyval) (w : world T),
    (forall w' m, load_pretrain_model path model w = (w', Ok m) -> m = model)
    /\ (forall w' e, load_pretrain_model path model w = (w', Raise e) ->
                     is_Exception e = false)
    /\ exists w' r, load_pretrain_model path model w = (w', r) /\ cwd w' = cwd w.
Proof.
  intros T E path model w. split; [|split].
  - intros w' m. apply load_pretrain_model_returns_arg.
  - intros w' e. apply load_pretrain_model_catches.
  - destruct (appends_load_pretrain_model (cwd w) (fun _ => True) path model
                (fun _ => I) (fun _ _ => I) w eq_refl) as (new & _ & _ & Hc).
    destruct (load_pretrain_model path model w) as [w' r]. eauto.
Qed.

Lemma load_pretrain_model_total_witness :
  (load_pretrain_model "/w/model_store/ckT45/best/new/pytorch_model.bin" (PyRef 1%positive)
     (sample_world disk_no_weights)).2 = Ok (PyRef 1%positive).
Proof.
  destruct (load_pretrain_model "/w/model_store/ckT45/best/new/pytorch_model.bin"
              (PyRef 1%positive) (sample_world disk_no_weights)) as [w' [m|e]] eqn:Hrun.
  - simpl. f_equal.
    exact (proj1 (load_pretrain_model_total Z _ _ (PyRef 1%positive)
                    (sample_world disk_no_weights)) w' m Hrun).
  - exfalso. vm_compute in Hrun. discriminate Hrun.
Defined.

Lemma load_param_returns_arg {T} `{Externals T} base param_dict type (w w' : world T) r :
  load_param base param_dict type w = (w', Ok r) -> r = param_dict.
Proof.
  unfold load_param. destruct param_dict; try discriminate.
  intros Hrun. apply bind_inv in Hrun as (w1 & [] & _ & Hret).
  injection Hret as _ <-. reflexivity.
Qed.

Lemma load_optimizers_schedulers_returns_args {T} `{Externals T} base optimizers schedulers
    (w w' : world T) r :
  load_optimizers_schedulers base optimizers schedulers w = (w', Ok r) ->
  r = (optimizers, schedulers) /\ exists l, optimizers = PyRef l.
Proof.
  unfold load_optimizers_schedulers. destruct (is_list optimizers) eqn:Hl.
  - intros Hrun. exfalso.
    destruct optimizers; try discriminate Hl.
    apply bind_inv in Hrun as (w1 & o & Ho & _). discriminate Ho.
  - intros Hrun.
    apply bind_inv in Hrun as (w1 & meth & Hmeth & Hrun).
    assert (exists l, optimizers = PyRef l) as Href.
    { unfold get_load_state_dict in Hmeth. destruct optimizers; try discriminate. eauto. }
    split; [|exact Href].
    apply bind_inv in Hrun as (w2 & v & _ & Hrun).
    apply bind_inv in Hrun as (w3 & [] & _ & Hrun).
    apply bind_inv in Hrun as (w4 & meth2 & _ & Hrun).
    apply bind_inv in Hrun as (w5 & v2 & _ & Hrun).
    apply bind_inv in Hrun as (w6 & [] & _ & Hrun).
    injection Hrun as _ <-. reflexivity.
Qed.

(** What the body of the [try] of [resume_train_state] returns. *)
Lemma resume_try_ok {T} `{Externals T} model checkpoint optimizers schedulers
    (w w' : world T) st :
  resume_try model checkpoint optimizers schedulers w = (w', Ok st) ->
  ts_model st = model /\ ts_optimizers st = optimizers /\ ts_schedulers st = schedulers
  /\ exists l, optimizers = PyRef l.
Proof.
  unfold resume_try. intros Hrun.
  apply bind_inv in Hrun as (w0 & w0' & Hg & Hrun). injection Hg as <- <-.
  apply bind_inv in Hrun as (w1 & meta & _ & Hrun).
  apply bind_inv in Hrun as (w2 & m & Hm & Hrun).
  apply load_pretrain_model_returns_arg in Hm as ->.
  apply bind_inv in Hrun as (w3 & loaded & Hl & Hrun).
  apply load_optimizers_schedulers_returns_args in Hl as [-> Href].
  apply bind_inv in Hrun as (w4 & [] & _ & Hrun).
  injection Hrun as _ <-. simpl. auto.
Qed.

(** X2.  [resume_train_state] always returns the model, optimizers and
    schedulers it was given, and no exception of class [Exception] leaves
    it. *)
Theorem resume_train_state_total :
  forall T (E : Externals T) (model : pyval) (checkpoint : string)
         (optimizers schedulers : pyval) (w : world T),
    (forall w' st,
        resume_train_state model checkpoint optimizers schedulers w = (w', Ok st) ->
        ts_model st = model /\ ts_optimizers st = optimizers
        /\ ts_schedulers st = schedulers)
    /\ (forall w' e,
        resume_train_state model checkpoint optimizers schedulers w = (w', Raise e) ->
        is_Exception e = false).
Proof.
  intros T E model checkpoint optimizers schedulers w.
  unfold resume_train_state, try_except.
  destruct (resume_try model checkpoint optimizers schedulers w) as [w1 [st|e]] eqn:Htry.
  - split.
    + intros w' st' [= <- <-]. apply resume_try_ok in Htry. tauto.
    + intros w' e [=].
  - destruct (is_Exception e) eqn:He.
    + rewrite handler_result. split.
      * intros w' st [= <- <-]. simpl. auto.
      * intros w' e' [=].
    + split.
      * intros w' st [=].
      * intros w' e' [= <- <-]. exact He.
Qed.

Lemma resume_train_state_total_witness :
  exists st,
    (resume_train_state (PyRef 1%positive) "ckT45" (PyRef 2%positive) (PyRef 3%positive)
       (sample_world disk_fitting)).2 = Ok st
    /\ ts_model st = PyRef 1%positive /\ ts_optimizers st = PyRef 2%positive
    /\ ts_schedulers st = PyRef 3%positive.
Proof.
  destruct (resume_train_state (PyRef 1%positive) "ckT45" (PyRef 2%positive)
              (PyRef 3%positive) (sample_world disk_fitting)) as [w' [st|e]] eqn:Hrun.
  - exists st. split; [reflexivity|].
    exact (proj1 (resume_train_state_total Z _ (PyRef 1%positive) "ckT45" (PyRef 2%positive)
                    (PyRef 3%positive) (sample_world disk_fitting)) w' st Hrun).
  - exfalso. vm_compute in Hrun. discriminate Hrun.
Defined.

(** X3.  The state of a checkpoint is only ever restored for a single
    optimizer object: with a list of optimizers (handed to [load_param],
    which asks the list for [keys()]), a dictionary, or anything else, every
    result of [resume_train_state] is the fresh state. *)
Theorem resume_train_state_needs_one_optimizer :
  forall T (E : Externals T) (model : pyval) (checkpoint : string)
         (optimizers schedulers : pyval) (w w' : world T) (st : train_state),
    (forall l, optimizers <> PyRef l) ->
    resume_train_state model checkpoint optimizers schedulers w = (w', Ok st) ->
    st = fresh_state model optimizers schedulers.
Proof.
  intros T E model checkpoint optimizers schedulers w w' st Hnot.
  unfold resume_train_state, try_except.
  destruct (resume_try model checkpoint optimizers schedulers w) as [w1 [st1|e]] eqn:Htry.
  - apply resume_try_ok in Htry as (_ & _ & _ & l & ->). destruct (Hnot l). reflexivity.
  - destruct (is_Exception e); [|discriminate].
    rewrite handler_result. intros [= <- <-]. reflexivity.
Qed.

Lemma resume_train_state_needs_one_optimizer_witness :
  (resume_train_state (PyRef 1%positive) "ckT45" (PyList [PyRef 2%positive])
     (PyRef 3%positive) (sample_world disk_no_weights)).2
  = Ok (fresh_state (PyRef 1%positive) (PyList [PyRef 2%positive]) (PyRef 3%positive)).
Proof.
  destruct (resume_train_state (PyRef 1%positive) "ckT45" (PyList [PyRef 2%positive])
              (PyRef 3%positive) (sample_world disk_no_weights)) as [w' [st|e]] eqn:Hrun.
  - simpl. f_equal.
    refine (resume_train_state_needs_one_optimizer Z _ _ _ _ _ _ _ _ _ Hrun).
    intros l Hl. discriminate Hl.
  - exfalso. vm_compute in Hrun. discriminate Hrun.
Defined.

(** ** [add_tokens_tokenizer], called again *)

Lemma missing_words_none {Tok} `{Tokenizer Tok} (tokenizer : Tok) all_list add out :
  (forall w, w ∈ all_list -> is_Some (tok_vocab tokenizer !! w)) ->
  missing_words tokenizer all_list add out = (add, out).
Proof.
  induction all_list as [|word rest IH]; intros Hall; simpl; [reflexivity|].
  rewrite bool_decide_eq_true_2 by (apply Hall; left).
  apply IH. intros w Hw. apply Hall. right. exact Hw.
Qed.

Section AddTokensAgain.
Context {Tok : Type} `{Tokenizer Tok}.

Hypothesis add_tokens_vocab :
  forall (ws : list string) (t : Tok) (w : string),
    is_Some (tok_vocab (tok_add_tokens ws t).1 !! w)
    <-> is_Some (tok_vocab t !! w) \/ w ∈ ws.

(** X4.  A second call of [add_tokens_tokenizer] with the same list finds
    every word in the vocabulary: it prints no word as missing and hands
    the empty list to [add_tokens]. *)
Theorem add_tokens_tokenizer_twice :
  forall (tokenizer : Tok) (all_list : list string),
    let tokenizer' := (add_tokens_tokenizer tokenizer all_list).1 in
    missing_words tokenizer' all_list [] [] = ([], [])
    /\ add_tokens_tokenizer tokenizer' all_list
       = ((tok_add_tokens [] tokenizer').1,
          ["Now we have added " +:+ pretty (tok_add_tokens [] tokenizer').2 +:+ " tokens"]).
Proof.
  intros tokenizer all_list tokenizer'.
  assert (missing_words tokenizer' all_list [] [] = ([], [])) as Hnone.
  { apply missing_words_none. intros w Hw.
    unfold tokenizer', add_tokens_tokenizer.
    pose proof (missing_words_spec tokenizer all_list [] []) as Hm.
    destruct (missing_words tokenizer all_list [] []) as [a o]. simpl in Hm. subst a.
    destruct (tok_add_tokens _ tokenizer) as [t' n] eqn:Hadd. simpl.
    change t' with (t', n).1. rewrite <- Hadd. apply add_tokens_vocab.
    destruct (decide (is_Some (tok_vocab tokenizer !! w))) as [Hin|Hout]; [left; exact Hin|].
    right. apply list_elem_of_filter. split; assumption. }
  split; [exact Hnone|].
  unfold add_tokens_tokenizer at 1. rewrite Hnone.
  destruct (tok_add_tokens [] tokenizer') as [t' n]. reflexivity.
Qed.

End AddTokensAgain.

Lemma add_tokens_tokenizer_twice_witness :
  let tokenizer' := (add_tokens_tokenizer ({[ "grasper" := 0 ]} : gmap string nat)
                       ["grasper"; "hook"; "clipper"]).1 in
  missing_words tokenizer' ["grasper"; "hook"; "clipper"] [] [] = ([], [])
  /\ add_tokens_tokenizer tokenizer' ["grasper"; "hook"; "clipper"]
     = ((tok_add_tokens [] tokenizer').1,
        ["Now we have added " +:+ pretty (tok_add_tokens [] tokenizer').2 +:+ " tokens"]).
Proof.
  exact (add_tokens_tokenizer_twice vocab_tokenizer_add_tokens
           ({[ "grasper" := 0 ]} : gmap string nat) ["grasper"; "hook"; "clipper"]).
Defined.

(** ** [get_params_groups] *)

Ltac decide_bools :=
  rewrite ?(decide_True (P := Is_true true)) by exact I;
  rewrite ?(decide_False (P := Is_true false)) by exact id.

Lemma params_groups_loop_filter named regularized not_regularized :
  params_groups_loop named regularized not_regularized
  = (regularized
       ++ map snd (filter (fun np => p_requires_grad np.2 && negb (no_decay np)) named),
     not_regularized
       ++ map snd (filter (fun np => p_requires_grad np.2 && no_decay np) named)).
Proof.
  revert regularized not_regularized.
  induction named as [|[name param] rest IH]; intros regularized not_regularized.
  - simpl. rewrite !app_nil_r. reflexivity.
  - cbn [params_groups_loop]. rewrite !filter_cons. cbn [snd].
    destruct (p_requires_grad param); cbn [negb andb].
    + destruct (no_decay (name, param)); cbn [negb].
      * decide_bools.
        rewrite IH. cbn [map snd]. rewrite <- app_assoc. reflexivity.
      * decide_bools.
        rewrite IH. cbn [map snd]. rewrite <- app_assoc. reflexivity.
    + decide_bools. apply IH.
Qed.

(** X5.  [get_params_groups] returns two groups, the second with weight
    decay 0.  A parameter is in the second group exactly when it requires a
    gradient and its name ends in [.bias] or it has one dimension, and in
    the first exactly when it requires a gradient and neither holds; each
    group keeps the order of [named_parameters()], and the two together are
    the parameters that require a gradient, each as often as it is
    named. *)
Theorem get_params_groups_partition :
  forall (named : list (string * parameter)),
    exists regularized not_regularized,
      get_params_groups named
      = [ParamGroup regularized None; ParamGroup not_regularized (Some (FFin 0%Q))]
      /\ regularized
         = map snd (filter (fun np => p_requires_grad np.2 && negb (no_decay np)) named)
      /\ not_regularized
         = map snd (filter (fun np => p_requires_grad np.2 && no_decay np) named)
      /\ regularized ++ not_regularized
         ≡ₚ map snd (filter (fun np => p_requires_grad np.2) named)
      /\ (forall p, p ∈ regularized ++ not_regularized -> p_requires_grad p = true).
Proof.
  intros named. unfold get_params_groups.
  rewrite params_groups_loop_filter. cbn [app].
  do 2 eexists. split; [reflexivity|]. split; [reflexivity|]. split; [reflexivity|].
  split.
  - induction named as [|[name param] rest IH]; [reflexivity|].
    rewrite !filter_cons. cbn [snd].
    destruct (p_requires_grad param); cbn [andb negb].
    + destruct (no_decay (name, param)); cbn [negb].
      * decide_bools.
        cbn [map snd]. rewrite <- Permutation_middle. constructor. exact IH.
      * decide_bools.
        cbn [map snd app]. constructor. exact IH.
    + decide_bools. exact IH.
  - intros p Hp.
    assert (forall test, p ∈ map snd (filter (fun np => p_requires_grad np.2 && test np) named)
                         -> p_requires_grad p = true) as Hin.
    { intros test Hq. apply list_elem_of_fmap in Hq as ([name q] & Hpq & Hq).
      apply list_elem_of_filter in Hq as [Hq _]. simpl in Hpq, Hq. subst q.
      destruct (p_requires_grad p); [reflexivity | contradiction]. }
    apply elem_of_app in Hp as [Hp|Hp].
    + exact (Hin (fun np => negb (no_decay np)) Hp).
    + exact (Hin no_decay Hp).
Qed.

Lemma get_params_groups_partition_witness :
  let weight := MkParameter 0 true [8; 3; 3; 3] in
  let bias := MkParameter 1 true [8] in
  let norm := MkParameter 2 true [8] in
  let frozen := MkParameter 3 false [4; 8] in
  get_params_groups [("conv.weight", weight); ("conv.bias", bias); ("norm.weight", norm);
                     ("head.weight", frozen)]
  = [ParamGroup [weight] None; ParamGroup [bias; norm] (Some (FFin 0%Q))].
Proof.
  cbv zeta.
  destruct (get_params_groups_partition
              [("conv.weight", MkParameter 0 true [8; 3; 3; 3]);
               ("conv.bias", MkParameter 1 true [8]);
               ("norm.weight", MkParameter 2 true [8]);
               ("head.weight", MkParameter 3 false [4; 8])])
    as (regularized & not_regularized & -> & -> & -> & _).
  reflexivity.
Defined.

(** ** [get_weight_balancing] *)

Lemma switcher_plain case w :
  switcher case = Some (inl w) ->
  (case = "cholect50" /\ w = weights_cholect50)
  \/ (case = "cholect50-challenge" /\ w = weights_cholect50_challenge).
Proof.
  unfold switcher.
  destruct (String.eqb_spec case "cholect50") as [->|_]; [intros [= <-]; auto|].
  destruct (String.eqb_spec case "cholect50-challenge") as [->|_]; [intros [= <-]; auto|].
  destruct (String.eqb case "cholect45-crossval"); [discriminate|].
  destruct (String.eqb case "cholect50-crossval"); discriminate.
Qed.

Lemma switcher_folds case folds :
  switcher case = Some (inr folds) ->
  (case = "cholect45-crossval" \/ case = "cholect50-crossval")
  /\ map fst folds = [1; 2; 3; 4; 5]%Z
  /\ Forall (fun kw => length (w_tool kw.2) = 6 /\ length (w_verb kw.2) = 10
                       /\ length (w_target kw.2) = 15
                       /\ Forall (fun q => (0 < q)%Q)
                            (w_tool kw.2 ++ w_verb kw.2 ++ w_target kw.2)) folds.
Proof.
  unfold switcher.
  destruct (String.eqb case "cholect50"); [discriminate|].
  destruct (String.eqb case "cholect50-challenge"); [discriminate|].
  destruct (String.eqb_spec case "cholect45-crossval") as [->|_].
  { intros [= <-]. split; [auto|]. split; [reflexivity|].
    repeat (apply Forall_cons; split;
            [split; [reflexivity|]; split; [reflexivity|]; split; [reflexivity|];
             repeat constructor|]).
    constructor. }
  destruct (String.eqb_spec case "cholect50-crossval") as [->|_]; [|discriminate].
  intros [= <-]. split; [auto|]. split; [reflexivity|].
  repeat (apply Forall_cons; split;
          [split; [reflexivity|]; split; [reflexivity|]; split; [reflexivity|];
           repeat constructor|]).
  constructor.
Qed.

Lemma fold_lookup_Some k folds w :
  fold_lookup k folds = Some w -> (k, w) ∈ folds.
Proof.
  induction folds as [|[k' w'] rest IH]; simpl; [discriminate|].
  destruct (Z.eqb_spec k k') as [->|_].
  - intros [= ->]. left.
  - intros Hw. right. auto.
Qed.

Lemma fold_lookup_is_Some k folds :
  is_Some (fold_lookup k folds) <-> k ∈ map fst folds.
Proof.
  induction folds as [|[k' w'] rest IH]; simpl.
  - split; [intros [? [=]] | intros Hk; inversion Hk].
  - destruct (Z.eqb_spec k k') as [->|Hne].
    + split; [intros _; left | eauto].
    + rewrite IH. split; [intros Hk; right; exact Hk|].
      intros Hk. apply elem_of_cons in Hk as [Hk|Hk]; [contradiction | exact Hk].
Qed.

Lemma py_eq_str_true v s : py_eq_str v s = true <-> v = PyStr s.
Proof.
  destruct v; simpl; try (split; [discriminate | intros [=]]).
  destruct (String.eqb_spec s0 s) as [->|Hne]; split; auto; try discriminate.
  intros [= ->]. contradiction.
Qed.

Lemma key_int_hashable k n : key_int k = Some n -> hashable k = true.
Proof. destruct k; simpl; auto; discriminate. Qed.

(** The node the function goes on with. *)
Lemma chosen_node_Ok config node :
  chosen_node config = Ok node
  <-> (bc_trainer_dataset config = PyStr "T45" /\ bc_T45 config = Some node)
      \/ (bc_trainer_dataset config = PyStr "T50" /\ bc_T50 config = Some node)
      \/ (bc_trainer_dataset config <> PyStr "T45"
          /\ bc_trainer_dataset config <> PyStr "T50" /\ node = bc_top config).
Proof.
  unfold chosen_node.
  destruct (py_eq_str (bc_trainer_dataset config) "T45") eqn:H45.
  { apply py_eq_str_true in H45. rewrite H45. unfold getattr.
    destruct (bc_T45 config) as [n|]; split.
    - intros [= ->]. auto.
    - intros [[_ [= ->]] | [[[=] _] | [Hne _]]]; [reflexivity | contradiction].
    - discriminate.
    - intros [[_ [=]] | [[[=] _] | [Hne _]]]. contradiction. }
  assert (bc_trainer_dataset config <> PyStr "T45") as Hn45.
  { intros Heq. apply py_eq_str_true in Heq. congruence. }
  destruct (py_eq_str (bc_trainer_dataset config) "T50") eqn:H50.
  { apply py_eq_str_true in H50. rewrite H50. unfold getattr.
    destruct (bc_T50 config) as [n|]; split.
    - intros [= ->]. auto.
    - intros [[[=] _] | [[_ [= ->]] | [_ [Hne _]]]]; [reflexivity | contradiction].
    - discriminate.
    - intros [[[=] _] | [[_ [=]] | [_ [Hne _]]]]. contradiction. }
  assert (bc_trainer_dataset config <> PyStr "T50") as Hn50.
  { intros Heq. apply py_eq_str_true in Heq. congruence. }
  split.
  - intros [= ->]. auto.
  - intros [[Heq _] | [[Heq _] | (_ & _ & ->)]]; [contradiction | contradiction | reflexivity].
Qed.

(** The lists of the table the function finds for a node. *)
Lemma table_weights_Ok node w :
  table_weights node = Ok w
  <-> exists variant,
        dataset_variant node = Some (PyStr variant)
        /\ (switcher variant = Some (inl w)
            \/ exists folds k n,
                 switcher variant = Some (inr folds) /\ kfold node = Some k
                 /\ key_int k = Some n /\ fold_lookup n folds = Some w).
Proof.
  unfold table_weights, getattr. split.
  - destruct (dataset_variant node) as [case|]; [|discriminate].
    destruct case as [| | | |s| | | |]; simpl; try discriminate.
    + destruct (contains "crossval" s).
      * destruct (kfold node) as [k|]; [|discriminate]. unfold lookup_fold.
        destruct (switcher s) as [[w0|folds]|] eqn:Hs; [| |discriminate].
        { destruct (negb (hashable k)); [discriminate|].
          destruct (_ || _); discriminate. }
        destruct (negb (hashable k)); [discriminate|].
        destruct (key_int k) as [n|] eqn:Hk; [|discriminate].
        destruct (fold_lookup n folds) as [w1|] eqn:Hf; [|discriminate].
        intros [= ->]. exists s. split; [reflexivity|]. right. eauto 10.
      * unfold lookup_plain.
        destruct (switcher s) as [[w0|folds]|] eqn:Hs; try discriminate.
        intros [= ->]. exists s. auto.
    + destruct (existsb _ _); discriminate.
    + destruct (has_key _ _); discriminate.
  - intros (variant & -> & [Hs | (folds & k & n & Hs & -> & Hk & Hf)]).
    + apply switcher_plain in Hs as [[-> ->] | [-> ->]]; reflexivity.
    + pose proof (key_int_hashable _ _ Hk) as Hh.
      pose proof (switcher_folds _ _ Hs) as ([-> | ->] & _); cbn -[switcher];
        rewrite Hs; unfold lookup_fold; rewrite Hh, Hk, Hf; reflexivity.
Qed.

(** X6.  Whatever the configuration, the three lists [get_weight_balancing]
    returns have 6, 10 and 15 weights, one for each instrument, verb and
    target class, and every weight is positive. *)
Theorem get_weight_balancing_lengths :
  forall (config : balancing_config) (tool_weight verb_weight target_weight : list Q),
    get_weight_balancing config = Ok (tool_weight, verb_weight, target_weight) ->
    length tool_weight = 6 /\ length verb_weight = 10 /\ length target_weight = 15
    /\ Forall (fun q => (0 < q)%Q) (tool_weight ++ verb_weight ++ target_weight).
Proof.
  intros config tool_weight verb_weight target_weight. unfold get_weight_balancing.
  destruct (chosen_node config) as [node|]; [|discriminate].
  destruct (table_weights node) as [w|] eqn:Hw; [|discriminate].
  assert (length (w_tool w) = 6 /\ length (w_verb w) = 10 /\ length (w_target w) = 15
          /\ Forall (fun q => (0 < q)%Q) (w_tool w ++ w_verb w ++ w_target w)) as Htable.
  { apply table_weights_Ok in Hw
      as (variant & _ & [Hs | (folds & k & n & Hs & _ & _ & Hf)]).
    - apply switcher_plain in Hs as [[_ ->] | [_ ->]].
      + split; [reflexivity|]. split; [reflexivity|]. split; [reflexivity|].
        repeat constructor.
      + split; [reflexivity|]. split; [reflexivity|]. split; [reflexivity|].
        repeat constructor.
    - apply switcher_folds in Hs as (_ & _ & Hall).
      apply fold_lookup_Some in Hf.
      rewrite Forall_forall in Hall. exact (Hall _ Hf). }
  destruct (getattr (weight_randa node) "weight_randa") as [randa|]; [|discriminate].
  destruct (py_eq_True randa) as [[|]|]; [| |discriminate].
  - intros [= <- <- <-].
    split; [reflexivity|]. split; [reflexivity|]. split; [reflexivity|].
    repeat constructor.
  - intros [= <- <- <-]. exact Htable.
Qed.

Lemma get_weight_balancing_lengths_witness :
  let r := (w_tool weights_cholect45_crossval_3, w_verb weights_cholect45_crossval_3,
            w_target weights_cholect45_crossval_3) in
  get_weight_balancing
    (BalancingConfig (PyStr "T45")
       (Some (ConfigNode (Some (PyStr "cholect45-crossval")) (Some (PyInt 3))
                (Some (PyBool false))))
       None (ConfigNode None None None)) = Ok r
  /\ length r.1.1 = 6 /\ length r.1.2 = 10 /\ length r.2 = 15
  /\ Forall (fun q => (0 < q)%Q) (r.1.1 ++ r.1.2 ++ r.2).
Proof.
  split; [reflexivity|].
  exact (get_weight_balancing_lengths
           (BalancingConfig (PyStr "T45")
              (Some (ConfigNode (Some (PyStr "cholect45-crossval")) (Some (PyInt 3))
                       (Some (PyBool false))))
              None (ConfigNode None None None))
           _ _ _ eq_refl).
Defined.

(** X7.  [get_weight_balancing] returns exactly when the node it goes on
    with ([config.dataset.T45] for the dataset ['T45'],
    [config.dataset.T50] for ['T50'], [config] itself for anything else)
    has a [dataset_variant] that is one of the four keys of [switcher],
    for a cross-validation variant a [kfold] equal to an integer from 1 to
    5 ([1], [1.0] and [True] are one key), and a [weight_randa] that can be
    compared with [True].  The fixed weights of [weight_randa] are no way
    round an unknown variant or fold: the table is consulted first. *)
Theorem get_weight_balancing_returns_iff :
  forall (config : balancing_config),
    (exists r, get_weight_balancing config = Ok r)
    <-> exists node variant randa b,
          ((bc_trainer_dataset config = PyStr "T45" /\ bc_T45 config = Some node)
           \/ (bc_trainer_dataset config = PyStr "T50" /\ bc_T50 config = Some node)
           \/ (bc_trainer_dataset config <> PyStr "T45"
               /\ bc_trainer_dataset config <> PyStr "T50" /\ node = bc_top config))
          /\ dataset_variant node = Some (PyStr variant)
          /\ (variant = "cholect50"
              \/ variant = "cholect50-challenge"
              \/ ((variant = "cholect45-crossval" \/ variant = "cholect50-crossval")
                  /\ exists k n, kfold node = Some k /\ key_int k = Some n
                                 /\ (1 <= n <= 5)%Z))
          /\ weight_randa node = Some randa
          /\ py_eq_True randa = Ok b.
Proof.
  intros config. unfold get_weight_balancing. split.
  - intros [r Hr].
    destruct (chosen_node config) as [node|] eqn:Hnode; [|discriminate].
    destruct (table_weights node) as [w|] eqn:Hw; [|discriminate].
    unfold getattr in Hr.
    destruct (weight_randa node) as [randa|] eqn:Hranda; [|discriminate].
    destruct (py_eq_True randa) as [b|] eqn:Hb; [|discriminate].
    apply chosen_node_Ok in Hnode.
    apply table_weights_Ok in Hw
      as (variant & Hv & [Hs | (folds & k & n & Hs & Hk & Hn & Hf)]).
    + exists node, variant, randa, b. repeat (split; [assumption|]).
      split; [|auto]. apply switcher_plain in Hs. tauto.
    + exists node, variant, randa, b. repeat (split; [assumption|]).
      split; [|auto]. right. right.
      apply switcher_folds in Hs as (Hcase & Hkeys & _). split; [exact Hcase|].
      exists k, n. repeat (split; [assumption|]).
      assert (n ∈ map fst folds) as Hin by (apply fold_lookup_is_Some; eauto).
      rewrite Hkeys in Hin.
      repeat (apply elem_of_cons in Hin as [->|Hin]; [lia|]). inversion Hin.
  - intros (node & variant & randa & b & Hnode & Hv & Hvariant & Hranda & Hb).
    apply chosen_node_Ok in Hnode. rewrite Hnode.
    assert (exists w, table_weights node = Ok w) as [w ->].
    { destruct Hvariant as [-> | [-> | (Hcase & k & n & Hk & Hn & Hrange)]].
      - eexists. apply table_weights_Ok. eexists. split; [exact Hv|]. left. reflexivity.
      - eexists. apply table_weights_Ok. eexists. split; [exact Hv|]. left. reflexivity.
      - assert (exists folds, switcher variant = Some (inr folds)
                              /\ map fst folds = [1; 2; 3; 4; 5]%Z) as (folds & Hs & Hkeys).
        { destruct Hcase as [-> | ->]; eexists; split; reflexivity. }
        assert (is_Some (fold_lookup n folds)) as [w Hf].
        { apply fold_lookup_is_Some. rewrite Hkeys.
          assert (n = 1 \/ n = 2 \/ n = 3 \/ n = 4 \/ n = 5)%Z
            as [-> | [-> | [-> | [-> | ->]]]] by lia;
            repeat first [left | right]. }
        exists w. apply table_weights_Ok. eexists. split; [exact Hv|]. right. eauto 10. }
    unfold getattr. rewrite Hranda, Hb. destruct b; eauto.
Qed.

(** The fold given as the float 2.0, in the configuration of the dataset
    T50. *)
Lemma get_weight_balancing_returns_iff_witness :
  exists r,
    get_weight_balancing
      (BalancingConfig (PyStr "T50") None
         (Some (ConfigNode (Some (PyStr "cholect50-crossval")) (Some (PyFloat (FFin 2.0%Q)))
                  (Some (PyBool true))))
         (ConfigNode None None None)) = Ok r.
Proof.
  apply (proj2 (get_weight_balancing_returns_iff
                  (BalancingConfig (PyStr "T50") None
                     (Some (ConfigNode (Some (PyStr "cholect50-crossval"))
                              (Some (PyFloat (FFin 2.0%Q))) (Some (PyBool true))))
                     (ConfigNode None None None)))).
  exists (ConfigNode (Some (PyStr "cholect50-crossval")) (Some (PyFloat (FFin 2.0%Q)))
            (Some (PyBool true))), "cholect50-crossval", (PyBool true), true.
  split; [right; left; split; reflexivity|].
  split; [reflexivity|].
  split; [right; right; split; [right; reflexivity|]|split; reflexivity].
  exists (PyFloat (FFin 2.0%Q)), 2%Z. split; [reflexivity|]. split; [reflexivity | lia].
Defined.

(** ** [Logger] *)

Lemma Logger_write_all_open msgs l :
  s_closed (console l) = false ->
  (forall f, log_file l = Some f -> s_closed f = false) ->
  exists l',
    Logger_write_all msgs l = (l', Ok tt)
    /\ s_written (console l') = s_written (console l) ++ msgs
    /\ s_closed (console l') = false
    /\ (s_written <$> log_file l') = ((fun f => s_written f ++ msgs) <$> log_file l).
Proof.
  revert l. induction msgs as [|msg rest IH]; intros l Hc Hf.
  - exists l. simpl. rewrite app_nil_r. repeat split; auto.
    destruct (log_file l); simpl; [rewrite app_nil_r|]; reflexivity.
  - cbn [Logger_write_all]. unfold Logger_write, stream_write. rewrite Hc.
    destruct l as [c [f|]]; simpl in *.
    + rewrite (Hf f eq_refl).
      destruct (IH (MkLogger (Stream (s_written c ++ [msg]) false)
                      (Some (Stream (s_written f ++ [msg]) false))) eq_refl)
        as (l' & Hrun & Hw & Hcl & Hlog).
      { intros f' [= <-]. reflexivity. }
      exists l'. rewrite Hrun, Hw, Hlog. simpl. rewrite <- !app_assoc. auto.
    + destruct (IH (MkLogger (Stream (s_written c ++ [msg]) false) None) eq_refl)
        as (l' & Hrun & Hw & Hcl & Hlog).
      { intros f' [=]. }
      exists l'. rewrite Hrun, Hw, Hlog. simpl. rewrite <- !app_assoc. auto.
Qed.

(** X8.  A [Logger] made for a new directory copies what is written: after
    any messages its log file holds exactly these messages, in order, and
    the console has them after what it had.  [close] closes the console,
    which is the [sys.stdout] the logger was made with, as well: every
    later [write] raises [ValueError] and writes nothing. *)
Theorem Logger_log_file_mirrors_console :
  forall (stdout : stream) (dirs dirs' : gset string) (logdir : string) (l : Logger)
         (msgs : list string),
    s_closed stdout = false ->
    Logger_init stdout dirs (Some logdir) = Ok (l, dirs') ->
    (logdir ∉ dirs)
    /\ exists l',
        Logger_write_all msgs l = (l', Ok tt)
        /\ s_written (console l') = s_written stdout ++ msgs
        /\ (s_written <$> log_file l') = Some msgs
        /\ forall msg,
            Logger_write msg (Logger_close l')
            = (Logger_close l', Raise (ValueError "I/O operation on closed file")).
Proof.
  intros stdout dirs dirs' logdir l msgs Hopen Hinit.
  unfold Logger_init in Hinit. case_bool_decide as Hd; [discriminate|].
  injection Hinit as <- <-. split; [exact Hd|].
  destruct (Logger_write_all_open msgs (MkLogger stdout (Some (Stream [] false))) Hopen)
    as (l' & Hrun & Hw & _ & Hlog).
  { intros f [= <-]. reflexivity. }
  exists l'. split; [exact Hrun|]. split; [exact Hw|]. split; [exact Hlog|].
  intros msg. reflexivity.
Qed.

Lemma Logger_log_file_mirrors_console_witness :
  exists l',
    Logger_write_all ["epoch 1"; "epoch 2"]
      (MkLogger (Stream ["start"] false) (Some (Stream [] false))) = (l', Ok tt)
    /\ s_written (console l') = ["start"] ++ ["epoch 1"; "epoch 2"]
    /\ (s_written <$> log_file l') = Some ["epoch 1"; "epoch 2"]
    /\ forall msg,
        Logger_write msg (Logger_close l')
        = (Logger_close l', Raise (ValueError "I/O operation on closed file")).
Proof.
  exact (proj2 (Logger_log_file_mirrors_console (Stream ["start"] false) ∅ _ "logs" _
                  ["epoch 1"; "epoch 2"] eq_refl eq_refl)).
Defined.

(* ===================================================================== *)
(** * Further properties of Pamain.py *)
(* ===================================================================== *)

Lemma str_append_assoc (a b c : string) : (a +:+ b) +:+ c = a +:+ (b +:+ c).
Proof.
  induction a as [|ch a IH]; [reflexivity|].
  change (String ch ((a +:+ b) +:+ c) = String ch (a +:+ (b +:+ c))).
  rewrite IH. reflexivity.
Qed.

(** ** Computations that write no file *)

Section KeepsDisk.
Context {T : Type} `{Externals T}.

Lemma keeps_disk_ret {A} (a : A) : keeps_disk (@ret T A a).
Proof. intros w. reflexivity. Qed.

Lemma keeps_disk_lift {A} (r : res A) : keeps_disk (@lift T A r).
Proof. intros w. reflexivity. Qed.

Lemma keeps_disk_emit (ev : event T) : keeps_disk (emit ev).
Proof. intros w. reflexivity. Qed.

Lemma keeps_disk_call_ext (ev : event T) : keeps_disk (call_ext ev).
Proof. intros w. reflexivity. Qed.

Lemma keeps_disk_bind {A B} (m : M T A) (k : A -> M T B) :
  keeps_disk m -> (forall a, keeps_disk (k a)) -> keeps_disk (bind m k).
Proof.
  intros Hm Hk w. unfold bind. specialize (Hm w).
  destruct (m w) as [w1 [a|e]]; simpl in *; [|exact Hm].
  rewrite (Hk a w1). exact Hm.
Qed.

Lemma keeps_disk_get_world {B} (k : world T -> M T B) :
  (forall w, keeps_disk (k w)) -> keeps_disk (bind get_world k).
Proof. intros Hk w. unfold bind, get_world. apply Hk. Qed.

Lemma keeps_disk_for_enumerate {A St} (body : nat -> A -> St -> M T (St * flow)) i xs s :
  (forall i x s, keeps_disk (body i x s)) -> keeps_disk (for_enumerate body i xs s).
Proof.
  intros Hb. revert i s. induction xs as [|x xs IH]; intros i s; simpl.
  - apply keeps_disk_ret.
  - apply keeps_disk_bind; [apply Hb|]. intros [s' []]; simpl.
    + apply IH.
    + apply keeps_disk_ret.
Qed.

End KeepsDisk.

Ltac keeps_disk_step :=
  lazymatch goal with
  | |- keeps_disk (bind get_world _) => apply keeps_disk_get_world; intros ?
  | |- keeps_disk (bind _ _) => apply keeps_disk_bind; [|intros ?]
  | |- keeps_disk (ret _) => apply keeps_disk_ret
  | |- keeps_disk (lift _) => apply keeps_disk_lift
  | |- keeps_disk (emit _) => apply keeps_disk_emit
  | |- keeps_disk (accelerator_print _ _) => apply keeps_disk_emit
  | |- keeps_disk (call_ext _) => apply keeps_disk_call_ext
  | |- keeps_disk (if ?b then _ else _) => destruct b
  | |- keeps_disk (match ?x with _ => _ end) => destruct x
  end.

(** ** The epoch loop and its files *)

Section ScriptRuns.
Context {T : Type} `{Externals T}.

Lemma keeps_disk_train_one_epoch cfg model (train_loader : list (batch T)) epoch step :
  keeps_disk (train_one_epoch cfg model train_loader epoch step).
Proof.
  unfold train_one_epoch.
  keeps_disk_step; [keeps_disk_step|]. keeps_disk_step.
  { apply keeps_disk_for_enumerate. intros i x s.
    unfold train_batch, model_call. repeat keeps_disk_step. }
  unfold PA_val. repeat keeps_disk_step.
Qed.

Lemma keeps_disk_val_one_epoch cfg model (val_loader : list (batch T)) epoch step :
  keeps_disk (val_one_epoch cfg model val_loader epoch step).
Proof. unfold val_one_epoch, PA_val. repeat keeps_disk_step. Qed.

(** The files after a completed iteration of the epoch loop. *)
Lemma epoch_body_disk cfg model train_loader val_loader epoch v (w w' : world T) v' :
  epoch_body cfg model train_loader val_loader epoch v w = (w', Ok v') ->
  let record := Stored (epoch_record epoch (v_best_score v') (v_best_metrics v')
                          (v_train_step v') (v_val_step v')) in
  cwd w' = cwd w
  /\ ((v_best_score v' = v_best_score v /\ v_best_metrics v' = v_best_metrics v
       /\ disk w' = <[model_store cfg w +:+ "/checkpoint/epoch.pth.tar" := record]> (disk w))
      \/ (exists state_dict,
             disk w'
             = <[model_store cfg w +:+ "/checkpoint/epoch.pth.tar" := record]>
                 (<[model_store cfg w +:+ "/best/epoch.pth.tar" := record]>
                    (<[model_store cfg w +:+ "/best/new/model.pth" := Stored state_dict]>
                       (disk w))))).
Proof.
  intros Hrun. unfold epoch_body in Hrun.
  apply bind_inv in Hrun as (w1 & train_step & Htrain & Hrun).
  apply bind_inv in Hrun as (w2 & [[score metrics] val_step] & Hval & Hrun).
  destruct (train_val_trace _ _ _ _ _ _ _ _ _ _ _ _ Htrain Hval) as (Hcwd & _).
  assert (disk w2 = disk w) as Hdisk.
  { pose proof (keeps_disk_train_one_epoch cfg model train_loader epoch (v_train_step v) w)
      as Hd1.
    pose proof (keeps_disk_val_one_epoch cfg model val_loader epoch (v_val_step v) w1)
      as Hd2.
    rewrite Htrain in Hd1. rewrite Hval in Hd2. simpl in Hd1, Hd2. congruence. }
  apply bind_inv in Hrun as (w3 & best & Hbest & Hrun).
  unfold lift in Hbest. injection Hbest as <- Hbest.
  apply bind_inv in Hrun as (w3 & better & Hbetter & Hrun).
  unfold lift in Hbetter. injection Hbetter as <- Hbetter.
  apply bind_inv in Hrun as (w3 & [best_score best_metrics] & Hif & Hrun).
  destruct better.
  - apply bind_inv in Hif as (w4 & w4' & Hg & Hif). injection Hg as <- <-.
    apply bind_inv in Hif as (w5 & [] & Hsave & Hif). injection Hsave as <-.
    apply bind_inv in Hif as (w6 & state_dict & Hsd & Hif).
    assert (w6 = World (cwd w2) (ext_effect (EvSaveState (model_store cfg w2 +:+ "/best/new/"))
                                   (heap w2)) (disk w2) (web w2)
                   (trace w2 ++ [EvSaveState (model_store cfg w2 +:+ "/best/new/")])) as ->.
    { unfold model_state_dict, bind, get_world in Hsd.
      destruct model; try discriminate. simpl in Hsd.
      destruct (_ !! l) as [[]|]; try discriminate. injection Hsd as <- _. reflexivity. }
    unfold bind, torch_save, ret in Hif. simpl in Hif. injection Hif as <- <- <-.
    unfold bind, accelerator_print, emit, get_world, call_ext, torch_save, ret in Hrun.
    simpl in Hrun. injection Hrun as <- <-.
    unfold model_store. simpl. rewrite Hcwd, Hdisk. split; [reflexivity|].
    right. exists state_dict. reflexivity.
  - unfold ret in Hif. injection Hif as <- <- <-.
    unfold bind, accelerator_print, emit, get_world, call_ext, torch_save, ret in Hrun.
    simpl in Hrun. injection Hrun as <- <-.
    unfold model_store. simpl. rewrite Hcwd, Hdisk. split; [reflexivity|].
    left. auto.
Qed.

(** The file a completed iteration of the epoch loop leaves in the
    checkpoint directory. *)
Lemma epoch_body_checkpoint_file cfg model train_loader val_loader epoch v (w w' : world T) v' :
  epoch_body cfg model train_loader val_loader epoch v w = (w', Ok v') ->
  cwd w' = cwd w
  /\ disk w' !! (model_store cfg w +:+ "/checkpoint/epoch.pth.tar")
     = Some (Stored (epoch_record epoch (v_best_score v') (v_best_metrics v')
                       (v_train_step v') (v_val_step v'))).
Proof.
  intros Hrun. apply epoch_body_disk in Hrun as (Hcwd & Hdisk). cbv zeta in Hdisk.
  split; [exact Hcwd|].
  destruct Hdisk as [(_ & _ & ->) | (state_dict & ->)]; apply lookup_insert_eq.
Qed.

(** X9.  What an iteration of the epoch loop writes, the resumption reads:
    after a completed iteration for [epoch], the metadata read from the
    checkpoint directory of [config.finetune.checkpoint +
    config.trainer.dataset] are the best score, best metrics and step
    counters the iteration ended with, and the starting epoch is
    [epoch + 1]. *)
Theorem checkpoint_round_trip :
  forall (cfg : config) (model : pyval) (train_loader val_loader : list (batch T))
         (epoch : Z) (v v' : vars) (w w' : world T),
    epoch_body cfg model train_loader val_loader epoch v w = (w', Ok v') ->
    read_epoch_checkpoint
      (checkpoint_path w' (finetune_checkpoint cfg +:+ trainer_dataset cfg)) w'
    = (w', Ok (EpochMeta (v_best_score v') (v_best_metrics v') (PyInt (epoch + 1))
                 (v_train_step v') (v_val_step v'))).
Proof.
  intros cfg model train_loader val_loader epoch v v' w w' Hrun.
  apply epoch_body_checkpoint_file in Hrun as [Hcwd Hfile].
  unfold read_epoch_checkpoint, checkpoint_path, bind, torch_load, read_file.
  unfold model_store in Hfile. rewrite Hcwd.
  replace ((cwd w +:+ "/model_store/" +:+ (finetune_checkpoint cfg +:+ trainer_dataset cfg)
            +:+ "/checkpoint") +:+ "/epoch.pth.tar")
    with ((cwd w +:+ "/model_store/" +:+ (finetune_checkpoint cfg +:+ trainer_dataset cfg))
          +:+ "/checkpoint/epoch.pth.tar")
    by (rewrite !str_append_assoc; reflexivity).
  rewrite Hfile. reflexivity.
Qed.

(** The counter [train_one_epoch] returns. *)
Lemma train_one_epoch_step cfg model train_loader epoch step (w w' : world T) step' :
  train_one_epoch cfg model train_loader epoch step w = (w', Ok step') ->
  match train_loader with
  | [] => step' = step
  | _ :: _ => py_add1 step = Ok step'
  end.
Proof.
  intros Hrun. unfold train_one_epoch in Hrun.
  apply bind_inv in Hrun as (w1 & [] & _ & Hrun).
  apply bind_inv in Hrun as (w2 & s2 & Hloop & Hrun).
  apply bind_inv in Hrun as (w3 & [] & _ & Hrun).
  apply bind_inv in Hrun as (w4 & vt & _ & Hrun).
  apply bind_inv in Hrun as (w5 & [] & _ & Hrun).
  cbn in Hrun. injection Hrun as _ <-.
  destruct train_loader as [|b rest]; cbn [for_enumerate] in Hloop.
  - injection Hloop as _ <-. reflexivity.
  - apply bind_inv in Hloop as (w2' & r & Hbatch & Hret).
    apply train_batch_run in Hbatch
      as (o1 & o2 & o3 & o4 & log & text & args & s' & -> & Hadd & _).
    cbn in Hret. injection Hret as _ <-. exact Hadd.
Qed.

(** The values of [epoch], [train_step] after a loop over [epochs]. *)
Lemma for_epochs_counts cfg model train_loader val_loader epochs v (w w' : world T) v' n :
  for_epochs cfg model train_loader val_loader epochs v w = (w', Ok v') ->
  v_train_step v = PyInt n ->
  v_train_step v'
  = PyInt (n + match train_loader with [] => 0 | _ => Z.of_nat (length epochs) end)
  /\ v_epoch v' = match last epochs with Some e => Some e | None => v_epoch v end.
Proof.
  revert v w n. induction epochs as [|epoch epochs IH]; intros v w n Hrun Hn.
  - simpl in Hrun. injection Hrun as _ <-. simpl. rewrite Hn.
    split; [|reflexivity]. f_equal. destruct train_loader; lia.
  - cbn [for_epochs] in Hrun.
    apply bind_inv in Hrun as (w1 & v1 & Hbody & Hrest).
    assert (v_epoch v1 = Some epoch
            /\ v_train_step v1 = PyInt (n + match train_loader with [] => 0 | _ => 1 end))
      as [He1 Hs1].
    { unfold epoch_body in Hbody.
      apply bind_inv in Hbody as (w2 & train_step & Htrain & Hbody).
      apply train_one_epoch_step in Htrain.
      assert (train_step = PyInt (n + match train_loader with [] => 0 | _ => 1 end)) as ->.
      { rewrite Hn in Htrain. destruct train_loader.
        - subst. f_equal. lia.
        - simpl in Htrain. injection Htrain as <-. reflexivity. }
      apply bind_inv in Hbody as (w3 & [[score metrics] val_step] & _ & Hbody).
      apply bind_inv in Hbody as (w4 & best & _ & Hbody).
      apply bind_inv in Hbody as (w5 & better & _ & Hbody).
      apply bind_inv in Hbody as (w6 & [best_score best_metrics] & _ & Hbody).
      apply bind_inv in Hbody as (w7 & [] & _ & Hbody).
      apply bind_inv in Hbody as (w8 & [] & _ & Hbody).
      apply bind_inv in Hbody as (w9 & w9' & _ & Hbody).
      apply bind_inv in Hbody as (w10 & [] & _ & Hbody).
      apply bind_inv in Hbody as (w11 & [] & _ & Hbody).
      apply bind_inv in Hbody as (w12 & [] & _ & Hbody).
      injection Hbody as _ <-. simpl. auto. }
    destruct (IH _ _ _ Hrest Hs1) as [Hs He]. rewrite Hs, He. split.
    + f_equal. destruct train_loader; [lia|]. cbn [length]. lia.
    + rewrite (last_cons epoch). destruct (last epochs); [reflexivity | exact He1].
Qed.

(** X10.  A training run that completes has gone through the epochs from
    the starting epoch to [num_epochs - 1]: [epoch] ends as
    [num_epochs - 1], and [train_step], which counts one step for every
    epoch whatever the number of batches, has grown by
    [num_epochs - start]; when the starting epoch is not below
    [num_epochs], nothing is run and [epoch] keeps no value. *)
Theorem training_epochs_and_steps :
  forall (cfg : config) (model : pyval) (b : batch T) (rest : list (batch T))
         (val_loader : list (batch T)) (start num_epochs n : Z) (v v' : vars)
         (w w' : world T),
    trainer_is_train cfg = PyBool true ->
    trainer_num_epochs cfg = PyInt num_epochs ->
    v_train_step v = PyInt n ->
    training cfg model (b :: rest) val_loader (PyInt start) v w = (w', Ok v') ->
    v_train_step v' = PyInt (n + Z.max 0 (num_epochs - start))
    /\ v_epoch v' = (if (start <? num_epochs)%Z then Some (num_epochs - 1)%Z else v_epoch v).
Proof.
  intros cfg model b rest val_loader start num_epochs n v v' w w' Htrain Hnum Hn Hrun.
  unfold training in Hrun. rewrite Htrain, Hnum in Hrun.
  unfold bind, lift in Hrun. simpl in Hrun.
  apply for_epochs_counts with (n := n) in Hrun as [Hs He]; [|exact Hn].
  rewrite Hs, He. rewrite length_map, length_seq. split.
  - f_equal. lia.
  - destruct (Z.ltb_spec start num_epochs) as [Hlt|Hge].
    + destruct (Z.to_nat (num_epochs - start)) as [|k] eqn:Hk; [lia|].
      rewrite seq_S, map_app. cbn [map]. rewrite last_snoc. f_equal. lia.
    + replace (Z.to_nat (num_epochs - start)) with 0 by lia. reflexivity.
Qed.

(** A key [val_one_epoch] reads is not in the metrics. *)
Ltac absent_key :=
  split;
  [ discriminate
  | intros ([= <- <-] & _ & Hall);
    repeat (apply Forall_cons in Hall as [[? ?] Hall]); congruence ].

(** X11.  [val_one_epoch] returns the IVT score, the metrics and the step of
    [PA_val], and it returns exactly when [PA_val] does and the metrics
    hold the six scores it reads. *)
Theorem val_one_epoch_returns :
  forall (cfg : config) (model : pyval) (val_loader : list (batch T)) (epoch : Z)
         (step score metrics step' : pyval) (w : world T),
    (val_one_epoch cfg model val_loader epoch step w).2 = Ok (score, metrics, step')
    <-> ext_PA_val (heap w) model val_loader step false = Ok (metrics, step')
        /\ py_getitem metrics "Val/IVT" = Ok score
        /\ Forall (fun k => exists x, py_getitem metrics k = Ok x) val_keys.
Proof.
  intros cfg model val_loader epoch step score metrics step' w.
  unfold val_one_epoch, PA_val, bind, get_world, call_ext, lift, accelerator_print, emit, ret.
  simpl.
  destruct (ext_PA_val (heap w) model val_loader step false) as [[m s]|e] eqn:Hpa; simpl.
  - unfold val_keys.
    destruct (py_getitem m "Val/I") as [x1|] eqn:H1; simpl;
      [|absent_key].
    destruct (py_getitem m "Val/T") as [x2|] eqn:H2; simpl;
      [|absent_key].
    destruct (py_getitem m "Val/V") as [x3|] eqn:H3; simpl;
      [|absent_key].
    destruct (py_getitem m "Val/IVM") as [x4|] eqn:H4; simpl;
      [|absent_key].
    destruct (py_getitem m "Val/ITM") as [x5|] eqn:H5; simpl;
      [|absent_key].
    destruct (py_getitem m "Val/IVT") as [x6|] eqn:H6; simpl;
      [|absent_key].
    split.
    + intros [= <- <- <-]. split; [reflexivity|]. split; [exact H6|].
      repeat constructor; eauto.
    + intros ([= <- <-] & Hs & _). congruence.
  - split; [discriminate | intros [[=] _]].
Qed.

(** X12.  The file [best/epoch.pth.tar] agrees with the best score of the
    run: after any number of completed epochs, either the best score and
    metrics are those the loop started with and the file is as it was, or
    the file holds, for one of the epochs run, the best score and the best
    metrics the loop ended with. *)
Theorem best_file_tracks_best_score :
  forall (cfg : config) (model : pyval) (train_loader val_loader : list (batch T))
         (epochs : list Z) (v v' : vars) (w w' : world T),
    for_epochs cfg model train_loader val_loader epochs v w = (w', Ok v') ->
    let best := model_store cfg w +:+ "/best/epoch.pth.tar" in
    (v_best_score v' = v_best_score v /\ v_best_metrics v' = v_best_metrics v
     /\ disk w' !! best = disk w !! best)
    \/ (exists epoch train_step val_step,
           epoch ∈ epochs
           /\ disk w' !! best
              = Some (Stored (epoch_record epoch (v_best_score v') (v_best_metrics v')
                                train_step val_step))).
Proof.
  intros cfg model train_loader val_loader epochs.
  induction epochs as [|epoch epochs IH]; intros v v' w w' Hrun; cbv zeta.
  - simpl in Hrun. injection Hrun as <- <-. left. auto.
  - cbn [for_epochs] in Hrun.
    apply bind_inv in Hrun as (w1 & v1 & Hbody & Hrest).
    apply epoch_body_disk in Hbody as (Hcwd & Hbody).
    specialize (IH _ _ _ _ Hrest). cbv zeta in IH.
    assert (model_store cfg w1 = model_store cfg w) as Hstore
      by (unfold model_store; rewrite Hcwd; reflexivity).
    rewrite Hstore in IH.
    assert (model_store cfg w +:+ "/checkpoint/epoch.pth.tar"
            <> model_store cfg w +:+ "/best/epoch.pth.tar") as Hne.
    { intros Heq. apply append_inj_l in Heq. discriminate Heq. }
    destruct IH as [(Hs & Hm & Hfile) | (e & ts & vs & He & Hfile)].
    + destruct Hbody as [(Hs1 & Hm1 & Hd1) | (state_dict & Hd1)].
      * left. rewrite Hs, Hm, Hfile, Hs1, Hm1, Hd1.
        rewrite lookup_insert_ne by exact Hne. auto.
      * right. exists epoch, (v_train_step v1), (v_val_step v1).
        split; [left|]. rewrite Hs, Hm, Hfile, Hd1.
        rewrite lookup_insert_ne by exact Hne. apply lookup_insert_eq.
    + right. exists e, ts, vs. split; [right; exact He | exact Hfile].
Qed.

End ScriptRuns.

Lemma training_epochs_and_steps_witness :
  let r := training (sample_config (PyBool true) 2) (PyRef 1%positive)
             [sample_batch 1; sample_batch 2] [sample_batch 3] (PyInt 0)
             (Vars None (PyInt 0) (PyInt 0) zero_score (PyDict [])) (sample_world ∅) in
  exists v', r.2 = Ok v'
    /\ v_train_step v' = PyInt (0 + Z.max 0 (2 - 0))
    /\ v_epoch v' = Some (2 - 1)%Z.
Proof.
  cbv zeta.
  destruct (training (sample_config (PyBool true) 2) (PyRef 1%positive)
             [sample_batch 1; sample_batch 2] [sample_batch 3] (PyInt 0)
             (Vars None (PyInt 0) (PyInt 0) zero_score (PyDict [])) (sample_world ∅))
    as [w' [v'|e]] eqn:Hrun.
  - exists v'. split; [reflexivity|].
    exact (training_epochs_and_steps (sample_config (PyBool true) 2) (PyRef 1%positive)
             (sample_batch 1) [sample_batch 2] [sample_batch 3] 0 2 0
             (Vars None (PyInt 0) (PyInt 0) zero_score (PyDict [])) v' (sample_world ∅) w'
             eq_refl eq_refl eq_refl Hrun).
  - exfalso. vm_compute in Hrun. discriminate Hrun.
Defined.

Lemma checkpoint_round_trip_witness :
  let r := epoch_body (sample_config (PyBool true) 2) (PyRef 1%positive)
             [sample_batch 1] [sample_batch 3] 0
             (Vars None (PyInt 0) (PyInt 0) zero_score (PyDict [])) (sample_world ∅) in
  exists v', r.2 = Ok v'
    /\ (read_epoch_checkpoint (checkpoint_path r.1 "ckT45") r.1).2
       = Ok (EpochMeta (v_best_score v') (v_best_metrics v') (PyInt (0 + 1))
               (v_train_step v') (v_val_step v')).
Proof.
  cbv zeta.
  destruct (epoch_body (sample_config (PyBool true) 2) (PyRef 1%positive)
             [sample_batch 1] [sample_batch 3] 0
             (Vars None (PyInt 0) (PyInt 0) zero_score (PyDict [])) (sample_world ∅))
    as [w' [v'|e]] eqn:Hrun.
  - exists v'. split; [reflexivity|]. cbn [fst].
    exact (f_equal snd
             (checkpoint_round_trip (sample_config (PyBool true) 2) (PyRef 1%positive)
                [sample_batch 1] [sample_batch 3] 0 _ v' (sample_world ∅) w' Hrun)).
  - exfalso. vm_compute in Hrun. discriminate Hrun.
Defined.


Lemma best_file_tracks_best_score_witness :
  let cfg := sample_config (PyBool true) 2 in
  let r := for_epochs cfg (PyRef 1%positive) [sample_batch 1; sample_batch 2]
             [sample_batch 3] [0; 1]%Z
             (Vars None (PyInt 0) (PyInt 0) zero_score (PyDict [])) (sample_world ∅) in
  exists v', r.2 = Ok v'
    /\ ((v_best_score v' = zero_score /\ v_best_metrics v' = PyDict []
         /\ disk r.1 !! (model_store cfg (sample_world ∅) +:+ "/best/epoch.pth.tar")
            = None)
        \/ (exists epoch train_step val_step,
               epoch ∈ [0; 1]%Z
               /\ disk r.1 !! (model_store cfg (sample_world ∅)
                               +:+ "/best/epoch.pth.tar")
                  = Some (Stored (epoch_record epoch (v_best_score v') (v_best_metrics v')
                                    train_step val_step)))).
Proof.
  cbv zeta.
  destruct (for_epochs (sample_config (PyBool true) 2) (PyRef 1%positive)
              [sample_batch 1; sample_batch 2] [sample_batch 3] [0; 1]%Z
              (Vars None (PyInt 0) (PyInt 0) zero_score (PyDict [])) (sample_world ∅))
    as [w' [v'|e]] eqn:Hrun.
  - exists v'. split; [reflexivity|].
    exact (best_file_tracks_best_score (sample_config (PyBool true) 2) (PyRef 1%positive)
             [sample_batch 1; sample_batch 2] [sample_batch 3] [0; 1]%Z _ v'
             (sample_world ∅) w' Hrun).
  - exfalso. vm_compute in Hrun. discriminate Hrun.
Defined.

Lemma val_one_epoch_returns_witness :
  exists score metrics step',
    (val_one_epoch (sample_config (PyBool true) 2) (PyRef 1%positive) [sample_batch 3] 0
       (PyInt 0) (sample_world ∅)).2 = Ok (score, metrics, step')
    /\ py_getitem metrics "Val/IVT" = Ok score
    /\ Forall (fun k => exists x, py_getitem metrics k = Ok x) val_keys.
Proof.
  destruct (val_one_epoch (sample_config (PyBool true) 2) (PyRef 1%positive) [sample_batch 3] 0
              (PyInt 0) (sample_world ∅)) as [w' [[[score metrics] step']|e]] eqn:Hrun.
  - exists score, metrics, step'. split; [reflexivity|].
    exact (proj2 (proj1 (val_one_epoch_returns (sample_config (PyBool true) 2)
                           (PyRef 1%positive) [sample_batch 3] 0 (PyInt 0) score metrics step'
                           (sample_world ∅))
                    (f_equal snd Hrun))).
  - exfalso. vm_compute in Hrun. discriminate Hrun.
Defined.

(* ===================================================================== *)
(** * The inputs [EndoForm] accepts *)
(* ===================================================================== *)

Module ShapeDomain.
Import Shape ShapeFacts.

Lemma conv_out_inv n k stride pad m :
  conv_out n k stride pad = Some m ->
  k <= n + 2 * pad /\ 0 < n /\ m = (n + 2 * pad - k) / stride + 1.
Proof.
  unfold conv_out.
  destruct (Nat.leb_spec k (n + 2 * pad)); destruct (Nat.ltb_spec 0 n);
    simpl; try discriminate.
  intros [= <-]. auto.
Qed.

Lemma Conv2d_inv in_c out_c k stride pad b c h w y :
  Conv2d in_c out_c k stride pad [b; c; h; w] = Some y ->
  c = in_c /\ k <= h + 2 * pad /\ k <= w + 2 * pad /\ 0 < h /\ 0 < w.
Proof.
  unfold Conv2d. intros Hy.
  apply bind_Some in Hy as ([] & Hc & Hy).
  apply bind_Some in Hy as (h' & Hh & Hy).
  apply bind_Some in Hy as (w' & Hw & _).
  apply conv_out_inv in Hh, Hw.
  unfold check in Hc. destruct (Nat.eqb_spec c in_c); [|discriminate]. tauto.
Qed.

Lemma MaxPool2d_2_inv b c h w y :
  MaxPool2d_2 [b; c; h; w] = Some y -> 2 <= h /\ 2 <= w.
Proof.
  unfold MaxPool2d_2.
  destruct (Nat.leb_spec 2 h); destruct (Nat.leb_spec 2 w); simpl; try discriminate.
  auto.
Qed.

Lemma LayerNorm_inv dim s r : LayerNorm dim s = Some r -> r = s.
Proof.
  unfold LayerNorm. destruct (reverse s) as [|d rest]; [discriminate|].
  destruct (d =? dim); simpl; congruence.
Qed.

Lemma BatchNorm2d_inv training c s r : BatchNorm2d training c s = Some r -> r = s.
Proof.
  unfold BatchNorm2d. destruct s as [|b [|c' [|h [|w [|]]]]]; try discriminate.
  destruct (c' =? c); simpl; [|discriminate].
  destruct (negb _); simpl; congruence.
Qed.

(** A [reshape] without [-1] returns the sizes it was given. *)
Lemma reshape_exact_inv dims s r : reshape (map Some dims) s = Some r -> r = dims.
Proof.
  unfold reshape. rewrite holes_some.
  destruct (numel s =? known (map Some dims)); simpl; [|discriminate].
  rewrite map_default_some. congruence.
Qed.

(** A [reshape] with one [-1] needs the given sizes to be positive. *)
Lemma reshape_hole_inv pre post s r :
  reshape (map Some pre ++ None :: map Some post) s = Some r ->
  0 < numel pre * numel post.
Proof.
  unfold reshape. rewrite holes_hole, known_hole.
  destruct (Nat.ltb_spec 0 (numel pre * numel post)); simpl; [auto | discriminate].
Qed.

(** The patch embedding accepts four dimensions only. *)
Lemma OverlapPatchEmbed_inv p stride in_chans dim x r :
  OverlapPatchEmbed p stride in_chans dim x = Some r ->
  exists B H W,
    x = [B; in_chans; H; W]
    /\ p <= H + 2 * (p / 2) /\ p <= W + 2 * (p / 2) /\ 0 < H /\ 0 < W.
Proof.
  unfold OverlapPatchEmbed. intros Hr.
  apply bind_Some in Hr as (y & Hconv & Hr).
  destruct x as [|a [|b [|c [|d [|e rest]]]]]; try discriminate Hconv.
  - exfalso. unfold Conv2d in Hconv.
    apply bind_Some in Hconv as ([] & _ & Hconv).
    apply bind_Some in Hconv as (h' & _ & Hconv).
    apply bind_Some in Hconv as (w' & _ & Hconv).
    injection Hconv as <-. discriminate Hr.
  - apply Conv2d_inv in Hconv as (-> & ?). exists a, c, d. tauto.
Qed.

(** The first block of a stage with a spatial reduction needs a map as
    large as the reduction's kernel. *)
Lemma Attention_sr_inv dim num_heads sr_ratio B N H W r :
  1 < sr_ratio ->
  Attention dim num_heads sr_ratio [B; N; dim] H W = Some r ->
  sr_ratio <= H /\ sr_ratio <= W.
Proof.
  intros Hsr Hr. unfold Attention in Hr.
  apply bind_Some in Hr as (q & _ & Hr).
  apply bind_Some in Hr as (q1 & _ & Hr).
  apply bind_Some in Hr as (q2 & _ & Hr).
  apply bind_Some in Hr as (kv & Hkv & _).
  apply Nat.ltb_lt in Hsr. rewrite Hsr in Hkv.
  apply bind_Some in Hkv as (x1 & _ & Hkv).
  apply bind_Some in Hkv as (x2 & Hx2 & Hkv).
  apply bind_Some in Hkv as (x3 & Hx3 & _).
  apply (reshape_exact_inv [B; dim; H; W]) in Hx2 as ->.
  apply Conv2d_inv in Hx3. lia.
Qed.

Lemma stage_inv p stride in_chans dim heads mlp_ratio sr depth B x c :
  1 < sr ->
  stage p stride in_chans dim heads mlp_ratio sr (S depth) B x = Some c ->
  exists b H W,
    x = [b; in_chans; H; W] /\ 0 < B
    /\ p <= H + 2 * (p / 2) /\ p <= W + 2 * (p / 2) /\ 0 < H /\ 0 < W
    /\ sr <= down p stride H /\ sr <= down p stride W.
Proof.
  intros Hsr Hc. unfold stage in Hc.
  apply bind_Some in Hc as ([[x1 H1] W1] & Hembed & Hc).
  destruct (OverlapPatchEmbed_inv _ _ _ _ _ _ Hembed)
    as (b & H & W & -> & HpH & HpW & HH & HW).
  rewrite OverlapPatchEmbed_ok in Hembed by assumption.
  injection Hembed as <- <- <-. fold (down p stride H) in *. fold (down p stride W) in *.
  apply bind_Some in Hc as (x2 & Hblocks & Hc).
  apply bind_Some in Hc as (x3 & _ & Hc).
  apply bind_Some in Hc as (x4 & Hx4 & _).
  apply (reshape_hole_inv [B; down p stride H; down p stride W] []) in Hx4.
  cbn [iterate] in Hblocks.
  apply bind_Some in Hblocks as (y & Hblock & _).
  unfold Block in Hblock.
  apply bind_Some in Hblock as (n & Hn & Hblock).
  apply LayerNorm_inv in Hn as ->.
  apply bind_Some in Hblock as (a & Ha & _).
  apply (Attention_sr_inv _ _ _ _ _ _ _ _ Hsr) in Ha.
  exists b, H, W. simpl in Hx4. repeat split; try tauto; try lia.
Qed.

(** X13.  The backbone [pvt_v2_b2] returns its four feature maps exactly
    for inputs of four dimensions with three channels, a batch that is not
    empty, and height and width of at least 29: the first stage reduces the
    keys of its attention by a convolution of kernel 8 on the map that the
    patch embedding, of stride 4, returns. *)
Theorem pvt_v2_b2_domain :
  forall (x : shape),
    is_Some (pvt_v2_b2 3 (64, 128, 320, 512) x)
    <-> exists B H W, x = [B; 3; H; W] /\ 1 <= B /\ 29 <= H /\ 29 <= W.
Proof.
  intros x. split.
  - intros [r Hr]. unfold pvt_v2_b2 in Hr.
    apply bind_Some in Hr as (B & HB & Hr).
    apply bind_Some in Hr as (c1 & Hc1 & _).
    apply stage_inv in Hc1 as (b & H & W & -> & HB0 & _ & _ & _ & _ & HsH & HsW); [|lia].
    injection HB as ->. exists B, H, W. unfold down in HsH, HsW.
    split; [reflexivity|]. lia.
  - intros (B & H & W & -> & HB & HH & HW).
    rewrite pvt_v2_b2_ok by lia. eauto.
Qed.

(** X14.  On an input whose height and width are multiples of 32, the four
    feature maps of the backbone are a quarter, an eighth, a sixteenth and
    a thirty-second of the input, with 64, 128, 320 and 512 channels. *)
Theorem pvt_v2_b2_pyramid :
  forall (B h w : nat),
    1 <= B -> 1 <= h -> 1 <= w ->
    pvt_v2_b2 3 (64, 128, 320, 512) [B; 3; 32 * h; 32 * w]
    = Some ([B; 64; 8 * h; 8 * w], [B; 128; 4 * h; 4 * w],
            [B; 320; 2 * h; 2 * w], [B; 512; h; w]).
Proof.
  intros B h w HB Hh Hw. rewrite pvt_v2_b2_ok by lia. unfold down.
  repeat f_equal; lia.
Qed.

Lemma BasicConv2d_same3_inv training in_c out_c b c h w y :
  0 < h -> 0 < w ->
  BasicConv2d training in_c out_c 3 1 1 [b; c; h; w] = Some y ->
  y = [b; out_c; h; w].
Proof.
  intros Hh Hw Hy. unfold BasicConv2d in Hy.
  apply bind_Some in Hy as (y1 & Hconv & Hbn).
  apply BatchNorm2d_inv in Hbn as ->.
  pose proof (Conv2d_inv _ _ _ _ _ _ _ _ _ _ Hconv) as (-> & _).
  rewrite Conv2d_same3 in Hconv by assumption. congruence.
Qed.

Lemma shared_conv_inv in_c b h w y :
  shared_conv in_c [b; in_c; h; w] = Some y -> 11 <= h /\ 11 <= w.
Proof.
  unfold shared_conv. intros Hy.
  apply bind_Some in Hy as (y1 & Hy1 & Hy).
  pose proof (Conv2d_inv _ _ _ _ _ _ _ _ _ _ Hy1) as (_ & ? & ? & ? & ?).
  rewrite Conv2d_ok in Hy1 by assumption. apply (inj Some) in Hy1 as <-.
  apply bind_Some in Hy as (y2 & Hy2 & Hy).
  pose proof (MaxPool2d_2_inv _ _ _ _ _ Hy2) as [? ?].
  rewrite MaxPool2d_2_ok in Hy2 by assumption. apply (inj Some) in Hy2 as <-.
  apply bind_Some in Hy as (y3 & Hy3 & Hy).
  pose proof (Conv2d_inv _ _ _ _ _ _ _ _ _ _ Hy3) as (_ & ? & ? & ? & ?).
  rewrite Conv2d_ok in Hy3 by assumption. apply (inj Some) in Hy3 as <-.
  apply MaxPool2d_2_inv in Hy. lia.
Qed.

(** X15.  The forward pass of [EndoForm] returns only for inputs of four
    dimensions with three channels, a batch that is not empty and height
    and width of at least 41: the feature map of the first stage, a quarter
    of the input, goes through the two convolutions of stride 2 and the two
    max-pools of [shared_conv], and the second max-pool needs two rows and
    two columns. *)
Theorem EndoForm_forward_domain :
  forall (training : bool) (x : shape) (r : shape * shape * shape * shape),
    EndoForm_forward EndoForm_defaults training x = Some r ->
    exists B H W, x = [B; 3; H; W] /\ 1 <= B /\ 41 <= H /\ 41 <= W.
Proof.
  intros training x r Hr.
  unfold EndoForm_forward, EndoForm_defaults in Hr.
  cbn [dims in_channels total_channels i_channels t_channels v_channels num_heads out_dim
       kernel_size mlp_ratio] in Hr.
  apply bind_Some in Hr as ([[[c1 c2] c3] c4] & Hpvt & Hr).
  destruct (proj1 (pvt_v2_b2_domain x) (ex_intro _ _ Hpvt))
    as (B & H & W & -> & HB & HH & HW).
  rewrite pvt_v2_b2_ok in Hpvt by lia. injection Hpvt as <- <- <- <-.
  do 10 (apply bind_Some in Hr as (? & _ & Hr)).
  apply bind_Some in Hr as (L_feature & HL & Hr).
  apply BasicConv2d_same3_inv in HL as ->; [|unfold down; lia ..].
  do 2 (apply bind_Some in Hr as (? & _ & Hr)).
  apply bind_Some in Hr as ([i_out t_out] & Hit & _).
  unfold SiameseNetworkWithCrossAttention in Hit.
  apply bind_Some in Hit as (sf & Hsf & _).
  apply shared_conv_inv in Hsf. unfold down in Hsf.
  exists B, H, W. split; [reflexivity|]. lia.
Qed.

End ShapeDomain.

Lemma pvt_v2_b2_domain_witness :
  is_Some (Shape.pvt_v2_b2 3 (64, 128, 320, 512) [1; 3; 29; 29])
  /\ ~ is_Some (Shape.pvt_v2_b2 3 (64, 128, 320, 512) [1; 3; 28; 29]).
Proof.
  split.
  - apply (proj2 (ShapeDomain.pvt_v2_b2_domain [1; 3; 29; 29])).
    exists 1, 29, 29. repeat split; lia.
  - intros Hs. apply (proj1 (ShapeDomain.pvt_v2_b2_domain [1; 3; 28; 29])) in Hs
      as (B & H & W & [= <- <- <-] & _ & HH & _). lia.
Defined.

Lemma EndoForm_forward_domain_witness :
  exists B H W, [2; 3; 41; 41] = [B; 3; H; W] /\ 1 <= B /\ 41 <= H /\ 41 <= W.
Proof.
  refine (ShapeDomain.EndoForm_forward_domain true [2; 3; 41; 41]
            ([2; 6], [2; 10], [2; 15], [2; 100]) _).
  vm_compute. reflexivity.
Defined.

(** The input of the test at the end of EndoForm.py, 256 by 448. *)
Lemma pvt_v2_b2_pyramid_witness :
  Shape.pvt_v2_b2 3 (64, 128, 320, 512) [1; 3; 32 * 8; 32 * 14]
  = Some ([1; 64; 8 * 8; 8 * 14], [1; 128; 4 * 8; 4 * 14],
          [1; 320; 2 * 8; 2 * 14], [1; 512; 8; 14]).
Proof. apply ShapeDomain.pvt_v2_b2_pyramid; lia. Defined.

(* ===================================================================== *)
(** * What the triplet classifier computes from *)
(* ===================================================================== *)

Lemma length_concat_replicate {A} (n : nat) (r : list A) :
  length (concat (replicate n r)) = n * length r.
Proof. induction n as [|n IH]; simpl; [reflexivity|]. rewrite length_app, IH. reflexivity. Qed.

Lemma length_concat_rows {A} (k : nat) (rows : list (list A)) :
  Forall (fun r => length r = k) rows -> length (concat rows) = length rows * k.
Proof.
  intros Hrows. induction Hrows as [|r rows Hr Hrows IH]; simpl; [reflexivity|].
  rewrite length_app, IH, Hr. reflexivity.
Qed.

(** Cutting the rows laid end to end gives the rows back. *)
Lemma chunks_fuel_concat {A} (k : nat) (rows : list (list A)) (fuel : nat) :
  0 < k -> Forall (fun r => length r = k) rows -> length rows <= fuel ->
  Values.chunks_fuel fuel k (concat rows) = rows.
Proof.
  intros Hk Hrows. revert fuel.
  induction Hrows as [|r rows Hr Hrows IH]; intros fuel Hfuel.
  - destruct fuel; reflexivity.
  - destruct fuel as [|fuel]; [simpl in Hfuel; lia|].
    cbn [concat Values.chunks_fuel].
    destruct (r ++ concat rows) as [|a rest] eqn:Hcat.
    { apply (f_equal length) in Hcat. rewrite length_app in Hcat. simpl in Hcat. lia. }
    rewrite <- Hcat.
    rewrite take_app_length', drop_app_length' by (symmetry; exact Hr).
    rewrite IH by (simpl in Hfuel; lia). reflexivity.
Qed.

Lemma chunks_concat {A} (k : nat) (rows : list (list A)) :
  0 < k -> Forall (fun r => length r = k) rows -> Values.chunks k (concat rows) = rows.
Proof.
  intros Hk Hrows. unfold Values.chunks. apply chunks_fuel_concat; [assumption ..|].
  rewrite (length_concat_rows k) by assumption. nia.
Qed.

(** The rows handed to the projection of the query, and of the key, for a
    matrix: every row repeated. *)
Lemma view_2d_repeat_last {A} (rows n v : nat) (x : list (list A)) :
  has_shape rows n x ->
  Values.view_2d (n * v) (Values.repeat_last v x)
  = if Nat.ltb 0 (n * v) then Some (map (fun row => concat (replicate v row)) x) else None.
Proof.
  intros [Hlen Hrows]. unfold Values.view_2d, Values.repeat_last, Values.view_last.
  cbn [concat]. rewrite app_nil_r.
  destruct (Nat.ltb_spec 0 (n * v)) as [Hpos|Hzero]; [|reflexivity].
  assert (Forall (fun r => length r = n * v) (map (fun row => concat (replicate v row)) x))
    as Hall.
  { apply Forall_fmap. eapply Forall_impl; [exact Hrows|].
    intros r Hr. simpl. rewrite length_concat_replicate, Hr. lia. }
  rewrite (length_concat_rows (n * v)) by exact Hall.
  rewrite Nat.Div0.mod_mul. simpl.
  rewrite chunks_concat by assumption. reflexivity.
Qed.

Lemma zip_fmap_same {A B C} (f : A -> B) (g : A -> C) (l : list A) :
  zip (map f l) (map g l) = map (fun x => (f x, g x)) l.
Proof. induction l as [|x l IH]; simpl; [reflexivity|]. rewrite IH. reflexivity. Qed.

Lemma zip_with_fmap_same {A B C D} (f : B -> C -> D) (g : A -> B) (h : A -> C) (l : list A) :
  zip_with f (map g l) (map h l) = map (fun x => f (g x) (h x)) l.
Proof. induction l as [|x l IH]; simpl; [reflexivity|]. rewrite IH. reflexivity. Qed.

(** A function on pairs that does not tell two families apart gives the
    same on them, whatever they are paired with. *)
Lemma mapM_zip_fmap {A B C D} (f : B * C -> option D) (g g' : A -> B) (l : list A)
    (v : list C) :
  (forall x c, x ∈ l -> f (g x, c) = f (g' x, c)) ->
  mapM f (zip (map g l) v) = mapM f (zip (map g' l) v).
Proof.
  revert v. induction l as [|x l IH]; intros v Hf; [reflexivity|].
  destruct v as [|c v]; [reflexivity|].
  cbn [map zip zip_with mapM]. rewrite (Hf x c) by left.
  rewrite (IH v); [reflexivity|]. intros y d Hy. apply Hf. right. exact Hy.
Qed.

Section TripletClassifier.
Context {R : Type}.
Variables (Rzero : R) (Radd Rmul Rdiv : R -> R -> R).
Variable sqrt_nat : nat -> R.
Variable softmax : list R -> list R.

(** The scalars on which the softmax of a single score is 1: for floats,
    the finite ones. *)
Variable finite : R -> Prop.
Hypothesis softmax_one : forall x y : R, finite x -> finite y -> softmax [x] = softmax [y].

Lemma linear_cases (proj : Values.Linear) (x : list R) :
  Values.linear Rzero Radd Rmul proj x
  = if Nat.eqb (length x) (Values.in_features proj)
    then Some (zip_with (fun w b => Radd (Values.dot Rzero Radd Rmul x w) b)
                 (Values.weight proj) (Values.bias proj))
    else None.
Proof. unfold Values.linear. destruct (Nat.eqb _ _); reflexivity. Qed.

(** A linear layer on rows of one length: it accepts all of them or
    none, and returns rows as wide as the layer. *)
Lemma project_rows (proj : Values.Linear) (n : nat) (x : list (list R)) :
  Forall (fun r => length r = n) x -> x <> [] ->
  (n = Values.in_features proj
   /\ exists y,
        Values.project Rzero Radd Rmul proj x = Some y
        /\ length y = length x
        /\ Forall (fun r => length r = min (length (Values.weight proj))
                                           (length (Values.bias proj))) y)
  \/ (n <> Values.in_features proj /\ Values.project Rzero Radd Rmul proj x = None).
Proof.
  intros Hrows Hne. unfold Values.project.
  destruct (Nat.eqb_spec n (Values.in_features proj)) as [Hn|Hn]; [left | right].
  - split; [exact Hn|]. clear Hne. induction Hrows as [|r x Hr Hrows IH].
    + exists []. repeat split; constructor.
    + destruct IH as (y & Hy & Hlen & Hall).
      eexists (_ :: y). cbn [mapM]. rewrite linear_cases, Hy, Hr, Hn, Nat.eqb_refl.
      simpl. split; [reflexivity|]. split; [congruence|].
      constructor; [apply length_zip_with | exact Hall].
  - split; [exact Hn|].
    destruct Hrows as [|r x Hr Hrows]; [contradiction|].
    cbn [mapM]. rewrite linear_cases, Hr.
    apply Nat.eqb_neq in Hn. rewrite Hn. reflexivity.
Qed.

(** As widely projected as [num_heads * head_dim], a matrix of
    [batch_size] rows is viewed with one position for every element. *)
Lemma heads_of_rows (m : Values.AttentionClassifier) (proj : Values.Linear)
    (batch_size n : nat) (x : list (list R)) :
  length (Values.weight proj) = Values.num_heads m * Values.head_dim m ->
  length (Values.bias proj) = Values.num_heads m * Values.head_dim m ->
  0 < Values.num_heads m * Values.head_dim m ->
  0 < batch_size ->
  has_shape batch_size n x ->
  (n = Values.in_features proj
   /\ exists row, Values.heads_of Rzero Radd Rmul m proj batch_size x
                  = Some (single_position (Values.num_heads m) batch_size row))
  \/ (n <> Values.in_features proj
      /\ Values.heads_of Rzero Radd Rmul m proj batch_size x = None).
Proof.
  intros Hw Hb Hwidth Hbatch [Hlen Hrows]. unfold Values.heads_of.
  assert (x <> []) as Hne by (intros ->; simpl in Hlen; lia).
  destruct (project_rows proj n x Hrows Hne) as [(Hn & y & -> & Hy & Hall) | (Hn & ->)];
    [left | right; auto].
  split; [exact Hn|]. cbn [mbind option_bind].
  unfold Values.view_heads.
  rewrite Hw, Hb, Nat.min_id in Hall.
  rewrite (length_concat_rows _ _ Hall), Hy, Hlen.
  rewrite Nat.Div0.mod_same, Nat.div_same by lia.
  replace (0 <? batch_size * (Values.num_heads m * Values.head_dim m)) with true
    by (symmetry; apply Nat.ltb_lt; nia).
  cbn [andb Nat.eqb Values.check mbind option_bind seq map].
  eexists (fun i h => _). unfold single_position. reflexivity.
Qed.

(** The scores of one query and one key are a single score. *)
Lemma scores_single (m : Values.AttentionClassifier) (a b : list R) :
  exists x, Values.scores Rzero Radd Rmul Rdiv sqrt_nat m [a] [b] = [[x]].
Proof. eexists. reflexivity. Qed.

(** With one query and one key, the attention is the softmax of a single
    score, and the head returns what it makes of the value. *)
Lemma attend_head_single (m : Values.AttentionClassifier) (a a' b b' : list R)
    (v : list (list R)) :
  Forall (Forall finite) (Values.scores Rzero Radd Rmul Rdiv sqrt_nat m [a] [b]) ->
  Forall (Forall finite) (Values.scores Rzero Radd Rmul Rdiv sqrt_nat m [a'] [b']) ->
  Values.attend_head Rzero Radd Rmul Rdiv sqrt_nat softmax m [a] [b] v
  = Values.attend_head Rzero Radd Rmul Rdiv sqrt_nat softmax m [a'] [b'] v.
Proof.
  intros Hfin Hfin'. unfold Values.attend_head.
  destruct (scores_single m a b) as [x Hx]. destruct (scores_single m a' b') as [x' Hx'].
  rewrite Hx in Hfin |- *. rewrite Hx' in Hfin' |- *.
  apply Forall_cons in Hfin as [Hfin _]. apply Forall_cons in Hfin as [Hfin _].
  apply Forall_cons in Hfin' as [Hfin' _]. apply Forall_cons in Hfin' as [Hfin' _].
  cbn [map length]. rewrite (softmax_one x x' Hfin Hfin'). reflexivity.
Qed.

(** One element of the batch. *)
Lemma attend_single (m : Values.AttentionClassifier) (q q' k k' : nat -> list R)
    (v : list (list (list R))) :
  (forall h, h ∈ seq 0 (Values.num_heads m) ->
     Forall (Forall finite) (Values.scores Rzero Radd Rmul Rdiv sqrt_nat m [q h] [k h])
     /\ Forall (Forall finite)
          (Values.scores Rzero Radd Rmul Rdiv sqrt_nat m [q' h] [k' h])) ->
  Values.attend Rzero Radd Rmul Rdiv sqrt_nat softmax m
    (map (fun h => [q h]) (seq 0 (Values.num_heads m)),
     map (fun h => [k h]) (seq 0 (Values.num_heads m)), v)
  = Values.attend Rzero Radd Rmul Rdiv sqrt_nat softmax m
      (map (fun h => [q' h]) (seq 0 (Values.num_heads m)),
       map (fun h => [k' h]) (seq 0 (Values.num_heads m)), v).
Proof.
  intros Hfin. unfold Values.attend. rewrite !zip_fmap_same.
  rewrite (mapM_zip_fmap
             (fun x => Values.attend_head Rzero Radd Rmul Rdiv sqrt_nat softmax m
                         x.1.1 x.1.2 x.2)
             (fun h => ([q h], [k h])) (fun h => ([q' h], [k' h]))); [reflexivity|].
  intros h c Hh. cbn [fst snd].
  destruct (Hfin h Hh) as [H1 H2]. apply attend_head_single; assumption.
Qed.

(** X16.  In an [AttentionClassifier] as [__init__] builds it, where the
    projections of the query and of the key are as wide as
    [num_heads * head_dim], and for an instrument and a target tensor of as
    many rows, every element of the batch has one query and one key, and
    the attention is the softmax of a single score.  Where the scores are
    such that this softmax is the same for all of them (it is 1 for every
    finite float), [forward] returns the same for all instrument and target
    tensors of these shapes: the triplet logits are computed from the verb
    alone. *)
Theorem forward_ignores_instrument_and_target :
  forall (m : Values.AttentionClassifier) (batch i_num t_num : nat)
         (instrument instrument' target target' verb : list (list R)),
    length (Values.weight (Values.query_proj m)) = Values.num_heads m * Values.head_dim m ->
    length (Values.bias (Values.query_proj m)) = Values.num_heads m * Values.head_dim m ->
    length (Values.weight (Values.key_proj m)) = Values.num_heads m * Values.head_dim m ->
    length (Values.bias (Values.key_proj m)) = Values.num_heads m * Values.head_dim m ->
    0 < Values.num_heads m * Values.head_dim m ->
    has_shape batch i_num instrument -> has_shape batch i_num instrument' ->
    has_shape batch t_num target -> has_shape batch t_num target' ->
    (forall ss, Values.forward_scores Rzero Radd Rmul Rdiv sqrt_nat m instrument target verb
                = Some ss ->
                Forall (Forall (Forall (Forall finite))) ss) ->
    (forall ss, Values.forward_scores Rzero Radd Rmul Rdiv sqrt_nat m instrument' target' verb
                = Some ss ->
                Forall (Forall (Forall (Forall finite))) ss) ->
    Values.forward Rzero Radd Rmul Rdiv sqrt_nat softmax m instrument target verb
    = Values.forward Rzero Radd Rmul Rdiv sqrt_nat softmax m instrument' target' verb.
Proof.
  intros m batch i_num t_num instrument instrument' target target' verb
    Hqw Hqb Hkw Hkb Hwidth Hi Hi' Ht Ht' Hfin Hfin'.
  unfold Values.forward, Values.forward_scores, Values.qkv_inputs in *.
  destruct batch as [|batch0].
  { destruct Hi as [Hi _], Hi' as [Hi' _].
    apply nil_length_inv in Hi, Hi'. subst. reflexivity. }
  set (batch := S batch0) in *.
  assert (forall n (x : list (list R)), has_shape batch n x -> length <$> head x = Some n)
    as Hhead.
  { intros n x [Hlen Hrows]. destruct Hrows as [|r x Hr Hrows]; [discriminate|].
    simpl. rewrite Hr. reflexivity. }
  rewrite (Hhead _ _ Hi), (Hhead _ _ Hi'), (Hhead _ _ Ht), (Hhead _ _ Ht') in *.
  cbn [mbind option_bind] in *.
  destruct (length <$> head verb) as [v_num|]; [|reflexivity].
  cbn [mbind option_bind] in *.
  rewrite (view_2d_repeat_last batch i_num v_num instrument Hi) in *.
  rewrite (view_2d_repeat_last batch i_num v_num instrument' Hi') in *.
  destruct (0 <? i_num * v_num) eqn:Hiv; [|reflexivity].
  cbn [mbind option_bind] in *.
  rewrite (view_2d_repeat_last batch t_num v_num target Ht) in *.
  rewrite (view_2d_repeat_last batch t_num v_num target' Ht') in *.
  destruct (0 <? t_num * v_num) eqn:Htv; [|reflexivity].
  cbn [mbind option_bind] in *.
  destruct (Values.view_2d (v_num * i_num) (Values.repeat_rows i_num verb)) as [value|];
    [|reflexivity].
  cbn [mbind option_bind] in *. rewrite !length_map in *.
  destruct Hi as [Hilen Hirows], Hi' as [Hilen' Hirows'].
  destruct Ht as [Htlen Htrows], Ht' as [Htlen' Htrows'].
  rewrite Hilen, Hilen' in *.
  assert (forall n (x : list (list R)),
            length x = batch -> Forall (fun r => length r = n) x ->
            has_shape batch (n * v_num) (map (fun row => concat (replicate v_num row)) x))
    as Hrep.
  { intros n x Hlen Hrows. split; [rewrite length_map; exact Hlen|].
    apply Forall_fmap. eapply Forall_impl; [exact Hrows|].
    intros r Hr. simpl. rewrite length_concat_replicate, Hr. lia. }
  destruct (heads_of_rows m (Values.query_proj m) batch _ _ Hqw Hqb Hwidth
              ltac:(unfold batch; lia) (Hrep _ _ Hilen Hirows))
    as [(Hnq & q & Hq) | (Hnq & Hq)];
    destruct (heads_of_rows m (Values.query_proj m) batch _ _ Hqw Hqb Hwidth
                ltac:(unfold batch; lia) (Hrep _ _ Hilen' Hirows'))
      as [(Hnq' & q' & Hq') | (Hnq' & Hq')]; try contradiction;
    rewrite Hq, Hq' in *; [|reflexivity].
  cbn [mbind option_bind] in *.
  destruct (heads_of_rows m (Values.key_proj m) batch _ _ Hkw Hkb Hwidth
              ltac:(unfold batch; lia) (Hrep _ _ Htlen Htrows))
    as [(Hnk & k & Hk) | (Hnk & Hk)];
    destruct (heads_of_rows m (Values.key_proj m) batch _ _ Hkw Hkb Hwidth
                ltac:(unfold batch; lia) (Hrep _ _ Htlen' Htrows'))
      as [(Hnk' & k' & Hk') | (Hnk' & Hk')]; try contradiction;
    rewrite Hk, Hk' in *; [|reflexivity].
  cbn [mbind option_bind] in *.
  destruct (Values.heads_of Rzero Radd Rmul m (Values.value_proj m) batch value)
    as [value_heads|]; [|reflexivity].
  cbn [mbind option_bind].
  specialize (Hfin _ eq_refl). specialize (Hfin' _ eq_refl).
  unfold single_position in *.
  rewrite zip_with_fmap_same in Hfin, Hfin'.
  rewrite Forall_fmap, Forall_forall in Hfin, Hfin'.
  rewrite !zip_fmap_same.
  rewrite (mapM_zip_fmap (Values.attend Rzero Radd Rmul Rdiv sqrt_nat softmax m)
             (fun i => (map (fun h => [q i h]) (seq 0 (Values.num_heads m)),
                        map (fun h => [k i h]) (seq 0 (Values.num_heads m))))
             (fun i => (map (fun h => [q' i h]) (seq 0 (Values.num_heads m)),
                        map (fun h => [k' i h]) (seq 0 (Values.num_heads m)))));
    [reflexivity|].
  intros i c Hin. apply attend_single. intros h Hh.
  specialize (Hfin i Hin). specialize (Hfin' i Hin). simpl in Hfin, Hfin'.
  rewrite zip_with_fmap_same in Hfin, Hfin'.
  rewrite Forall_fmap, Forall_forall in Hfin, Hfin'.
  split; [exact (Hfin h Hh) | exact (Hfin' h Hh)].
Qed.

End TripletClassifier.

Lemma forward_ignores_instrument_and_target_witness :
  let forward := Values.forward 0%Z Z.add Z.mul Z.div Z.of_nat (map (fun _ => 1%Z)) in
  forward sample_classifier [[1; 2]]%Z [[3]]%Z [[10; 20]]%Z = Some (inl [[30; 10; 20]]%Z)
  /\ forward sample_classifier [[1; 2]]%Z [[3]]%Z [[10; 20]]%Z
     = forward sample_classifier [[8; 9]]%Z [[4]]%Z [[10; 20]]%Z.
Proof.
  split; [vm_compute; reflexivity|].
  apply (forward_ignores_instrument_and_target 0%Z Z.add Z.mul Z.div Z.of_nat
           (map (fun _ => 1%Z)) (fun _ => True) (fun _ _ _ _ => eq_refl)
           sample_classifier 1 2 1);
    try reflexivity; try (simpl; lia); try (split; [reflexivity | repeat constructor]).
  - intros ss [= <-]. repeat constructor.
  - intros ss [= <-]. repeat constructor.
Defined.

(** With one row of the instrument and two rows of the target and of the
    verb, every head has two keys, and the output follows the target: here
    with the scores themselves in the place of their softmax. *)
Example forward_two_key_positions :
  let forward := Values.forward 0%Z Z.add Z.mul Z.div Z.of_nat (fun scores => scores) in
  forward sample_classifier [[1; 2]]%Z [[3]; [4]]%Z [[10; 20]; [30; 40]]%Z
  = Some (inl [[10720; 1120; 9600]]%Z)
  /\ forward sample_classifier [[1; 2]]%Z [[3]; [5]]%Z [[10; 20]; [30; 40]]%Z
     = Some (inl [[12080; 1280; 10800]]%Z).
Proof. split; vm_compute; reflexivity. Qed.
